(** * Google Tasks MCP server: the tool handlers of [server.py]

    A shallow embedding of the ten tool handlers, of the list resolver
    [_resolve_tasklist_id] and of the search predicate [_match], with the
    properties the specification states about them.

    Modelling choices.
    - Python [str] values are [string]s whose characters are the code
      points below 256; [str.lower], [in] and the ordering of strings are
      defined on them as Python defines them on that range.
    - The values the API client returns are JSON documents ([json]); a
      Python [dict] is an association list in insertion order with unique
      keys.  The handlers are dynamically typed, so every operation on a
      [json] value that Python can refuse raises, as in Python.
    - A handler runs in a state and exception monad: the state is the
      [trace] of remote calls issued so far, each with what the remote
      service answered (a document, or an exception).
    - The remote service is any function from the calls issued so far and
      the present call to an answer; [get_google_tasks_service] is
      represented by its result (it raises, returns [None], or returns a
      service); its body is embedded in the module [Provider], over an
      environment that answers for the working directory, the token, the
      files, the refresh, the consent flow and the build, with the log of
      the effects it has.
    - Exceptions are the subclasses of [Exception], which is what the
      handlers' [except Exception] designates.
    - The wording of the interpreter's own error messages, the text of a
      list in an f-string and the way [strftime] writes a year below 1000
      are parameters ([PyRuntime]): no handler branches on them. *)

From Stdlib Require Import ZArith List String Ascii Bool Lia.
Import ListNotations.
Local Open Scope list_scope.
Local Open Scope string_scope.
Local Open Scope Z_scope.

(** ** Values *)

#[local] Set Warnings "-register-all".

Inductive json : Type :=
| JNull
| JBool (b : bool)
| JNum (n : Z)
| JStr (s : string)
| JList (l : list json)
| JDict (d : list (string * json)).

Definition dict := list (string * json).

(** [bool(v)]. *)
Definition truthy (v : json) : bool :=
  match v with
  | JNull => false
  | JBool b => b
  | JNum n => negb (n =? 0)
  | JStr s => negb (s =? "")%string
  | JList l => match l with [] => false | _ => true end
  | JDict d => match d with [] => false | _ => true end
  end.

(** *** Dictionaries *)

Fixpoint lookup (k : string) (d : dict) : option json :=
  match d with
  | [] => None
  | (k', v) :: d' => if (k =? k')%string then Some v else lookup k d'
  end.

(** [k in d]. *)
Definition has_key (k : string) (d : dict) : bool :=
  match lookup k d with Some _ => true | None => false end.

(** [d[k] = v]: an existing key keeps its place. *)
Fixpoint dict_set (k : string) (v : json) (d : dict) : dict :=
  match d with
  | [] => [(k, v)]
  | (k', v') :: d' =>
      if (k =? k')%string then (k, v) :: d' else (k', v') :: dict_set k v d'
  end.

(** [{**d1, **d2}]. *)
Definition dict_merge (d1 d2 : dict) : dict :=
  fold_left (fun acc kv => dict_set (fst kv) (snd kv) acc) d2 d1.

(** ** Strings *)

Definition in_range (lo hi : N) (c : ascii) : bool :=
  let n := N_of_ascii c in (lo <=? n)%N && (n <=? hi)%N.

(** [str.lower] on one code point below 256: the letters A-Z and the
    Latin-1 capitals U+00C0-U+00DE, the multiplication sign U+00D7 apart. *)
Definition lower_char (c : ascii) : ascii :=
  if in_range 65 90 c
     || (in_range 192 222 c && negb (N_of_ascii c =? 215)%N)
  then ascii_of_N (N_of_ascii c + 32)
  else c.

Fixpoint lower (s : string) : string :=
  match s with
  | EmptyString => EmptyString
  | String c s' => String (lower_char c) (lower s')
  end.

(** [needle in hay]. *)
Fixpoint contains (needle hay : string) : bool :=
  if prefix needle hay then true
  else match hay with
       | EmptyString => false
       | String _ hay' => contains needle hay'
       end.

(** [c in s] for a single character. *)
Fixpoint has_char (c : ascii) (s : string) : bool :=
  match s with
  | EmptyString => false
  | String c' s' => (c =? c')%char || has_char c s'
  end.

(** [a > b] and [a < b] on strings: by code point, a proper prefix first. *)
Definition str_gt (a b : string) : bool :=
  match String.compare a b with Gt => true | _ => false end.

Definition str_lt (a b : string) : bool :=
  match String.compare a b with Lt => true | _ => false end.

(** ** Exceptions *)

Inductive exn_class : Type :=
| HttpError | ValueError | KeyError | TypeError | AttributeError
| OtherException.

(** An exception: its class and the text [str(e)]. *)
Record exn : Type := Exn { exn_class_of : exn_class; exn_str : string }.

(** What the interpreter and the standard library refuse. *)
Inductive fault : Type :=
| NoAttribute (v : json) (attr : string)
| MissingKey (key : string)
| BadSubscript (v : json) (key : string)
| NotIterable (v : json)
| BadConcat (l r : json)
| BadOrder (op : string) (l r : json)
| BadTimeData (data : string)
| UnconvertedData (rest : string)
| BadDate (y m d : Z).

Definition fault_class (f : fault) : exn_class :=
  match f with
  | NoAttribute _ _ => AttributeError
  | MissingKey _ => KeyError
  | BadSubscript _ _ | NotIterable _ | BadConcat _ _ | BadOrder _ _ _ => TypeError
  | BadTimeData _ | UnconvertedData _ | BadDate _ _ _ => ValueError
  end.

(** The parts of the Python runtime whose wording depends on the
    interpreter and the C library, and on which no handler branches:
    the message of a runtime exception, the text of a list in an f-string,
    and how [strftime] writes [%Y] for a year below 1000. *)
Class PyRuntime : Type := {
  fault_text : fault -> string;
  str_of_list : list json -> string;
  strftime_Y_small : Z -> string
}.

(** What a step yields: [inl e] when it raises [e], [inr a] when it
    returns [a]. *)
Abbreviation outcome A := (sum exn A).

Definition is_raise {A : Type} (r : outcome A) : bool :=
  match r with inl _ => true | inr _ => false end.

(** ** Operations on values, as the interpreter performs them *)

Section Runtime.
Context `{PyRuntime}.

Definition throw {A : Type} (f : fault) : outcome A :=
  inl (Exn (fault_class f) (fault_text f)).

(** [v.get(k, default)]. *)
Definition py_get (v : json) (k : string) (default : json) : outcome json :=
  match v with
  | JDict d => inr (match lookup k d with Some x => x | None => default end)
  | _ => throw (NoAttribute v "get")
  end.

(** [v[k]] for a string [k]. *)
Definition py_getitem (v : json) (k : string) : outcome json :=
  match v with
  | JDict d =>
      match lookup k d with
      | Some x => inr x
      | None => throw (MissingKey k)
      end
  | _ => throw (BadSubscript v k)
  end.

Fixpoint chars (s : string) : list json :=
  match s with
  | EmptyString => []
  | String c s' => JStr (String c EmptyString) :: chars s'
  end.

(** The items [for x in v] runs through. *)
Definition py_iter (v : json) : outcome (list json) :=
  match v with
  | JList l => inr l
  | JDict d => inr (map (fun kv => JStr (fst kv)) d)
  | JStr s => inr (chars s)
  | _ => throw (NotIterable v)
  end.

(** [l + r], where the handlers use it: both must be strings. *)
Definition py_add (l r : json) : outcome string :=
  match l, r with
  | JStr a, JStr b => inr (a ++ b)
  | _, _ => throw (BadConcat l r)
  end.

(** [v > bound] and [v < bound] against a string. *)
Definition py_gt (v : json) (bound : string) : outcome bool :=
  match v with
  | JStr s => inr (str_gt s bound)
  | _ => throw (BadOrder ">" v (JStr bound))
  end.

Definition py_lt (v : json) (bound : string) : outcome bool :=
  match v with
  | JStr s => inr (str_lt s bound)
  | _ => throw (BadOrder "<" v (JStr bound))
  end.

(** [s == v] for a string [s]. *)
Definition str_eq_json (s : string) (v : json) : bool :=
  match v with JStr s' => (s =? s')%string | _ => false end.

(** [s in l] for a string [s] and a list [l]. *)
Definition str_in_list (s : string) (l : list json) : bool :=
  existsb (str_eq_json s) l.

End Runtime.

(** ** Dates: [datetime.strptime(due, "%Y-%m-%d")] and [strftime]

    [strptime] compiles the format to the regular expression
    [(\d\d\d\d)-(1[0-2]|0[1-9]|[1-9])-(3[0-1]|[1-2]\d|0[1-9]|[1-9]| [1-9])],
    matches it at the start of the text (alternatives in order, with
    backtracking), refuses text left over, converts the groups with
    [int] and builds the date, which refuses a year or day out of range. *)

Definition is_digit (c : ascii) : bool := in_range 48 57 c.

Definition is_char (c : ascii) (x : ascii) : bool := (c =? x)%char.

(** A group of one or two characters: the text matched and the rest. *)
Definition seq1 (p : ascii -> bool) (s : string) : option (string * string) :=
  match s with
  | String a r => if p a then Some (String a "", r) else None
  | _ => None
  end.

Definition seq2 (p q : ascii -> bool) (s : string)
  : option (string * string) :=
  match s with
  | String a (String b r) =>
      if p a && q b then Some (String a (String b ""), r) else None
  | _ => None
  end.

Definition seq4 (p : ascii -> bool) (s : string) : option (string * string) :=
  match s with
  | String a (String b (String c (String d r))) =>
      if p a && p b && p c && p d
      then Some (String a (String b (String c (String d ""))), r)
      else None
  | _ => None
  end.

(** The first alternative after which the rest of the pattern matches. *)
Fixpoint first_alt {R : Type} (alts : list (string -> option (string * string)))
  (k : string -> string -> option R) (s : string) : option R :=
  match alts with
  | [] => None
  | a :: alts' =>
      match match a s with Some (g, r) => k g r | None => None end with
      | Some x => Some x
      | None => first_alt alts' k s
      end
  end.

Definition month_alts : list (string -> option (string * string)) :=
  [ seq2 (is_char "1") (in_range 48 50);
    seq2 (is_char "0") (in_range 49 57);
    seq1 (in_range 49 57) ].

Definition day_alts : list (string -> option (string * string)) :=
  [ seq2 (is_char "3") (in_range 48 49);
    seq2 (in_range 49 50) is_digit;
    seq2 (is_char "0") (in_range 49 57);
    seq1 (in_range 49 57);
    seq2 (is_char " ") (in_range 49 57) ].

Definition dash (s : string) : option string :=
  match s with
  | String c r => if (c =? "-")%char then Some r else None
  | _ => None
  end.

(** The groups Y, m, d and the text after the match. *)
Definition match_ymd (data : string)
  : option (string * string * string * string) :=
  match seq4 is_digit data with
  | Some (Y, r1) =>
      match dash r1 with
      | Some r2 =>
          first_alt month_alts
            (fun m r3 =>
               match dash r3 with
               | Some r4 => first_alt day_alts (fun d r5 => Some (Y, m, d, r5)) r4
               | None => None
               end) r2
      | None => None
      end
  | None => None
  end.

(** [int(text)] for a group: decimal digits, blanks ignored. *)
Fixpoint int_acc (acc : Z) (s : string) : Z :=
  match s with
  | EmptyString => acc
  | String c s' =>
      if is_digit c then int_acc (10 * acc + (Z.of_N (N_of_ascii c) - 48)) s'
      else int_acc acc s'
  end.

Definition py_int (s : string) : Z := int_acc 0 s.

Definition is_leap (y : Z) : bool :=
  (y mod 4 =? 0) && (negb (y mod 100 =? 0) || (y mod 400 =? 0)).

Definition days_in_month (y m : Z) : Z :=
  if m =? 2 then (if is_leap y then 29 else 28)
  else if (m =? 4) || (m =? 6) || (m =? 9) || (m =? 11) then 30
  else 31.

Definition valid_date (y m d : Z) : bool :=
  (1 <=? y) && (y <=? 9999) && (1 <=? m) && (m <=? 12)
  && (1 <=? d) && (d <=? days_in_month y m).

Section Dates.
Context `{PyRuntime}.

Definition strptime_ymd (data : string) : outcome (Z * Z * Z) :=
  match match_ymd data with
  | None => throw (BadTimeData data)
  | Some (Y, m, d, rest) =>
      if (rest =? "")%string then
        let year := py_int Y in
        let month := py_int m in
        let day := py_int d in
        if valid_date year month day then inr (year, month, day)
        else throw (BadDate year month day)
      else throw (UnconvertedData rest)
  end.

Definition digit_char (n : Z) : ascii := ascii_of_N (Z.to_N n + 48).

Definition pad2 (n : Z) : string :=
  String (digit_char (n / 10)) (String (digit_char (n mod 10)) "").

Definition strftime_Y (y : Z) : string :=
  if 1000 <=? y
  then String (digit_char (y / 1000)) (String (digit_char (y / 100 mod 10))
         (pad2 (y mod 100)))
  else strftime_Y_small y.

(** [date_obj.strftime("%Y-%m-%dT00:00:00.000Z")]. *)
Definition strftime_due (date : Z * Z * Z) : string :=
  let '(y, m, d) := date in
  strftime_Y y ++ "-" ++ pad2 m ++ "-" ++ pad2 d ++ "T00:00:00.000Z".

End Dates.

(** ** Remote calls and the handler monad *)

(** The methods of the API client the handlers execute, with their
    keyword arguments. *)
Inductive call : Type :=
| TasklistsList
| TasklistsInsert (body : dict)
| TasksList (tasklist : json) (maxResults : Z) (showCompleted showDeleted : bool)
| TasksGet (tasklist : json) (task : string)
| TasksInsert (tasklist : json) (body : dict) (parent previous : option string)
| TasksPatch (tasklist : json) (task : string) (body : dict)
| TasksMove (tasklist : json) (task : string) (parent previous : option string)
| TasksDelete (tasklist : json) (task : string).

(** A call issued and what [execute()] did: returned a document or raised. *)
Abbreviation event := (prod call (outcome json)).
Abbreviation trace := (list event).

(** The remote service: its answer to a call, given all that went before. *)
Definition service : Type := trace -> call -> outcome json.

Definition M (A : Type) : Type := trace -> trace * outcome A.

Definition ret {A : Type} (a : A) : M A := fun tr => (tr, inr a).

Definition raise {A : Type} (e : exn) : M A := fun tr => (tr, inl e).

Definition bind {A B : Type} (m : M A) (k : A -> M B) : M B :=
  fun tr =>
    match m tr with
    | (tr', inr a) => k a tr'
    | (tr', inl e) => (tr', inl e)
    end.

(** [try: body  except ... as e: handler e]. *)
Definition try_except {A : Type} (body : M A) (handler : exn -> M A) : M A :=
  fun tr =>
    match body tr with
    | (tr', inl e) => handler e tr'
    | r => r
    end.

(** A pure operation that may raise. *)
Definition lift {A : Type} (r : outcome A) : M A := fun tr => (tr, r).

(** [request.execute()]. *)
Definition execute (svc : service) (c : call) : M json :=
  fun tr => let r := svc tr c in ((tr ++ [(c, r)])%list, r).

Declare Scope py_scope.
Delimit Scope py_scope with py.
Notation "x <- m ;; k" := (bind m (fun x => k))
  (at level 100, m at next level, right associativity) : py_scope.
Local Open Scope py_scope.

(** A handler call from the dispatch host starts with no call issued. *)
Definition run {A : Type} (m : M A) : trace * outcome A := m [].

(** Pure steps that may raise are sequenced the same way. *)
Definition obind {A B : Type} (r : outcome A) (k : A -> outcome B)
  : outcome B :=
  match r with
  | inr a => k a
  | inl e => inl e
  end.

Notation "x <~ r ;; k" := (obind r (fun x => k))
  (at level 100, r at next level, right associativity) : py_scope.

(** A comprehension [[f x for x in l]] whose body may raise. *)
Fixpoint for_each {A B : Type} (f : A -> outcome B) (l : list A)
  : outcome (list B) :=
  match l with
  | [] => inr []
  | x :: l' => y <~ f x ;; ys <~ for_each f l' ;; inr (y :: ys)
  end.

(** A comprehension [[x for x in l if p x]] whose test may raise. *)
Fixpoint filter_each {A : Type} (p : A -> outcome bool) (l : list A)
  : outcome (list A) :=
  match l with
  | [] => inr []
  | x :: l' =>
      b <~ p x ;; ys <~ filter_each p l' ;; inr (if b then x :: ys else ys)
  end.

(** [body] with its exception, if any, handed back as a value. *)
Definition attempt {A : Type} (body : M A) : M (outcome A) :=
  fun tr => let '(tr', r) := body tr in (tr', inr r).

Definition is_given (o : option string) : bool :=
  match o with Some _ => true | None => false end.

(** [if o is not None: d[k] = o]. *)
Definition set_if_given (k : string) (o : option string) (d : dict) : dict :=
  match o with
  | Some v => dict_set k (JStr v) d
  | None => d
  end.

(** ** The handlers *)

Section Handlers.
Context `{PyRuntime}.

(** The result of [get_google_tasks_service()]: it raises, or returns
    [None], or returns the service. *)
Definition auth_result : Type := outcome (option service).

Definition get_google_tasks_service (auth : auth_result)
  : M (option service) := lift auth.

(** [[tl['id'] for tl in tasklists.get('items', [])]]. *)
Definition available_ids (tasklists : json) : outcome (list json) :=
  items <~ py_get tasklists "items" (JList []) ;;
  tls <~ py_iter items ;;
  for_each (fun tl => py_getitem tl "id") tls.

Definition _resolve_tasklist_id (svc : service) (tasklist_id : string)
  : M dict :=
  tasklists <- execute svc TasklistsList ;;
  available_lists <- lift (available_ids tasklists) ;;
  if (tasklist_id =? "@default")%string then
    match available_lists with
    | [] =>
        ret [("error", JStr "No task lists found.");
             ("available_lists", JList [])]
    | first :: _ =>
        ret [("tasklist_id", first);
             ("available_lists", JList available_lists)]
    end
  else if negb (str_in_list tasklist_id available_lists) then
    ret [("error", JStr ("Task list '" ++ tasklist_id ++ "' not found."));
         ("available_lists", JList available_lists)]
  else
    ret [("tasklist_id", JStr tasklist_id);
         ("available_lists", JList available_lists)].

(** Every handler is a [try] block, named with the suffix [_try] below,
    closed by two [except] clauses.  These are the clauses of every
    handler but [get_tasks] and [list_tasklists]. *)
Definition on_error (e : exn) : M dict :=
  match exn_class_of e with
  | HttpError =>
      ret [("error", JStr ("Google Tasks API error: " ++ exn_str e))]
  | _ => ret [("error", JStr (exn_str e))]
  end.

(** The opening lines of those handlers: the service, or the
    authentication envelope. *)
Definition with_service (auth : auth_result) (k : service -> M dict)
  : M dict :=
  service <- get_google_tasks_service auth ;;
  match service with
  | None => ret [("error", JStr "Auth failed")]
  | Some svc => k svc
  end.

(** The next lines of the eight task-level handlers: the resolved list,
    or the resolver's envelope. *)
Definition with_tasklist (svc : service) (tasklist_id : string)
  (k : json -> M dict) : M dict :=
  resolved <- _resolve_tasklist_id svc tasklist_id ;;
  if has_key "error" resolved then
    err <- lift (py_getitem (JDict resolved) "error") ;;
    ret (dict_merge [("error", err)] resolved)
  else
    tasklist_id <- lift (py_getitem (JDict resolved) "tasklist_id") ;;
    k tasklist_id.

Definition format_task (task : json) : outcome json :=
  id <~ py_get task "id" JNull ;;
  title <~ py_get task "title" (JStr "") ;;
  status <~ py_get task "status" (JStr "needsAction") ;;
  notes <~ py_get task "notes" (JStr "") ;;
  due <~ py_get task "due" JNull ;;
  updated <~ py_get task "updated" JNull ;;
  position <~ py_get task "position" JNull ;;
  parent <~ py_get task "parent" JNull ;;
  links <~ py_get task "links" (JList []) ;;
  inr (JDict [("id", id); ("title", title); ("status", status);
              ("notes", notes); ("due", due); ("updated", updated);
              ("position", position); ("parent", parent); ("links", links)]).

(** The [except] clauses of [get_tasks]; they read the variable
    [tasklist_id] as it stands when the exception arrives. *)
Definition get_tasks_on_error (tasklist_id : json) (e : exn) : M dict :=
  match exn_class_of e with
  | HttpError =>
      ret [("error", JStr ("Google Tasks API error: " ++ exn_str e));
           ("tasklist_id", tasklist_id); ("tasks", JList [])]
  | _ =>
      ret [("error", JStr ("Error retrieving tasks: " ++ exn_str e));
           ("tasklist_id", tasklist_id); ("tasks", JList [])]
  end.

(** The lines of [get_tasks] after the list is settled. *)
Definition get_tasks_fetch (svc : service) (tasklist_id : json)
  (available_lists : list json) (max_results : Z)
  (show_completed show_deleted : bool) : M dict :=
  results <- execute svc
    (TasksList tasklist_id max_results
       (if negb show_completed then false else true)
       (if negb show_deleted then false else true)) ;;
  tasks <- lift (py_get results "items" (JList [])) ;;
  tasks <- lift (py_iter tasks) ;;
  formatted_tasks <- lift (for_each format_task tasks) ;;
  ret [("tasklist_id", tasklist_id);
       ("max_results", JNum max_results);
       ("show_completed", JBool show_completed);
       ("show_deleted", JBool show_deleted);
       ("total_tasks", JNum (Z.of_nat (List.length formatted_tasks)));
       ("tasks", JList formatted_tasks);
       ("available_lists", JList available_lists)].

(** The [try] block of [get_tasks].  The variable [tasklist_id] is rebound
    when the alias is resolved, and the [except] clauses read it: the
    inner [try_except] is the same [try] seen from the statements that run
    after the rebinding. *)
Definition get_tasks_try (auth : auth_result) (tasklist_id : string)
  (max_results : Z) (show_completed show_deleted : bool) : M dict :=
  service <- get_google_tasks_service auth ;;
  match service with
  | None =>
      ret [("error", JStr "Failed to authenticate with Google Tasks API. Please check your credentials.");
           ("tasklist_id", JStr tasklist_id); ("tasks", JList [])]
  | Some svc =>
      tasklists <- execute svc TasklistsList ;;
      available_lists <- lift (available_ids tasklists) ;;
      if (tasklist_id =? "@default")%string then
        match available_lists with
        | [] =>
            ret [("error", JStr "No task lists found in your Google Tasks account.");
                 ("tasklist_id", JStr tasklist_id); ("tasks", JList [])]
        | first :: _ =>
            try_except
              (get_tasks_fetch svc first available_lists max_results
                 show_completed show_deleted)
              (get_tasks_on_error first)
        end
      else if negb (str_in_list tasklist_id available_lists) then
        ret [("error", JStr ("Task list '" ++ tasklist_id
                             ++ "' not found. Available lists: "
                             ++ str_of_list available_lists));
             ("tasklist_id", JStr tasklist_id);
             ("available_lists", JList available_lists);
             ("tasks", JList [])]
      else
        get_tasks_fetch svc (JStr tasklist_id) available_lists max_results
          show_completed show_deleted
  end.

Definition get_tasks (auth : auth_result) (tasklist_id : string)
  (max_results : Z) (show_completed show_deleted : bool) : M dict :=
  try_except
    (get_tasks_try auth tasklist_id max_results show_completed show_deleted)
    (get_tasks_on_error (JStr tasklist_id)).

Definition format_list (tasklist : json) : outcome json :=
  id <~ py_get tasklist "id" JNull ;;
  title <~ py_get tasklist "title" (JStr "") ;;
  updated <~ py_get tasklist "updated" JNull ;;
  self_link <~ py_get tasklist "selfLink" JNull ;;
  inr (JDict [("id", id); ("title", title); ("updated", updated);
              ("self_link", self_link)]).

Definition list_tasklists_try (auth : auth_result) : M dict :=
  service <- get_google_tasks_service auth ;;
  match service with
  | None =>
      ret [("error", JStr "Failed to authenticate with Google Tasks API. Please check your credentials.");
           ("tasklists", JList [])]
  | Some svc =>
      results <- execute svc TasklistsList ;;
      tasklists <- lift (py_get results "items" (JList [])) ;;
      tasklists <- lift (py_iter tasklists) ;;
      formatted_lists <- lift (for_each format_list tasklists) ;;
      ret [("total_lists", JNum (Z.of_nat (List.length formatted_lists)));
           ("tasklists", JList formatted_lists)]
  end.

Definition list_tasklists_on_error (e : exn) : M dict :=
  match exn_class_of e with
  | HttpError =>
      ret [("error", JStr ("Google Tasks API error: " ++ exn_str e));
           ("tasklists", JList [])]
  | _ =>
      ret [("error", JStr ("Error retrieving task lists: " ++ exn_str e));
           ("tasklists", JList [])]
  end.

Definition list_tasklists (auth : auth_result) : M dict :=
  try_except (list_tasklists_try auth) list_tasklists_on_error.

(** The [try] of [create_task] around the due date. *)
Definition format_due (due : string) : outcome string :=
  if has_char "T" due then inr due
  else date_obj <~ strptime_ymd due ;; inr (strftime_due date_obj).

Definition create_task_try (auth : auth_result) (title due tasklist_id : string)
  (notes parent position : option string) : M dict :=
  with_service auth (fun service =>
  with_tasklist service tasklist_id (fun tasklist_id =>
    formatted <- attempt (lift (format_due due)) ;;
    match formatted with
    | inl e =>
        match exn_class_of e with
        | ValueError =>
            ret [("error", JStr ("Invalid date format. Please use YYYY-MM-DD format (e.g., '2024-12-31'). Error: " ++ exn_str e))]
        | _ => raise e
        end
    | inr due_formatted =>
        let body := [("title", JStr title); ("due", JStr due_formatted)] in
        let body := set_if_given "notes" notes body in
        created <- execute service
          (TasksInsert tasklist_id body parent position) ;;
        ret [("tasklist_id", tasklist_id); ("task", created)]
    end)).

Definition create_task (auth : auth_result) (title due tasklist_id : string)
  (notes parent position : option string) : M dict :=
  try_except
    (create_task_try auth title due tasklist_id notes parent position)
    on_error.

Definition update_task_try (auth : auth_result) (task_id tasklist_id : string)
  (title notes due status parent position : option string) : M dict :=
  with_service auth (fun service =>
  with_tasklist service tasklist_id (fun tasklist_id =>
    current <- execute service (TasksGet tasklist_id task_id) ;;
    let body := [] in
    let body := set_if_given "title" title body in
    let body := set_if_given "notes" notes body in
    let body := set_if_given "due" due body in
    let body := set_if_given "status" status body in
    updated <- execute service (TasksPatch tasklist_id task_id body) ;;
    updated <-
      (if is_given parent || is_given position
       then execute service (TasksMove tasklist_id task_id parent position)
       else ret updated) ;;
    ret [("tasklist_id", tasklist_id); ("task", updated)])).

Definition update_task (auth : auth_result) (task_id tasklist_id : string)
  (title notes due status parent position : option string) : M dict :=
  try_except
    (update_task_try auth task_id tasklist_id title notes due status parent
       position)
    on_error.

Definition complete_task_try (auth : auth_result) (task_id tasklist_id : string)
  (completed : bool) : M dict :=
  with_service auth (fun service =>
  with_tasklist service tasklist_id (fun tasklist_id =>
    let status := if completed then "completed" else "needsAction" in
    updated <- execute service
      (TasksPatch tasklist_id task_id [("status", JStr status)]) ;;
    ret [("tasklist_id", tasklist_id); ("task", updated)])).

Definition complete_task (auth : auth_result) (task_id tasklist_id : string)
  (completed : bool) : M dict :=
  try_except (complete_task_try auth task_id tasklist_id completed) on_error.

Definition delete_task_try (auth : auth_result) (task_id tasklist_id : string)
  : M dict :=
  with_service auth (fun service =>
  with_tasklist service tasklist_id (fun tasklist_id =>
    _ <- execute service (TasksDelete tasklist_id task_id) ;;
    ret [("tasklist_id", tasklist_id); ("deleted", JBool true);
         ("task_id", JStr task_id)])).

Definition delete_task (auth : auth_result) (task_id tasklist_id : string)
  : M dict :=
  try_except (delete_task_try auth task_id tasklist_id) on_error.

Definition create_tasklist_try (auth : auth_result) (title : string) : M dict :=
  with_service auth (fun service =>
    created <- execute service (TasklistsInsert [("title", JStr title)]) ;;
    ret [("tasklist", created)]).

Definition create_tasklist (auth : auth_result) (title : string) : M dict :=
  try_except (create_tasklist_try auth title) on_error.

Definition get_task_try (auth : auth_result) (task_id tasklist_id : string)
  : M dict :=
  with_service auth (fun service =>
  with_tasklist service tasklist_id (fun tasklist_id =>
    task <- execute service (TasksGet tasklist_id task_id) ;;
    ret [("tasklist_id", tasklist_id); ("task", task)])).

Definition get_task (auth : auth_result) (task_id tasklist_id : string)
  : M dict :=
  try_except (get_task_try auth task_id tasklist_id) on_error.

(** The closure [_match] of [search_tasks], over its [query], [due_before]
    and [due_after]. *)
Definition _match (query due_before due_after : option string) (t : json)
  : outcome bool :=
  text_ok <~
    (match query with
     | Some q =>
         if negb (q =? "")%string then
           title <~ py_get t "title" (JStr "") ;;
           head <~ py_add title (JStr " ") ;;
           notes <~ py_get t "notes" (JStr "") ;;
           text <~ py_add (JStr head) notes ;;
           inr (contains (lower q) (lower text))
         else inr true
     | None => inr true
     end) ;;
  if negb text_ok then inr false
  else
    too_late <~
      (match due_before with
       | Some bound =>
           if negb (bound =? "")%string then
             due <~ py_get t "due" JNull ;;
             if truthy due then (due <~ py_getitem t "due" ;; py_gt due bound)
             else inr false
           else inr false
       | None => inr false
       end) ;;
    if too_late then inr false
    else
      too_early <~
        (match due_after with
         | Some bound =>
             if negb (bound =? "")%string then
               due <~ py_get t "due" JNull ;;
               if truthy due then (due <~ py_getitem t "due" ;; py_lt due bound)
               else inr false
             else inr false
         | None => inr false
         end) ;;
      if too_early then inr false else inr true.

Definition search_tasks_try (auth : auth_result) (tasklist_id : string)
  (query : option string) (include_completed include_deleted : bool)
  (due_before due_after : option string) (max_results : Z) : M dict :=
  with_service auth (fun service =>
  with_tasklist service tasklist_id (fun tasklist_id =>
    results <- execute service
      (TasksList tasklist_id max_results include_completed include_deleted) ;;
    items <- lift (py_get results "items" (JList [])) ;;
    items <- lift (py_iter items) ;;
    filtered <- lift (filter_each (_match query due_before due_after) items) ;;
    ret [("tasklist_id", tasklist_id);
         ("total", JNum (Z.of_nat (List.length filtered)));
         ("tasks", JList filtered)])).

Definition search_tasks (auth : auth_result) (tasklist_id : string)
  (query : option string) (include_completed include_deleted : bool)
  (due_before due_after : option string) (max_results : Z) : M dict :=
  try_except
    (search_tasks_try auth tasklist_id query include_completed
       include_deleted due_before due_after max_results)
    on_error.

Definition move_task_try (auth : auth_result) (task_id tasklist_id : string)
  (parent previous : option string) : M dict :=
  with_service auth (fun service =>
  with_tasklist service tasklist_id (fun tasklist_id =>
    moved <- execute service
      (TasksMove tasklist_id task_id parent previous) ;;
    ret [("tasklist_id", tasklist_id); ("task", moved)])).

Definition move_task (auth : auth_result) (task_id tasklist_id : string)
  (parent previous : option string) : M dict :=
  try_except (move_task_try auth task_id tasklist_id parent previous)
    on_error.

End Handlers.

(** ** The notions the specification is stated with *)

(** [needle] occurs in [hay]. *)
Definition occurs_in (needle hay : string) : Prop :=
  exists before after, hay = before ++ needle ++ after.

(** [s] ends with [suffix]. *)
Definition ends_with (suffix s : string) : Prop :=
  exists before, s = before ++ suffix.

(** Strict lexicographic order on strings, by code point. *)
Inductive lex_lt : string -> string -> Prop :=
| lex_lt_nil : forall c s, lex_lt "" (String c s)
| lex_lt_head : forall c1 c2 s1 s2,
    (N_of_ascii c1 < N_of_ascii c2)%N -> lex_lt (String c1 s1) (String c2 s2)
| lex_lt_tail : forall c s1 s2,
    lex_lt s1 s2 -> lex_lt (String c s1) (String c s2).

(** A text field of a task: absent reads as the empty string. *)
Definition str_field (k : string) (d : dict) : option string :=
  match lookup k d with
  | None => Some ""
  | Some (JStr s) => Some s
  | Some _ => None
  end.

(** A runtime to evaluate the handlers with: runtime messages reduced to
    the name of what was refused, lists written with their string items,
    short years padded to four digits. *)
Definition sample_fault_text (f : fault) : string :=
  match f with
  | NoAttribute _ attr => "no attribute '" ++ attr ++ "'"
  | MissingKey key => "'" ++ key ++ "'"
  | BadSubscript _ _ => "bad subscript"
  | NotIterable _ => "object is not iterable"
  | BadConcat _ _ => "can only concatenate str to str"
  | BadOrder op _ _ => "'" ++ op ++ "' not supported"
  | BadTimeData data => "time data '" ++ data ++ "' does not match format '%Y-%m-%d'"
  | UnconvertedData rest => "unconverted data remains: " ++ rest
  | BadDate _ _ _ => "date out of range"
  end.

Definition sample_str_of_list (l : list json) : string :=
  "[" ++ String.concat ", "
           (map (fun v => match v with
                          | JStr s => "'" ++ s ++ "'"
                          | _ => "?"
                          end) l) ++ "]".

Definition sample_runtime : PyRuntime :=
  {| fault_text := sample_fault_text;
     str_of_list := sample_str_of_list;
     strftime_Y_small := fun y => pad2 (y / 100) ++ pad2 (y mod 100) |}.

(** Two tasks of the specification's example, and one with no due date. *)
Definition buy_milk : json :=
  JDict [("title", JStr "Buy milk"); ("due", JStr "2024-01-01")].
Definition pay_bills : json :=
  JDict [("title", JStr "Pay bills"); ("due", JStr "2024-06-01")].
Definition undated : json :=
  JDict [("title", JStr "Call home"); ("notes", JStr "buy a card")].

(** A service with two lists, [L1] and [L2], that answers every task
    call with the three tasks above or with a task document. *)
Definition sample_service : service :=
  fun _ c =>
    match c with
    | TasklistsList =>
        inr (JDict [("items", JList [JDict [("id", JStr "L1")];
                                     JDict [("id", JStr "L2")]])])
    | TasksList _ _ _ _ =>
        inr (JDict [("items", JList [buy_milk; pay_bills; undated])])
    | TasksDelete _ _ => inr JNull
    | _ => inr (JDict [("id", JStr "T1"); ("title", JStr "Buy milk")])
    end.

(** The shape the two date tests of [_match] share; [cmp] is [py_gt] for
    [due_before] and [py_lt] for [due_after]. *)
Definition bound_excludes `{PyRuntime} (cmp : json -> string -> outcome bool)
  (bound : option string) (t : json) : outcome bool :=
  match bound with
  | Some b =>
      if negb (b =? "")%string then
        due <~ py_get t "due" JNull ;;
        if truthy due then (due <~ py_getitem t "due" ;; cmp due b)
        else inr false
      else inr false
  | None => inr false
  end.

(** The List Resolver as the specification words it: what resolving
    [requested] against the enumerated identifiers [ids] gives. *)
Definition default_alias : string := "@default".

Inductive resolution : Type :=
| Resolved (id : json)
| NoLists
| NotFound (available : list json).

Inductive resolves (requested : string) (ids : list json)
  : resolution -> Prop :=
| resolves_no_lists :
    requested = default_alias -> ids = [] -> resolves requested ids NoLists
| resolves_first : forall first rest,
    requested = default_alias -> ids = first :: rest ->
    resolves requested ids (Resolved first)
| resolves_present :
    requested <> default_alias -> In (JStr requested) ids ->
    resolves requested ids (Resolved (JStr requested))
| resolves_absent :
    requested <> default_alias -> ~ In (JStr requested) ids ->
    resolves requested ids (NotFound ids).

(** The enumeration as the specification has it, read off the document
    the remote service answers with: the identifiers of the lists under
    ["items"], in the order of the document; a document without
    ["items"] enumerates no list. *)
Inductive enumerates : json -> list json -> Prop :=
| enumerates_items : forall d lists ids,
    lookup "items" d = Some (JList (map JDict lists)) ->
    Forall2 (fun l id => lookup "id" l = Some id) lists ids ->
    enumerates (JDict d) ids
| enumerates_none : forall d,
    lookup "items" d = None -> enumerates (JDict d) [].

(** The dictionary [_resolve_tasklist_id] returns for each resolution. *)
Definition envelope_of (requested : string) (ids : list json)
  (r : resolution) : dict :=
  match r with
  | Resolved id => [("tasklist_id", id); ("available_lists", JList ids)]
  | NoLists =>
      [("error", JStr "No task lists found."); ("available_lists", JList [])]
  | NotFound available =>
      [("error", JStr ("Task list '" ++ requested ++ "' not found."));
       ("available_lists", JList available)]
  end.

(** An error envelope: a dictionary with a string under ["error"]. *)
Definition is_error_envelope (d : dict) : Prop :=
  exists message, lookup "error" d = Some (JStr message).

(** ** Invocations *)

(** A tool call as the dispatch host delivers it to a handler. *)
Inductive invocation : Type :=
| GetTasks (tasklist_id : string) (max_results : Z)
    (show_completed show_deleted : bool)
| ListTasklists
| CreateTask (title due tasklist_id : string)
    (notes parent position : option string)
| UpdateTask (task_id tasklist_id : string)
    (title notes due status parent position : option string)
| CompleteTask (task_id tasklist_id : string) (completed : bool)
| DeleteTask (task_id tasklist_id : string)
| CreateTasklist (title : string)
| GetTask (task_id tasklist_id : string)
| SearchTasks (tasklist_id : string) (query : option string)
    (include_completed include_deleted : bool)
    (due_before due_after : option string) (max_results : Z)
| MoveTask (task_id tasklist_id : string) (parent previous : option string).

Section Dispatch.
Context `{PyRuntime}.

Definition handle (auth : auth_result) (i : invocation) : M dict :=
  match i with
  | GetTasks tasklist_id max_results show_completed show_deleted =>
      get_tasks auth tasklist_id max_results show_completed show_deleted
  | ListTasklists => list_tasklists auth
  | CreateTask title due tasklist_id notes parent position =>
      create_task auth title due tasklist_id notes parent position
  | UpdateTask task_id tasklist_id title notes due status parent position =>
      update_task auth task_id tasklist_id title notes due status parent
        position
  | CompleteTask task_id tasklist_id completed =>
      complete_task auth task_id tasklist_id completed
  | DeleteTask task_id tasklist_id => delete_task auth task_id tasklist_id
  | CreateTasklist title => create_tasklist auth title
  | GetTask task_id tasklist_id => get_task auth task_id tasklist_id
  | SearchTasks tasklist_id query include_completed include_deleted
      due_before due_after max_results =>
      search_tasks auth tasklist_id query include_completed include_deleted
        due_before due_after max_results
  | MoveTask task_id tasklist_id parent previous =>
      move_task auth task_id tasklist_id parent previous
  end.

(** The [try] block of the handler an invocation reaches. *)
Definition try_block (auth : auth_result) (i : invocation) : M dict :=
  match i with
  | GetTasks tasklist_id max_results show_completed show_deleted =>
      get_tasks_try auth tasklist_id max_results show_completed show_deleted
  | ListTasklists => list_tasklists_try auth
  | CreateTask title due tasklist_id notes parent position =>
      create_task_try auth title due tasklist_id notes parent position
  | UpdateTask task_id tasklist_id title notes due status parent position =>
      update_task_try auth task_id tasklist_id title notes due status parent
        position
  | CompleteTask task_id tasklist_id completed =>
      complete_task_try auth task_id tasklist_id completed
  | DeleteTask task_id tasklist_id => delete_task_try auth task_id tasklist_id
  | CreateTasklist title => create_tasklist_try auth title
  | GetTask task_id tasklist_id => get_task_try auth task_id tasklist_id
  | SearchTasks tasklist_id query include_completed include_deleted
      due_before due_after max_results =>
      search_tasks_try auth tasklist_id query include_completed
        include_deleted due_before due_after max_results
  | MoveTask task_id tasklist_id parent previous =>
      move_task_try auth task_id tasklist_id parent previous
  end.

End Dispatch.

(** The list identifier an invocation asks for, when it has one. *)
Definition requested_list (i : invocation) : option string :=
  match i with
  | GetTasks tasklist_id _ _ _
  | CreateTask _ _ tasklist_id _ _ _
  | UpdateTask _ tasklist_id _ _ _ _ _ _
  | CompleteTask _ tasklist_id _
  | DeleteTask _ tasklist_id
  | GetTask _ tasklist_id
  | SearchTasks tasklist_id _ _ _ _ _ _
  | MoveTask _ tasklist_id _ _ => Some tasklist_id
  | ListTasklists | CreateTasklist _ => None
  end.

(** The list a call on tasks addresses. *)
Definition tasklist_of_call (c : call) : option json :=
  match c with
  | TasksList tasklist _ _ _
  | TasksGet tasklist _
  | TasksInsert tasklist _ _ _
  | TasksPatch tasklist _ _
  | TasksMove tasklist _ _ _
  | TasksDelete tasklist _ => Some tasklist
  | TasklistsList | TasklistsInsert _ => None
  end.

(** The calls that change a task. *)
Definition mutates_task (c : call) : bool :=
  match c with
  | TasksInsert _ _ _ _ | TasksPatch _ _ _ | TasksMove _ _ _ _
  | TasksDelete _ _ => true
  | _ => false
  end.

Definition is_move (c : call) : bool :=
  match c with TasksMove _ _ _ _ => true | _ => false end.

Definition is_delete (c : call) : bool :=
  match c with TasksDelete _ _ => true | _ => false end.

(** A call on tasks addresses the list [id]. *)
Definition on_list (id : json) (c : call) : Prop :=
  forall l, tasklist_of_call c = Some l -> l = id.

(** ** Failures *)

(** No service: [get_google_tasks_service] raised or returned [None]. *)
Definition auth_failed (auth : auth_result) : Prop :=
  forall svc, auth <> inr (Some svc).

(** A remote call of the trace raised. *)
Definition call_failed (tr : trace) : Prop :=
  exists c e, In (c, inl e) tr.

Section Failures.
Context `{PyRuntime}.

(** The enumeration succeeded and the requested list does not resolve. *)
Definition resolution_failed (auth : auth_result) (i : invocation) : Prop :=
  exists requested svc tasklists ids r,
    requested_list i = Some requested /\
    auth = inr (Some svc) /\
    svc [] TasklistsList = inr tasklists /\
    available_ids tasklists = inr ids /\
    resolves requested ids r /\
    forall id, r <> Resolved id.

(** The due date of a [create_task] is refused by [strptime]. *)
Definition due_refused (i : invocation) : Prop :=
  match i with
  | CreateTask _ due _ _ _ _ =>
      has_char "T" due = false /\ is_raise (strptime_ymd due) = true
  | _ => False
  end.

(** The statements of [get_tasks] after the list is settled raised. *)
Definition fetch_raised (auth : auth_result) (i : invocation) : Prop :=
  match i with
  | GetTasks requested max_results show_completed show_deleted =>
      exists svc tasklists ids id,
        auth = inr (Some svc) /\
        svc [] TasklistsList = inr tasklists /\
        available_ids tasklists = inr ids /\
        resolves requested ids (Resolved id) /\
        is_raise (snd (get_tasks_fetch svc id ids max_results show_completed
                         show_deleted [(TasklistsList, inr tasklists)]))
        = true
  | _ => False
  end.

(** An exception was raised inside the [try] block of the handler. *)
Definition block_raised (auth : auth_result) (i : invocation) : Prop :=
  is_raise (snd (run (try_block auth i))) = true \/ fetch_raised auth i.

End Failures.

(** ** Reasoning about the steps of a handler *)

(** From any trace, [m] adds calls that all satisfy [P], and when it
    returns none of the calls it added has raised. *)
Definition respects {A : Type} (P : call -> Prop) (m : M A) : Prop :=
  forall tr, exists evs r,
    m tr = ((tr ++ evs)%list, r) /\
    Forall (fun ev => P (fst ev)) evs /\
    (is_raise r = false -> Forall (fun ev => is_raise (snd ev) = false) evs).

(** The ways the opening lines of a task-level handler can go, and what
    the [try] block yields in each: [k] is the rest of the block. *)
Inductive opening `{PyRuntime} (auth : auth_result) (requested : string)
  (k : service -> json -> M dict) : trace * outcome dict -> Prop :=
| opening_auth_raised : forall e,
    auth = inl e -> opening auth requested k ([], inl e)
| opening_auth_none :
    auth = inr None ->
    opening auth requested k ([], inr [("error", JStr "Auth failed")])
| opening_list_raised : forall svc e,
    auth = inr (Some svc) -> svc [] TasklistsList = inl e ->
    opening auth requested k ([(TasklistsList, inl e)], inl e)
| opening_ids_raised : forall svc tasklists e,
    auth = inr (Some svc) -> svc [] TasklistsList = inr tasklists ->
    available_ids tasklists = inl e ->
    opening auth requested k ([(TasklistsList, inr tasklists)], inl e)
| opening_unresolved : forall svc tasklists ids r,
    auth = inr (Some svc) -> svc [] TasklistsList = inr tasklists ->
    available_ids tasklists = inr ids ->
    resolves requested ids r -> (forall id, r <> Resolved id) ->
    opening auth requested k
      ([(TasklistsList, inr tasklists)], inr (envelope_of requested ids r))
| opening_resolved : forall svc tasklists ids id,
    auth = inr (Some svc) -> svc [] TasklistsList = inr tasklists ->
    available_ids tasklists = inr ids ->
    resolves requested ids (Resolved id) ->
    opening auth requested k (k svc id [(TasklistsList, inr tasklists)]).

(** What a handler with a list identifier does, by the way its opening
    lines go. *)
Definition list_handler_cases `{PyRuntime} (auth : auth_result) (requested : string)
  (tr : trace) (d : dict) : Prop :=
  (auth_failed auth /\ tr = [] /\ is_error_envelope d)
  \/ (exists svc e,
        auth = inr (Some svc) /\ svc [] TasklistsList = inl e /\
        tr = [(TasklistsList, inl e)] /\ is_error_envelope d)
  \/ (exists svc tasklists e,
        auth = inr (Some svc) /\ svc [] TasklistsList = inr tasklists /\
        available_ids tasklists = inl e /\
        tr = [(TasklistsList, inr tasklists)] /\ is_error_envelope d)
  \/ (exists svc tasklists ids r,
        auth = inr (Some svc) /\ svc [] TasklistsList = inr tasklists /\
        available_ids tasklists = inr ids /\
        resolves requested ids r /\ (forall id, r <> Resolved id) /\
        tr = [(TasklistsList, inr tasklists)] /\ is_error_envelope d)
  \/ (exists svc tasklists ids id evs,
        auth = inr (Some svc) /\ svc [] TasklistsList = inr tasklists /\
        available_ids tasklists = inr ids /\
        resolves requested ids (Resolved id) /\
        tr = (TasklistsList, inr tasklists) :: evs /\
        Forall (fun ev => on_list id (fst ev)) evs /\
        (call_failed evs -> is_error_envelope d)).

(** What [sample_service] enumerates. *)
Definition sample_lists : json :=
  JDict [("items", JList [JDict [("id", JStr "L1")];
                          JDict [("id", JStr "L2")]])].

Definition sample_ids : list json := [JStr "L1"; JStr "L2"].

Definition sample_task : json :=
  JDict [("id", JStr "T1"); ("title", JStr "Buy milk")].

(** A service that enumerates the two lists and refuses every other
    call. *)
Definition failing_service : service :=
  fun _ c =>
    match c with
    | TasklistsList => inr sample_lists
    | _ => inl (Exn HttpError "404")
    end.

(** A service whose listing holds an item that is no task document. *)
Definition odd_listing : json :=
  JDict [("items", JList [buy_milk; JNum 7])].

Definition odd_service : service :=
  fun _ c =>
    match c with
    | TasklistsList => inr sample_lists
    | TasksList _ _ _ _ => inr odd_listing
    | _ => inr sample_task
    end.

(** A service whose enumeration holds a list without identifier. *)
Definition malformed_lists : json :=
  JDict [("items", JList [JDict [("id", JStr "L1")];
                          JDict [("title", JStr "Inbox")]])].

Definition malformed_service : service :=
  fun _ c =>
    match c with
    | TasklistsList => inr malformed_lists
    | _ => inr sample_task
    end.

(** ** The calls a handler plans *)

(** The calls [calls] executed against [svc] from the trace [tr]: in
    order, and none after the first that raises. *)
Fixpoint issue (svc : service) (tr : trace) (calls : list call) : trace :=
  match calls with
  | [] => tr
  | c :: rest =>
      match svc tr c with
      | inl e => (tr ++ [(c, inl e)])%list
      | inr a => issue svc (tr ++ [(c, inr a)])%list rest
      end
  end.

(** The body [update_task] builds for its patch. *)
Definition patch_body (title notes due status : option string) : dict :=
  set_if_given "status" status
    (set_if_given "due" due
       (set_if_given "notes" notes (set_if_given "title" title []))).

(** The calls a handler executes after its opening lines, on the list
    [id] when it resolved one. *)
Definition plan `{PyRuntime} (i : invocation) (id : json) : list call :=
  match i with
  | GetTasks _ max_results show_completed show_deleted =>
      [TasksList id max_results show_completed show_deleted]
  | ListTasklists => [TasklistsList]
  | CreateTask title due _ notes parent position =>
      match format_due due with
      | inr due_formatted =>
          [TasksInsert id
             (set_if_given "notes" notes
                [("title", JStr title); ("due", JStr due_formatted)])
             parent position]
      | inl _ => []
      end
  | UpdateTask task_id _ title notes due status parent position =>
      [TasksGet id task_id;
       TasksPatch id task_id (patch_body title notes due status)]
      ++ (if is_given parent || is_given position
          then [TasksMove id task_id parent position] else [])
  | CompleteTask task_id _ completed =>
      [TasksPatch id task_id
         [("status", JStr (if completed then "completed" else "needsAction"))]]
  | DeleteTask task_id _ => [TasksDelete id task_id]
  | CreateTasklist title => [TasklistsInsert [("title", JStr title)]]
  | GetTask task_id _ => [TasksGet id task_id]
  | SearchTasks _ _ include_completed include_deleted _ _ max_results =>
      [TasksList id max_results include_completed include_deleted]
  | MoveTask task_id _ parent previous =>
      [TasksMove id task_id parent previous]
  end.

(** The most calls an invocation can lead to. *)
Definition call_budget (i : invocation) : nat :=
  match i with
  | ListTasklists | CreateTasklist _ => 1
  | UpdateTask _ _ _ _ _ _ parent position =>
      if is_given parent || is_given position then 4 else 3
  | _ => 2
  end.

(** The handlers that only read. *)
Definition read_only (i : invocation) : bool :=
  match i with
  | GetTasks _ _ _ _ | ListTasklists | GetTask _ _
  | SearchTasks _ _ _ _ _ _ _ => true
  | _ => false
  end.

(** A call that creates or changes something at the remote service. *)
Definition writes (c : call) : bool :=
  match c with
  | TasklistsList | TasksList _ _ _ _ | TasksGet _ _ => false
  | _ => true
  end.

(** ** Dates as [create_task] documents them *)

(** [YYYY-MM-DD], zero-padded. *)
Definition iso_date (y m d : Z) : string :=
  String (digit_char (y / 1000))
    (String (digit_char (y / 100 mod 10)) (pad2 (y mod 100)))
  ++ "-" ++ pad2 m ++ "-" ++ pad2 d.

(** ** The items a search keeps *)

(** [_match] as a test on items for which it returns. *)
Definition matches `{PyRuntime} (query due_before due_after : option string)
  (t : json) : bool :=
  match _match query due_before due_after t with
  | inr true => true
  | _ => false
  end.

(** The projection of one task by [get_tasks]: the nine fields and what
    stands for a field the remote service left out. *)
Definition task_fields : list (string * (string * json)) :=
  [("id", ("id", JNull)); ("title", ("title", JStr ""));
   ("status", ("status", JStr "needsAction")); ("notes", ("notes", JStr ""));
   ("due", ("due", JNull)); ("updated", ("updated", JNull));
   ("position", ("position", JNull)); ("parent", ("parent", JNull));
   ("links", ("links", JList []))].

(** The projection of one task list by [list_tasklists]. *)
Definition list_fields : list (string * (string * json)) :=
  [("id", ("id", JNull)); ("title", ("title", JStr ""));
   ("updated", ("updated", JNull)); ("self_link", ("selfLink", JNull))].

(** [d] projected on [fields]: each output key takes the value of its
    source key, or the default. *)
Definition project (fields : list (string * (string * json))) (d : dict)
  : dict :=
  map (fun f =>
         (fst f, match lookup (fst (snd f)) d with
                 | Some v => v
                 | None => snd (snd f)
                 end)) fields.

(** ** The credential provider *)

Module Provider.

(** A credentials object: what identifies it and the three attributes
    [get_google_tasks_service] reads. *)
Record credentials : Type := Credentials {
  access_token : string;
  valid : bool;
  expired : bool;
  refresh_token : option string
}.

(** What the provider finds around it: the working directory its third
    logging line asks for, the environment variable, the two files, and
    what each library call it makes does. *)
Record environment : Type := Environment {
  getcwd : outcome string;
  token_env : option string;
  from_authorized_user_info : string -> outcome credentials;
  token_file_exists : bool;
  from_authorized_user_file : outcome credentials;
  refresh : credentials -> outcome credentials;
  credentials_file_exists : bool;
  run_local_server : outcome credentials;
  write_token : credentials -> outcome unit;
  build : credentials -> outcome service
}.

(** What the provider does to its surroundings, in order. *)
Inductive effect : Type :=
| ParseTokenEnv (text : string)
| ReadTokenFile
| Refresh (creds : credentials)
| RunFlow
| SaveToken (creds : credentials) (saved : bool)
| Build (creds : credentials).

(** [if creds.refresh_token]: set and not empty. *)
Definition has_refresh_token (c : credentials) : bool :=
  match refresh_token c with
  | Some t => negb (t =? "")%string
  | None => false
  end.

(** Lines 46 to 63: the credentials of the environment variable, else of
    the token file.  Only the load of the token file is outside a
    [try]. *)
Definition load_credentials (env : environment)
  : list effect * outcome (option credentials) :=
  let '(log, creds) :=
    match token_env env with
    | Some text =>
        if negb (text =? "")%string then
          ([ParseTokenEnv text],
           match from_authorized_user_info env text with
           | inr c => Some c
           | inl _ => None
           end)
        else ([], None)
    | None => ([], None)
    end in
  match creds with
  | Some c => (log, inr (Some c))
  | None =>
      if token_file_exists env then
        ((log ++ [ReadTokenFile])%list,
         match from_authorized_user_file env with
         | inr c => inr (Some c)
         | inl e => inl e
         end)
      else (log, inr None)
  end.

(** Lines 101 to 106. *)
Definition build_service (env : environment) (log : list effect)
  (c : credentials) : list effect * outcome (option service) :=
  ((log ++ [Build c])%list,
   match build env c with
   | inr svc => inr (Some svc)
   | inl _ => inr None
   end).

(** Lines 94 to 99, then the build: a failure to save is logged and
    forgotten. *)
Definition save_and_build (env : environment) (log : list effect)
  (c : credentials) : list effect * outcome (option service) :=
  build_service env
    (log ++ [SaveToken c (negb (is_raise (write_token env c)))])%list c.

(** Lines 74 to 92, then the save and the build: the consent flow, which
    needs the client secrets file. *)
Definition consent (env : environment) (log : list effect)
  : list effect * outcome (option service) :=
  if negb (credentials_file_exists env) then (log, inr None)
  else
    match run_local_server env with
    | inl _ => ((log ++ [RunFlow])%list, inr None)
    | inr c' => save_and_build env (log ++ [RunFlow])%list c'
    end.

(** Lines 66 to 99, for credentials that are absent or not valid. *)
Definition renew (env : environment) (log : list effect)
  (creds : option credentials) : list effect * outcome (option service) :=
  match creds with
  | Some c =>
      if expired c && has_refresh_token c then
        match refresh env c with
        | inl _ => ((log ++ [Refresh c])%list, inr None)
        | inr c' => save_and_build env (log ++ [Refresh c])%list c'
        end
      else consent env log
  | None => consent env log
  end.

(** Lines 46 to 106: what follows the logging lines. *)
Definition provide (env : environment)
  : list effect * outcome (option service) :=
  let '(log, loaded) := load_credentials env in
  match loaded with
  | inl e => (log, inl e)
  | inr None => renew env log None
  | inr (Some c) =>
      if valid c then build_service env log c else renew env log (Some c)
  end.

(** [get_google_tasks_service()]: its effects and its result.  Line 44
    formats [os.getcwd()] outside any [try]: when the working directory
    is gone the call raises before a token is looked at. *)
Definition get_google_tasks_service (env : environment)
  : list effect * outcome (option service) :=
  match getcwd env with
  | inl e => ([], inl e)
  | inr _ => provide env
  end.

(** The environment variable holds no usable token. *)
Definition no_env_token (env : environment) : Prop :=
  match token_env env with
  | Some text =>
      text = "" \/ is_raise (from_authorized_user_info env text) = true
  | None => True
  end.

(** What [build_service] returns for the credentials [c]. *)
Definition built (env : environment) (c : credentials)
  : outcome (option service) :=
  match build env c with
  | inr svc => inr (Some svc)
  | inl _ => inr None
  end.

(** Credentials that are absent, or not valid and not to be refreshed. *)
Definition needs_consent (creds : option credentials) : Prop :=
  match creds with
  | Some c => valid c = false /\ expired c && has_refresh_token c = false
  | None => True
  end.

(** The seven ways a call of the provider can go once its logging lines
    are passed. *)
Inductive outcome_of (env : environment)
  : list effect * outcome (option service) -> Prop :=
| load_raised : forall log e,
    load_credentials env = (log, inl e) ->
    outcome_of env (log, inl e)
| loaded_valid : forall log c,
    load_credentials env = (log, inr (Some c)) -> valid c = true ->
    outcome_of env ((log ++ [Build c])%list, built env c)
| refresh_failed : forall log c e,
    load_credentials env = (log, inr (Some c)) -> valid c = false ->
    expired c = true -> has_refresh_token c = true ->
    refresh env c = inl e ->
    outcome_of env ((log ++ [Refresh c])%list, inr None)
| refreshed : forall log c c',
    load_credentials env = (log, inr (Some c)) -> valid c = false ->
    expired c = true -> has_refresh_token c = true ->
    refresh env c = inr c' ->
    outcome_of env
      ((log ++ [Refresh c;
                SaveToken c' (negb (is_raise (write_token env c')));
                Build c'])%list, built env c')
| no_client_secrets : forall log creds,
    load_credentials env = (log, inr creds) -> needs_consent creds ->
    credentials_file_exists env = false ->
    outcome_of env (log, inr None)
| consent_failed : forall log creds e,
    load_credentials env = (log, inr creds) -> needs_consent creds ->
    credentials_file_exists env = true -> run_local_server env = inl e ->
    outcome_of env ((log ++ [RunFlow])%list, inr None)
| consented : forall log creds c',
    load_credentials env = (log, inr creds) -> needs_consent creds ->
    credentials_file_exists env = true -> run_local_server env = inr c' ->
    outcome_of env
      ((log ++ [RunFlow;
                SaveToken c' (negb (is_raise (write_token env c')));
                Build c'])%list, built env c').

(** Reading the environment variable or the token file. *)
Definition is_load (e : effect) : bool :=
  match e with ParseTokenEnv _ | ReadTokenFile => true | _ => false end.

Definition is_save (e : effect) : bool :=
  match e with SaveToken _ _ => true | _ => false end.

Definition is_build (e : effect) : bool :=
  match e with Build _ => true | _ => false end.

(** A sample: an expired token in the file, refreshed at the first try. *)
Definition stale : credentials :=
  Credentials "old" false true (Some "r1").

Definition fresh : credentials :=
  Credentials "new" true false (Some "r1").

Definition sample_environment : environment :=
  {| getcwd := inr "/srv/tasks";
     token_env := None;
     from_authorized_user_info := fun _ => inr stale;
     token_file_exists := true;
     from_authorized_user_file := inr stale;
     refresh := fun _ => inr fresh;
     credentials_file_exists := false;
     run_local_server := inl (Exn OtherException "no browser");
     write_token := fun _ => inl (Exn OtherException "read-only file system");
     build := fun _ => inr sample_service |}.


(** A sample: no token anywhere, the client secrets at hand, and a user
    who consents. *)
Definition consenting_environment : environment :=
  {| getcwd := inr "/srv/tasks";
     token_env := None;
     from_authorized_user_info := fun _ => inr stale;
     token_file_exists := false;
     from_authorized_user_file := inr stale;
     refresh := fun _ => inr fresh;
     credentials_file_exists := true;
     run_local_server := inr fresh;
     write_token := fun _ => inr tt;
     build := fun _ => inr sample_service |}.

End Provider.

(** * Properties *)

(** ** Strings *)

Lemma prefix_append s t : prefix s t = true -> exists r, t = s ++ r.
Proof.
  revert t; induction s as [|a s IH]; intros t Hp.
  - exists t; reflexivity.
  - destruct t as [|b t]; simpl in Hp; [discriminate|].
    destruct (ascii_dec a b) as [->|]; [|discriminate].
    destruct (IH _ Hp) as [r ->]. exists r; reflexivity.
Qed.

Lemma prefix_of_append s r : prefix s (s ++ r) = true.
Proof.
  induction s as [|a s IH]; simpl.
  - destruct r; reflexivity.
  - destruct (ascii_dec a a); [assumption|congruence].
Qed.

Lemma contains_occurs needle hay :
  contains needle hay = true <-> occurs_in needle hay.
Proof.
  split.
  - induction hay as [|c hay IH]; cbn [contains].
    + destruct (prefix needle "") eqn:Hp; [|intros Hf; discriminate Hf].
      intros _. destruct (prefix_append _ _ Hp) as [r Hr].
      exists "", r; exact Hr.
    + destruct (prefix needle (String c hay)) eqn:Hp.
      * intros _. destruct (prefix_append _ _ Hp) as [r Hr].
        exists "", r; exact Hr.
      * intros Hc. destruct (IH Hc) as (a & b & ->).
        exists (String c a), b; reflexivity.
  - intros (a & b & ->). induction a as [|c a IH].
    + change ("" ++ needle ++ b) with (needle ++ b).
      destruct (needle ++ b) eqn:E; cbn [contains];
        rewrite <- E, prefix_of_append; reflexivity.
    + change (String c a ++ needle ++ b) with (String c (a ++ needle ++ b)).
      cbn [contains]. rewrite IH.
      destruct (prefix needle (String c (a ++ needle ++ b))); reflexivity.
Qed.

Lemma compare_refl s : String.compare s s = Eq.
Proof.
  induction s as [|c s IH]; simpl; [reflexivity|].
  unfold Ascii.compare; rewrite N.compare_refl; exact IH.
Qed.

Lemma compare_lt_lex a b : String.compare a b = Lt <-> lex_lt a b.
Proof.
  split.
  - revert b; induction a as [|c a IH]; intros [|d b]; simpl;
      try discriminate.
    + intros _; constructor.
    + destruct (Ascii.compare c d) eqn:E; try discriminate.
      * apply Ascii.compare_eq_iff in E; subst d.
        intros Hc; apply lex_lt_tail, IH, Hc.
      * intros _. apply lex_lt_head.
        unfold Ascii.compare in E. apply N.compare_lt_iff; exact E.
  - induction 1; simpl.
    + reflexivity.
    + unfold Ascii.compare.
      apply N.compare_lt_iff in H. rewrite H; reflexivity.
    + unfold Ascii.compare. rewrite N.compare_refl; assumption.
Qed.

Lemma str_lt_lex a b : str_lt a b = true <-> lex_lt a b.
Proof.
  unfold str_lt. rewrite <- compare_lt_lex.
  destruct (String.compare a b); split; congruence.
Qed.

Lemma str_gt_lex a b : str_gt a b = true <-> lex_lt b a.
Proof.
  unfold str_gt. rewrite <- compare_lt_lex, (String.compare_antisym b a).
  destruct (String.compare a b); simpl; split; congruence.
Qed.

Lemma lex_lt_irrefl s : ~ lex_lt s s.
Proof.
  intros Hl. apply compare_lt_lex in Hl.
  rewrite compare_refl in Hl; discriminate.
Qed.

Lemma append_assoc (a b c : string) : (a ++ b) ++ c = a ++ b ++ c.
Proof. induction a as [|x a IH]; simpl; [reflexivity|now rewrite IH]. Qed.

Lemma occurs_in_empty hay : occurs_in "" hay.
Proof. exists "", hay; reflexivity. Qed.

(** ** The search predicate *)

Section Search.
Context `{PyRuntime}.

(** The text test of [_match] on a task whose title and notes are text. *)
Lemma match_text (q : string) (d : dict) (title notes : string) :
  str_field "title" d = Some title ->
  str_field "notes" d = Some notes ->
  (title <~ py_get (JDict d) "title" (JStr "") ;;
   head <~ py_add title (JStr " ") ;;
   notes <~ py_get (JDict d) "notes" (JStr "") ;;
   text <~ py_add (JStr head) notes ;;
   inr (contains (lower q) (lower text)))
  = inr (contains (lower q) (lower (title ++ " " ++ notes))).
Proof.
  unfold str_field; intros Ht Hn. cbn [py_get obind].
  destruct (lookup "title" d) as [[| | |s| |]|]; try discriminate;
    destruct (lookup "notes" d) as [[| | |s'| |]|]; try discriminate;
    injection Ht as <-; injection Hn as <-; cbn [py_add obind];
    rewrite ?append_assoc; reflexivity.
Qed.

Lemma bound_excludes_text cmp (test : string -> string -> bool) bound d :
  (forall s b, cmp (JStr s) b = inr (test s b)) ->
  (forall v, lookup "due" d = Some v -> truthy v = true ->
             exists s, v = JStr s) ->
  exists x, bound_excludes cmp bound (JDict d) = inr x /\
    (x = true <->
     exists b due, bound = Some b /\ b <> "" /\
                   lookup "due" d = Some (JStr due) /\ due <> "" /\
                   test due b = true).
Proof.
  intros Hcmp Hdue. unfold bound_excludes.
  destruct bound as [b|].
  2:{ exists false; split; [reflexivity|].
      split; [discriminate|]. intros (b & due & Hb & _); discriminate. }
  destruct (String.eqb_spec b "") as [->|Hb]; cbn [negb].
  { exists false; split; [reflexivity|].
    split; [discriminate|]. intros (b & due & Hb & Hne & _).
    injection Hb as <-. congruence. }
  cbn [py_get py_getitem obind].
  destruct (lookup "due" d) as [v|] eqn:Hl; cbn [truthy].
  2:{ exists false; split; [reflexivity|].
      split; [discriminate|].
      intros (b' & due & _ & _ & Hd & _); discriminate. }
  destruct (truthy v) eqn:Hv.
  - destruct (Hdue v eq_refl Hv) as [s ->]. cbn [obind]. rewrite Hcmp.
    exists (test s b); split; [reflexivity|]. split.
    + intros Ht. exists b, s. repeat split; try assumption.
      intros ->. discriminate Hv.
    + intros (b' & due & Hb' & _ & Hd & _ & Ht).
      injection Hb' as <-. injection Hd as <-. exact Ht.
  - exists false; split; [reflexivity|]. split; [discriminate|].
    intros (b' & due & _ & _ & Hd & Hne & _). injection Hd as ->.
    cbn in Hv. destruct (String.eqb_spec due ""); [congruence|discriminate].
Qed.

Lemma match_unfold query due_before due_after t :
  _match query due_before due_after t =
  (text_ok <~
     (match query with
      | Some q =>
          if negb (q =? "")%string then
            title <~ py_get t "title" (JStr "") ;;
            head <~ py_add title (JStr " ") ;;
            notes <~ py_get t "notes" (JStr "") ;;
            text <~ py_add (JStr head) notes ;;
            inr (contains (lower q) (lower text))
          else inr true
      | None => inr true
      end) ;;
   if negb text_ok then inr false
   else
     too_late <~ bound_excludes py_gt due_before t ;;
     if too_late then inr false
     else
       too_early <~ bound_excludes py_lt due_after t ;;
       if too_early then inr false else inr true).
Proof. reflexivity. Qed.

(** C6 (amended).  On a task whose title and notes are text (an absent one
    reads as empty) and whose due value, when it counts as present, is
    text, [_match] returns, and it keeps the task exactly when the
    lowercased query occurs in the lowercased text made of the title, one
    space and the notes, the due value is not lexicographically above a
    non-empty [due_before], and it is not lexicographically below a
    non-empty [due_after]; a task with no due value passes both bounds. *)
Theorem search_match_filters
  (query due_before due_after : option string) (d : dict)
  (title notes : string)
  (Htitle : str_field "title" d = Some title)
  (Hnotes : str_field "notes" d = Some notes)
  (Hdue : forall v, lookup "due" d = Some v -> truthy v = true ->
                    exists s, v = JStr s) :
  exists kept,
    _match query due_before due_after (JDict d) = inr kept /\
    (kept = true <->
       (forall q, query = Some q ->
          occurs_in (lower q) (lower (title ++ " " ++ notes))) /\
       (forall b due, due_before = Some b -> b <> "" ->
          lookup "due" d = Some (JStr due) -> due <> "" -> ~ lex_lt b due) /\
       (forall a due, due_after = Some a -> a <> "" ->
          lookup "due" d = Some (JStr due) -> due <> "" -> ~ lex_lt due a)) /\
    (lookup "due" d = None -> query = None -> kept = true).
Proof.
  rewrite match_unfold.
  destruct (bound_excludes_text py_gt str_gt due_before d (fun _ _ => eq_refl) Hdue)
    as (late & -> & Hlate).
  destruct (bound_excludes_text py_lt str_lt due_after d (fun _ _ => eq_refl) Hdue)
    as (early & -> & Hearly).
  assert (Htext : exists ok,
    (match query with
      | Some q =>
          if negb (q =? "")%string then
            obind (py_get (JDict d) "title" (JStr "")) (fun title =>
            obind (py_add title (JStr " ")) (fun head =>
            obind (py_get (JDict d) "notes" (JStr "")) (fun notes =>
            obind (py_add (JStr head) notes) (fun text =>
            inr (contains (lower q) (lower text))))))
          else inr true
      | None => inr true
      end) = inr ok /\
    (ok = true <-> forall q, query = Some q ->
          occurs_in (lower q) (lower (title ++ " " ++ notes)))).
  { destruct query as [q|].
    - destruct (String.eqb_spec q "") as [->|Hq]; cbn [negb].
      + exists true; split; [reflexivity|]. split; [|reflexivity].
        intros _ q [= <-]. apply occurs_in_empty.
      + rewrite (match_text q d title notes Htitle Hnotes).
        eexists; split; [reflexivity|]. rewrite contains_occurs. split.
        * intros Ho q' [= <-]; exact Ho.
        * intros Ho; apply Ho; reflexivity.
    - exists true; split; [reflexivity|]. split; [|reflexivity].
      intros _ q Hq; discriminate. }
  destruct Htext as (ok & -> & Hok). cbn [obind].
  exists (ok && negb late && negb early).
  split; [destruct ok, late, early; reflexivity|]. split.
  - rewrite !andb_true_iff, !negb_true_iff, Hok. 
    split.
    + intros [[Hq Hl] He]. split; [exact Hq|]. split.
      * intros b due Hb Hne Hd Hdne Hlt.
        assert (late = true) as E; [|congruence].
        apply Hlate. exists b, due. rewrite str_gt_lex. auto.
      * intros a due Ha Hne Hd Hdne Hlt.
        assert (early = true) as E; [|congruence].
        apply Hearly. exists a, due. rewrite str_lt_lex. auto.
    + intros (Hq & Hl & He). repeat split; [exact Hq| |].
      * destruct late; [|reflexivity]. exfalso.
        destruct (proj1 Hlate eq_refl) as (b & due & Hb & Hne & Hd & Hdne & Ht).
        apply (Hl b due Hb Hne Hd Hdne). apply str_gt_lex, Ht.
      * destruct early; [|reflexivity]. exfalso.
        destruct (proj1 Hearly eq_refl) as (a & due & Ha & Hne & Hd & Hdne & Ht).
        apply (He a due Ha Hne Hd Hdne). apply str_lt_lex, Ht.
  - intros Hnone ->.
    assert (ok = true) as -> by (apply Hok; intros q Hq; discriminate).
    assert (late = false) as ->.
    { destruct late; [|reflexivity].
      destruct (proj1 Hlate eq_refl) as (b & due & _ & _ & Hd & _); congruence. }
    assert (early = false) as ->.
    { destruct early; [|reflexivity].
      destruct (proj1 Hearly eq_refl) as (b & due & _ & _ & Hd & _); congruence. }
    reflexivity.
Qed.

(** C9.  The empty query is no query: [_match] is the same function for
    both, its text test accepts every task, and [search_tasks] is the same
    handler for both. *)
Theorem empty_query_same_as_none :
  (forall due_before due_after t,
     _match (Some "") due_before due_after t
     = _match None due_before due_after t) /\
  (forall t, _match (Some "") None None t = inr true) /\
  (forall auth tasklist_id include_completed include_deleted due_before
          due_after max_results,
     search_tasks auth tasklist_id (Some "") include_completed include_deleted
       due_before due_after max_results
     = search_tasks auth tasklist_id None include_completed include_deleted
         due_before due_after max_results).
Proof. repeat split. Qed.

(** C10.  The date bounds are inclusive: a task whose due text equals
    [due_before], or equals [due_after], passes that bound, and a task a
    bound excludes is strictly beyond it in lexicographic order. *)
Theorem date_bounds_inclusive (d : dict) (due : string)
  (Hdue : lookup "due" d = Some (JStr due)) :
  _match None (Some due) None (JDict d) = inr true /\
  _match None None (Some due) (JDict d) = inr true /\
  (forall bound, _match None (Some bound) None (JDict d) = inr false ->
                 lex_lt bound due) /\
  (forall bound, _match None None (Some bound) (JDict d) = inr false ->
                 lex_lt due bound).
Proof.
  assert (Hd : forall v, lookup "due" d = Some v -> truthy v = true ->
                         exists s, v = JStr s).
  { intros v Hv _. rewrite Hdue in Hv. injection Hv as <-. eauto. }
  assert (Hgt : forall bound x, bound_excludes py_gt (Some bound) (JDict d) = inr x ->
                x = true -> lex_lt bound due).
  { intros bound x Hx ->.
    destruct (bound_excludes_text py_gt str_gt (Some bound) d (fun _ _ => eq_refl) Hd)
      as (x & Hx' & Hiff).
    rewrite Hx in Hx'. injection Hx' as <-.
    destruct (proj1 Hiff eq_refl) as (b & due' & [= <-] & _ & Hl & _ & Ht).
    rewrite Hdue in Hl. injection Hl as <-. apply str_gt_lex, Ht. }
  assert (Hlt : forall bound x, bound_excludes py_lt (Some bound) (JDict d) = inr x ->
                x = true -> lex_lt due bound).
  { intros bound x Hx ->.
    destruct (bound_excludes_text py_lt str_lt (Some bound) d (fun _ _ => eq_refl) Hd)
      as (x & Hx' & Hiff).
    rewrite Hx in Hx'. injection Hx' as <-.
    destruct (proj1 Hiff eq_refl) as (b & due' & [= <-] & _ & Hl & _ & Ht).
    rewrite Hdue in Hl. injection Hl as <-. apply str_lt_lex, Ht. }
  repeat split.
  - rewrite match_unfold. cbn [obind negb].
    destruct (bound_excludes_text py_gt str_gt (Some due) d (fun _ _ => eq_refl) Hd)
      as (x & Hx & _).
    rewrite Hx. cbn [obind]. destruct x; [|reflexivity].
    exfalso. apply (lex_lt_irrefl due). apply (Hgt due true Hx eq_refl).
  - rewrite match_unfold. cbn [obind negb].
    change (bound_excludes py_gt None (JDict d)) with (@inr exn bool false).
    cbn [obind].
    destruct (bound_excludes_text py_lt str_lt (Some due) d (fun _ _ => eq_refl) Hd)
      as (x & Hx & _).
    rewrite Hx. cbn [obind]. destruct x; [|reflexivity].
    exfalso. apply (lex_lt_irrefl due). apply (Hlt due true Hx eq_refl).
  - intros bound. rewrite match_unfold. cbn [obind negb].
    destruct (bound_excludes py_gt (Some bound) (JDict d)) as [e|x] eqn:Hx;
      cbn [obind]; [discriminate|].
    destruct x; [intros _; apply (Hgt bound true Hx eq_refl)|discriminate].
  - intros bound. rewrite match_unfold. cbn [obind negb].
    change (bound_excludes py_gt None (JDict d)) with (@inr exn bool false).
    cbn [obind].
    destruct (bound_excludes py_lt (Some bound) (JDict d)) as [e|x] eqn:Hx;
      cbn [obind]; [discriminate|].
    destruct x; [intros _; apply (Hlt bound true Hx eq_refl)|discriminate].
Qed.

End Search.

(** ** The list resolver *)

Lemma str_in_list_In s l : str_in_list s l = true <-> In (JStr s) l.
Proof.
  unfold str_in_list. rewrite existsb_exists. split.
  - intros (v & Hin & Heq). destruct v; try discriminate.
    apply String.eqb_eq in Heq; subst; exact Hin.
  - intros Hin. exists (JStr s); split; [exact Hin|].
    apply String.eqb_refl.
Qed.

Lemma resolves_functional requested ids r r' :
  resolves requested ids r -> resolves requested ids r' -> r = r'.
Proof.
  intros [] []; try congruence; try contradiction.
Qed.

(** Resolution as a function of the request and the enumeration. *)
Lemma resolves_total requested ids : exists r, resolves requested ids r.
Proof.
  destruct (String.eqb_spec requested default_alias) as [E|E].
  - destruct ids as [|first rest].
    + exists NoLists; now constructor.
    + exists (Resolved first); now apply resolves_first with rest.
  - destruct (str_in_list requested ids) eqn:Hin.
    + exists (Resolved (JStr requested)).
      apply resolves_present; [exact E|]. now apply str_in_list_In.
    + exists (NotFound ids). apply resolves_absent; [exact E|].
      rewrite <- str_in_list_In, Hin. discriminate.
Qed.

Section Resolver.
Context `{PyRuntime}.

Lemma resolve_run svc requested tasklists ids tr r :
  svc tr TasklistsList = inr tasklists ->
  available_ids tasklists = inr ids ->
  resolves requested ids r ->
  _resolve_tasklist_id svc requested tr
  = ((tr ++ [(TasklistsList, inr tasklists)])%list,
     inr (envelope_of requested ids r)).
Proof.
  intros Hl Hids Hr. unfold _resolve_tasklist_id, bind, execute, lift.
  rewrite Hl, Hids.
  destruct Hr as [-> -> | first rest -> -> | Hne Hin | Hne Hin].
  - reflexivity.
  - reflexivity.
  - apply String.eqb_neq in Hne. unfold default_alias in Hne. rewrite Hne.
    apply str_in_list_In in Hin. rewrite Hin. reflexivity.
  - apply String.eqb_neq in Hne. unfold default_alias in Hne. rewrite Hne.
    destruct (str_in_list requested ids) eqn:E.
    + apply str_in_list_In in E. contradiction.
    + reflexivity.
Qed.

Lemma with_tasklist_run svc requested tasklists ids tr r k :
  svc tr TasklistsList = inr tasklists ->
  available_ids tasklists = inr ids ->
  resolves requested ids r ->
  with_tasklist svc requested k tr
  = match r with
    | Resolved id => k id (tr ++ [(TasklistsList, inr tasklists)])%list
    | _ => ((tr ++ [(TasklistsList, inr tasklists)])%list,
            inr (envelope_of requested ids r))
    end.
Proof.
  intros Hl Hids Hr. unfold with_tasklist, bind at 1.
  rewrite (resolve_run _ _ _ _ _ _ Hl Hids Hr).
  destruct r; reflexivity.
Qed.

Lemma get_tasks_on_error_run handler_id e tr :
  exists d, get_tasks_on_error handler_id e tr = (tr, inr d) /\
            is_error_envelope d /\ lookup "tasklist_id" d = Some handler_id.
Proof.
  unfold get_tasks_on_error, ret.
  destruct (exn_class_of e); eexists; (split; [reflexivity|]);
    (split; [eexists; reflexivity|reflexivity]).
Qed.

Lemma get_tasks_fetch_run svc id ids max_results show_completed show_deleted tr :
  exists r,
    get_tasks_fetch svc id ids max_results show_completed show_deleted tr
    = ((tr ++ [(TasksList id max_results show_completed show_deleted,
               svc tr (TasksList id max_results show_completed show_deleted))])%list,
       r) /\
    (forall d, r = inr d -> lookup "tasklist_id" d = Some id) /\
    (is_raise (svc tr (TasksList id max_results show_completed show_deleted))
     = true -> is_raise r = true).
Proof.
  unfold get_tasks_fetch, bind, execute, lift, ret.
  replace (if negb show_completed then false else true) with show_completed
    by (destruct show_completed; reflexivity).
  replace (if negb show_deleted then false else true) with show_deleted
    by (destruct show_deleted; reflexivity).
  set (c := TasksList id max_results show_completed show_deleted).
  destruct (svc tr c) as [e|results]; cbn beta iota zeta.
  { eexists; split; [reflexivity|]. split; [discriminate|reflexivity]. }
  destruct (py_get results "items" (JList [])) as [e|items];
    cbn beta iota zeta.
  { eexists; split; [reflexivity|]. split; discriminate. }
  destruct (py_iter items) as [e|tasks]; cbn beta iota zeta.
  { eexists; split; [reflexivity|]. split; discriminate. }
  destruct (for_each format_task tasks) as [e|formatted]; cbn beta iota zeta.
  { eexists; split; [reflexivity|]. split; discriminate. }
  eexists; split; [reflexivity|]. split; [|discriminate].
  intros d [= <-]; reflexivity.
Qed.

(** The identifiers the code draws from the answer of the remote
    service are those the answer enumerates. *)
Lemma enumerates_available_ids tasklists ids :
  enumerates tasklists ids -> available_ids tasklists = inr ids.
Proof.
  intros [d lists ids' Hitems Hall | d Hnone]; unfold available_ids, py_get.
  - rewrite Hitems. cbn [obind py_iter]. clear Hitems.
    induction Hall as [|l i lists ids' Hid _ IH]; [reflexivity|].
    cbn [map for_each py_getitem]. rewrite Hid. cbn [obind].
    rewrite IH. reflexivity.
  - rewrite Hnone. reflexivity.
Qed.

(** C1.  When the enumeration call returns a document that enumerates
    the identifiers [ids] (those of the lists under its ["items"], in
    order), resolving [requested] gives exactly one of the resolutions
    the specification lists, [_resolve_tasklist_id] returns the
    dictionary of that resolution after the one enumeration call, and
    [get_tasks], which resolves inline, stops with an error envelope on
    [NoLists] and [NotFound] (with the enumerated identifiers) and
    otherwise lists the tasks of the resolved list. *)
Theorem list_resolution_follows_spec (svc : service) (requested : string)
  (tasklists : json) (ids : list json)
  (Hlist : svc [] TasklistsList = inr tasklists)
  (Henum : enumerates tasklists ids) :
  exists r,
    resolves requested ids r /\
    (forall r', resolves requested ids r' -> r' = r) /\
    run (_resolve_tasklist_id svc requested)
    = ([(TasklistsList, inr tasklists)], inr (envelope_of requested ids r)) /\
    forall max_results show_completed show_deleted,
      let out := run (get_tasks (inr (Some svc)) requested max_results
                        show_completed show_deleted) in
      match r with
      | Resolved id =>
          exists answer d,
            out = ([(TasklistsList, inr tasklists);
                    (TasksList id max_results show_completed show_deleted,
                     answer)], inr d) /\
            lookup "tasklist_id" d = Some id
      | NoLists =>
          out = ([(TasklistsList, inr tasklists)],
                 inr [("error", JStr "No task lists found in your Google Tasks account.");
                      ("tasklist_id", JStr requested); ("tasks", JList [])])
      | NotFound available =>
          out = ([(TasklistsList, inr tasklists)],
                 inr [("error", JStr ("Task list '" ++ requested
                                      ++ "' not found. Available lists: "
                                      ++ str_of_list available));
                      ("tasklist_id", JStr requested);
                      ("available_lists", JList available);
                      ("tasks", JList [])])
      end.
Proof.
  pose proof (enumerates_available_ids _ _ Henum) as Hids.
  destruct (resolves_total requested ids) as [r Hr].
  exists r. split; [exact Hr|]. split.
  { intros r' Hr'. apply (resolves_functional _ _ _ _ Hr' Hr). }
  split.
  { unfold run. rewrite (resolve_run _ _ _ _ _ _ Hlist Hids Hr). reflexivity. }
  intros mr sc sd out. subst out.
  unfold run, get_tasks, get_tasks_try, try_except, bind,
    get_google_tasks_service, lift, execute.
  cbn beta iota zeta. rewrite Hlist. cbn beta iota zeta. rewrite Hids.
  cbn beta iota zeta. cbn [app].
  destruct Hr as [-> -> | first rest -> -> | Hne Hin | Hne Hin].
  - reflexivity.
  - unfold default_alias. rewrite String.eqb_refl. cbn beta iota.
    destruct (get_tasks_fetch_run svc first (first :: rest) mr sc sd
                [(TasklistsList, inr tasklists)]) as (r & -> & Hr & _).
    cbn [app].
    exists (svc [(TasklistsList, inr tasklists)] (TasksList first mr sc sd)).
    destruct r as [e|d].
    + destruct (get_tasks_on_error_run first e
                  [(TasklistsList, inr tasklists);
                   (TasksList first mr sc sd,
                    svc [(TasklistsList, inr tasklists)]
                      (TasksList first mr sc sd))]) as (d & -> & _ & Hd).
      exists d; split; [reflexivity|exact Hd].
    + exists d; split; [reflexivity|]. apply Hr; reflexivity.
  - apply String.eqb_neq in Hne. unfold default_alias in Hne. rewrite Hne.
    apply str_in_list_In in Hin. rewrite Hin. cbn [negb].
    destruct (get_tasks_fetch_run svc (JStr requested) ids mr sc sd
                [(TasklistsList, inr tasklists)]) as (r & -> & Hr & _).
    cbn [app].
    exists (svc [(TasklistsList, inr tasklists)]
              (TasksList (JStr requested) mr sc sd)).
    destruct r as [e|d].
    + destruct (get_tasks_on_error_run (JStr requested) e
                  [(TasklistsList, inr tasklists);
                   (TasksList (JStr requested) mr sc sd,
                    svc [(TasklistsList, inr tasklists)]
                      (TasksList (JStr requested) mr sc sd))])
        as (d & -> & _ & Hd).
      exists d; split; [reflexivity|exact Hd].
    + exists d; split; [reflexivity|]. apply Hr; reflexivity.
  - apply String.eqb_neq in Hne. unfold default_alias in Hne. rewrite Hne.
    destruct (str_in_list requested ids) eqn:E.
    + apply str_in_list_In in E. contradiction.
    + reflexivity.
Qed.

End Resolver.

(** ** Steps of a handler *)

Lemma respects_ret {A} P (a : A) : respects P (ret a).
Proof.
  intros tr. exists [], (inr a). rewrite app_nil_r. repeat split; constructor.
Qed.

Lemma respects_lift {A} P (r : outcome A) : respects P (lift r).
Proof.
  intros tr. exists [], r. rewrite app_nil_r. repeat split; constructor.
Qed.

Lemma respects_raise {A} P (e : exn) : respects P (@raise A e).
Proof.
  intros tr. exists [], (inl e). rewrite app_nil_r. repeat split; constructor.
Qed.

Lemma respects_execute (P : call -> Prop) svc c : P c -> respects P (execute svc c).
Proof.
  intros Hc tr. exists [(c, svc tr c)], (svc tr c). repeat split.
  - repeat constructor. exact Hc.
  - intros Hr. repeat constructor. exact Hr.
Qed.

Lemma respects_bind {A B} P (m : M A) (k : A -> M B) :
  respects P m -> (forall a, respects P (k a)) -> respects P (bind m k).
Proof.
  intros Hm Hk tr. unfold bind.
  destruct (Hm tr) as (evs & r & -> & HP & Hok).
  destruct r as [e|a].
  - exists evs, (inl e). repeat split; [exact HP|discriminate].
  - destruct (Hk a (tr ++ evs)%list) as (evs' & r' & -> & HP' & Hok').
    exists (evs ++ evs')%list, r'. rewrite app_assoc. repeat split.
    + apply Forall_app; split; assumption.
    + intros Hr. apply Forall_app; split; [apply Hok; reflexivity|apply Hok', Hr].
Qed.

Lemma respects_attempt_lift {A} P (r : outcome A) : respects P (attempt (lift r)).
Proof.
  intros tr. exists [], (inr r). unfold attempt, lift. rewrite app_nil_r.
  repeat split; constructor.
Qed.

Lemma respects_if {A} P (b : bool) (m1 m2 : M A) :
  respects P m1 -> respects P m2 -> respects P (if b then m1 else m2).
Proof. destruct b; auto. Qed.

Section HandlerProperties.
Context `{PyRuntime}.

Lemma on_error_run e tr :
  exists d, on_error e tr = (tr, inr d) /\ is_error_envelope d.
Proof.
  unfold on_error, ret.
  destruct (exn_class_of e); eexists; (split; [reflexivity|]);
    eexists; reflexivity.
Qed.

Lemma list_tasklists_on_error_run e tr :
  exists d, list_tasklists_on_error e tr = (tr, inr d) /\ is_error_envelope d.
Proof.
  unfold list_tasklists_on_error, ret.
  destruct (exn_class_of e); eexists; (split; [reflexivity|]);
    eexists; reflexivity.
Qed.

(** A handler whose [except] clauses always return an error envelope
    returns what its block returns, or such an envelope when the block
    raises; the calls issued are those of the block. *)
Lemma guarded_run (block : M dict) (clauses : exn -> M dict) tr :
  (forall e tr', exists d, clauses e tr' = (tr', inr d) /\ is_error_envelope d) ->
  exists d,
    try_except block clauses tr = (fst (block tr), inr d) /\
    (forall d', snd (block tr) = inr d' -> d = d') /\
    (is_raise (snd (block tr)) = true -> is_error_envelope d).
Proof.
  intros Hc. unfold try_except. destruct (block tr) as [tr' [e|d]]; cbn [fst snd].
  - destruct (Hc e tr') as (d & -> & Hd). exists d. repeat split; auto.
    discriminate.
  - exists d. repeat split; [congruence|discriminate].
Qed.

Lemma envelope_of_unresolved requested ids r :
  (forall id, r <> Resolved id) -> is_error_envelope (envelope_of requested ids r).
Proof.
  destruct r as [id| |available]; intros Hr.
  - exfalso; apply (Hr id); reflexivity.
  - eexists; reflexivity.
  - eexists; reflexivity.
Qed.

Lemma opening_run auth requested k :
  opening auth requested k
    (run (with_service auth (fun service =>
            with_tasklist service requested (k service)))).
Proof.
  unfold run, with_service, get_google_tasks_service, lift.
  unfold bind at 1.
  destruct auth as [e|[svc|]].
  - now apply opening_auth_raised.
  - destruct (svc [] TasklistsList) as [e|tasklists] eqn:Hlist.
    + unfold with_tasklist, _resolve_tasklist_id, bind, execute.
      rewrite Hlist. now apply opening_list_raised with svc.
    + destruct (available_ids tasklists) as [e|ids] eqn:Hids.
      * unfold with_tasklist, _resolve_tasklist_id, bind, execute, lift.
        rewrite Hlist, Hids. now apply opening_ids_raised with svc.
      * destruct (resolves_total requested ids) as [r Hr].
        rewrite (with_tasklist_run _ _ _ _ _ _ _ Hlist Hids Hr).
        destruct r as [id| |available]; cbn [app].
        -- now apply opening_resolved with ids.
        -- apply opening_unresolved with svc; auto. discriminate.
        -- apply opening_unresolved with svc; auto. discriminate.
  - now apply opening_auth_none.
Qed.

Ltac steps :=
  cbn beta zeta;
  repeat first
    [ apply respects_ret
    | apply respects_lift
    | apply respects_raise
    | apply respects_attempt_lift
    | apply respects_execute;
      first [ reflexivity | intros ? [= <-]; reflexivity ]
    | apply respects_bind; [|intro]
    | apply respects_if
    | match goal with
      | |- respects _ (match ?x with _ => _ end) => destruct x
      end ].

(** Every task-level handler but [get_tasks] opens the same way, and the
    rest of its block calls the resolved list only. *)
Lemma task_blocks auth i requested :
  requested_list i = Some requested ->
  (forall a b c d, i <> GetTasks a b c d) ->
  exists k,
    try_block auth i
    = with_service auth (fun service =>
        with_tasklist service requested (k service)) /\
    forall svc id, respects (on_list id) (k svc id).
Proof.
  intros Hreq Hget.
  destruct i; try discriminate Hreq; injection Hreq as ->.
  - exfalso; eapply Hget; reflexivity.
  - eexists; split; [reflexivity|]. intros svc id. steps.
  - eexists; split; [reflexivity|]. intros svc id. steps.
  - eexists; split; [reflexivity|]. intros svc id. steps.
  - eexists; split; [reflexivity|]. intros svc id. steps.
  - eexists; split; [reflexivity|]. intros svc id. steps.
  - eexists; split; [reflexivity|]. intros svc id. steps.
  - eexists; split; [reflexivity|]. intros svc id. steps.
Qed.

Lemma handle_guarded auth i :
  exists d,
    run (handle auth i) = (fst (run (try_block auth i)), inr d) /\
    (forall d', snd (run (try_block auth i)) = inr d' -> d = d') /\
    (is_raise (snd (run (try_block auth i))) = true -> is_error_envelope d).
Proof.
  unfold run.
  destruct i; cbn [handle try_block];
    first [ apply guarded_run; intros e tr'; apply on_error_run
          | apply guarded_run; intros e tr'; apply list_tasklists_on_error_run
          | idtac ].
  unfold get_tasks. apply guarded_run. intros e tr'.
  destruct (get_tasks_on_error_run (JStr tasklist_id) e tr') as (d & Hd & He & _).
  exists d; split; assumption.
Qed.

Lemma task_handler_cases auth i requested :
  requested_list i = Some requested ->
  (forall a b c d, i <> GetTasks a b c d) ->
  exists d,
    run (handle auth i) = (fst (run (try_block auth i)), inr d) /\
    (forall d', snd (run (try_block auth i)) = inr d' -> d = d') /\
    (is_raise (snd (run (try_block auth i))) = true -> is_error_envelope d) /\
    list_handler_cases auth requested (fst (run (try_block auth i))) d.
Proof.
  intros Hreq Hget.
  destruct (handle_guarded auth i) as (d & Hrun & Hret & Hraise).
  exists d. split; [exact Hrun|]. split; [exact Hret|]. split; [exact Hraise|].
  destruct (task_blocks auth i requested Hreq Hget) as (k & Hk & Hsteps).
  rewrite Hk in *. clear Hk Hrun.
  pose proof (opening_run auth requested k) as Hopen.
  inversion Hopen as [e Ha Hout | Ha Hout | svc e Ha Hl Hout
                     | svc tasklists e Ha Hl Hi Hout
                     | svc tasklists ids r Ha Hl Hi Hr Hun Hout
                     | svc tasklists ids id Ha Hl Hi Hr Hout];
    try (rewrite <- Hout in *; cbn [fst snd] in * ).
  - left. split; [|split].
    + intros svc; congruence.
    + reflexivity.
    + apply Hraise; reflexivity.
  - left. split; [|split].
    + intros svc; congruence.
    + reflexivity.
    + specialize (Hret _ eq_refl). subst d. eexists; reflexivity.
  - right; left. exists svc, e.
    do 3 (split; [solve [auto]|]). apply Hraise; reflexivity.
  - right; right; left. exists svc, tasklists, e.
    do 4 (split; [solve [auto]|]). apply Hraise; reflexivity.
  - right; right; right; left. exists svc, tasklists, ids, r.
    do 6 (split; [solve [auto]|]).
    specialize (Hret _ eq_refl). subst d.
    now apply envelope_of_unresolved.
  - right; right; right; right.
    destruct (Hsteps svc id [(TasklistsList, inr tasklists)])
      as (evs & r & Hk & HP & Hok).
    rewrite Hk in *. cbn [fst snd app] in *.
    exists svc, tasklists, ids, id, evs.
    do 6 (split; [solve [auto]|]).
    intros (c & e & Hin). apply Hraise.
    destruct r as [e'|d']; [reflexivity|]. exfalso.
    specialize (Hok eq_refl). rewrite Forall_forall in Hok.
    specialize (Hok _ Hin). discriminate Hok.
Qed.

Lemma resolves_resolved_inj requested ids id id' :
  resolves requested ids (Resolved id) ->
  resolves requested ids (Resolved id') -> id = id'.
Proof.
  intros Hr Hr'. pose proof (resolves_functional _ _ _ _ Hr Hr') as E.
  now injection E.
Qed.

Lemma get_tasks_cases auth requested max_results show_completed show_deleted :
  let i := GetTasks requested max_results show_completed show_deleted in
  exists d,
    run (handle auth i) = (fst (run (try_block auth i)), inr d) /\
    (forall d', snd (run (try_block auth i)) = inr d' -> d = d') /\
    (block_raised auth i -> is_error_envelope d) /\
    list_handler_cases auth requested (fst (run (try_block auth i))) d.
Proof.
  intros i.
  destruct (handle_guarded auth i) as (d & Hrun & Hret & Hraise).
  exists d. split; [exact Hrun|]. split; [exact Hret|]. clear Hrun.
  subst i. unfold block_raised, fetch_raised.
  cbn [try_block] in *. revert Hret Hraise.
  unfold run, get_tasks_try, bind, get_google_tasks_service, lift, execute.
  cbn beta iota zeta.
  destruct auth as [e|[svc|]]; cbn [fst snd app].
  { intros Hret Hraise. split.
    - intros [Hb|(svc & ? & ? & ? & Ha & _)]; [auto|discriminate].
    - left. split; [intros svc; congruence|]. split; [reflexivity|].
      apply Hraise; reflexivity. }
  2:{ intros Hret Hraise. specialize (Hret _ eq_refl). subst d. split.
      - intros _. eexists; reflexivity.
      - left. split; [intros svc; congruence|]. split; [reflexivity|].
        eexists; reflexivity. }
  destruct (svc [] TasklistsList) as [e|tasklists] eqn:Hlist; cbn [fst snd].
  { intros Hret Hraise. split.
    - intros [Hb|(svc' & ? & ? & ? & [= <-] & Hl & _)]; [auto|congruence].
    - right; left. exists svc, e.
      do 3 (split; [solve [auto]|]). apply Hraise; reflexivity. }
  destruct (available_ids tasklists) as [e|ids] eqn:Hids; cbn [fst snd].
  { intros Hret Hraise. split.
    - intros [Hb|(svc' & ? & ? & ? & [= <-] & Hl & Hi & _)]; [auto|congruence].
    - right; right; left. exists svc, tasklists, e.
      do 4 (split; [solve [auto]|]). apply Hraise; reflexivity. }
  destruct (resolves_total requested ids) as [r Hr].
  assert (Hfetch : forall id,
    resolves requested ids (Resolved id) ->
    (exists svc' tasklists' ids' id',
        @inr exn _ (Some svc) = inr (Some svc') /\
        svc' [] TasklistsList = inr tasklists' /\
        available_ids tasklists' = inr ids' /\
        resolves requested ids' (Resolved id') /\
        is_raise (snd (get_tasks_fetch svc' id' ids' max_results
                         show_completed show_deleted
                         [(TasklistsList, inr tasklists')])) = true) ->
    is_raise (snd (get_tasks_fetch svc id ids max_results show_completed
                     show_deleted [(TasklistsList, inr tasklists)])) = true).
  { intros id Hid (svc' & tasklists' & ids' & id' & [= <-] & Hl & Hi & Hr' & Hf).
    rewrite Hlist in Hl. injection Hl as <-.
    rewrite Hids in Hi. injection Hi as <-.
    rewrite (resolves_resolved_inj _ _ _ _ Hid Hr'). exact Hf. }
  destruct Hr as [-> -> | first rest -> -> | Hne Hin | Hne Hin].
  - (* the alias, no list *)
    cbn [fst snd]. intros Hret Hraise. specialize (Hret _ eq_refl). subst d.
    split; [intros _; eexists; reflexivity|].
    right; right; right; left. exists svc, tasklists, [], NoLists.
    do 3 (split; [solve [auto]|]). split; [now constructor|].
    split; [discriminate|]. split; [reflexivity|]. eexists; reflexivity.
  - (* the alias, resolved to the first list *)
    unfold default_alias. rewrite String.eqb_refl. cbn beta iota.
    unfold try_except.
    destruct (get_tasks_fetch_run svc first (first :: rest) max_results
                show_completed show_deleted [(TasklistsList, inr tasklists)])
      as (r & Hrun & _ & Hanswer).
    assert (Hfirst : resolves default_alias (first :: rest) (Resolved first))
      by (now apply resolves_first with rest).
    specialize (Hfetch first Hfirst).
    unfold default_alias in Hfetch. rewrite Hrun in *. cbn [fst snd app] in *.
    destruct r as [e|d'].
    + destruct (get_tasks_on_error_run first e
                  [(TasklistsList, inr tasklists);
                   (TasksList first max_results show_completed show_deleted,
                    svc [(TasklistsList, inr tasklists)]
                      (TasksList first max_results show_completed
                         show_deleted))]) as (d' & -> & Hd' & _).
      cbn [fst snd]. intros Hret Hraise. specialize (Hret _ eq_refl). subst d.
      split; [intros _; exact Hd'|].
      right; right; right; right.
      exists svc, tasklists, (first :: rest), first,
        [(TasksList first max_results show_completed show_deleted,
          svc [(TasklistsList, inr tasklists)]
            (TasksList first max_results show_completed show_deleted))].
      do 4 (split; [solve [auto]|]). split; [reflexivity|].
      split; [|intros _; exact Hd'].
      repeat constructor. intros l [= <-]; reflexivity.
    + cbn [fst snd]. intros Hret Hraise. specialize (Hret _ eq_refl). subst d.
      split.
      { intros [Hb|Hf]; [discriminate Hb|].
        specialize (Hfetch Hf). discriminate Hfetch. }
      right; right; right; right.
      exists svc, tasklists, (first :: rest), first,
        [(TasksList first max_results show_completed show_deleted,
          svc [(TasklistsList, inr tasklists)]
            (TasksList first max_results show_completed show_deleted))].
      do 4 (split; [solve [auto]|]). split; [reflexivity|].
      split; [repeat constructor; intros l [= <-]; reflexivity|].
      intros (c & e & [[= <- He]|[]]).
      rewrite He in Hanswer. specialize (Hanswer eq_refl). discriminate.
  - (* an explicit list, present *)
    apply String.eqb_neq in Hne. unfold default_alias in Hne. rewrite Hne.
    pose proof Hin as Hin'. apply str_in_list_In in Hin'. rewrite Hin'.
    cbn [negb].
    destruct (get_tasks_fetch_run svc (JStr requested) ids max_results
                show_completed show_deleted [(TasklistsList, inr tasklists)])
      as (r & Hrun & _ & Hanswer).
    assert (Hres : resolves requested ids (Resolved (JStr requested))).
    { apply resolves_present; [|exact Hin].
      apply String.eqb_neq. exact Hne. }
    specialize (Hfetch _ Hres).
    rewrite Hrun in *. cbn [fst snd app] in *.
    intros Hret Hraise. split.
    { intros [Hb|Hf]; [auto|]. apply Hraise, Hfetch, Hf. }
    right; right; right; right.
    exists svc, tasklists, ids, (JStr requested),
      [(TasksList (JStr requested) max_results show_completed show_deleted,
        svc [(TasklistsList, inr tasklists)]
          (TasksList (JStr requested) max_results show_completed
             show_deleted))].
    do 4 (split; [solve [auto]|]). split; [reflexivity|].
    split; [repeat constructor; intros l [= <-]; reflexivity|].
    intros (c & e & [[= <- He]|[]]).
    rewrite He in Hanswer. apply Hraise, Hanswer. reflexivity.
  - (* an explicit list, absent *)
    pose proof Hne as Hne'.
    apply String.eqb_neq in Hne. unfold default_alias in Hne. rewrite Hne.
    destruct (str_in_list requested ids) eqn:E.
    { apply str_in_list_In in E. contradiction. }
    cbn [negb fst snd]. intros Hret Hraise.
    specialize (Hret _ eq_refl). subst d.
    split; [intros _; eexists; reflexivity|].
    right; right; right; left. exists svc, tasklists, ids, (NotFound ids).
    do 3 (split; [solve [auto]|]). split; [now constructor|].
    split; [discriminate|]. split; [reflexivity|]. eexists; reflexivity.
Qed.

Lemma strptime_raises_value_error due e :
  strptime_ymd due = inl e -> exn_class_of e = ValueError.
Proof.
  unfold strptime_ymd, throw.
  destruct (match_ymd due) as [[[[Y m] d] rest]|]; [|now intros [= <-]].
  destruct (rest =? "")%string; [|now intros [= <-]].
  destruct (valid_date _ _ _); [discriminate|now intros [= <-]].
Qed.

(** [open_block blk auth requested Hopen]: the ways the opening lines of
    the block [blk] can go, as [Hopen]. *)
Ltac open_block blk auth requested Hopen :=
  let k := fresh "k" in
  let Hk := fresh "Hk" in
  evar (k : service -> json -> M dict);
  assert (Hk : blk = with_service auth (fun service =>
                       with_tasklist service requested (k service)))
    by (subst k; reflexivity);
  pose proof (opening_run auth requested k) as Hopen;
  rewrite <- Hk in Hopen; clear Hk; subst k.

(** A due date that [strptime] refuses never gets a task created. *)
Lemma create_task_refused auth title due requested notes parent position d :
  has_char "T" due = false ->
  is_raise (strptime_ymd due) = true ->
  snd (run (create_task_try auth title due requested notes parent position))
  = inr d ->
  is_error_envelope d.
Proof.
  intros HT Hbad.
  open_block (create_task_try auth title due requested notes parent position)
    auth requested Hopen.
  inversion Hopen as [e Ha Hout | Ha Hout | svc e Ha Hl Hout
                     | svc tasklists e Ha Hl Hi Hout
                     | svc tasklists ids r Ha Hl Hi Hr Hun Hout
                     | svc tasklists ids id Ha Hl Hi Hr Hout];
    cbn [fst snd]; try discriminate.
  - intros [= <-]. eexists; reflexivity.
  - intros [= <-]. now apply envelope_of_unresolved.
  - unfold bind, attempt, lift, format_due. rewrite HT.
    destruct (strptime_ymd due) as [e|date] eqn:Hd; [|discriminate Hbad].
    cbn [obind]. rewrite (strptime_raises_value_error _ _ Hd).
    cbn [ret snd]. intros [= <-]. eexists; reflexivity.
Qed.

Lemma listless_blocks i svc :
  requested_list i = None ->
  respects (fun c => tasklist_of_call c = None) (try_block (inr (Some svc)) i).
Proof.
  destruct i; try discriminate; intros _; cbn [try_block].
  - unfold list_tasklists_try, get_google_tasks_service.
    apply respects_bind; [apply respects_lift|]. intros [svc'|]; steps.
  - unfold create_tasklist_try, with_service, get_google_tasks_service.
    apply respects_bind; [apply respects_lift|]. intros [svc'|]; steps.
Qed.

Lemma listless_auth_failed i auth :
  requested_list i = None -> auth_failed auth ->
  fst (run (try_block auth i)) = [] /\
  (forall d, snd (run (try_block auth i)) = inr d -> is_error_envelope d).
Proof.
  intros Hreq Hauth.
  destruct auth as [e|[svc|]]; [| now destruct (Hauth svc) |];
    destruct i; try discriminate Hreq; (split; [reflexivity|]);
    cbn; intros d; try discriminate; intros [= <-]; eexists; reflexivity.
Qed.

Lemma call_failed_cons ev evs :
  call_failed (ev :: evs) -> is_raise (snd ev) = true \/ call_failed evs.
Proof.
  intros (c & e & [->|Hin]); [left; reflexivity|right; exists c, e; exact Hin].
Qed.

Lemma getting_tasks i :
  {exists a b c d, i = GetTasks a b c d}
  + {forall a b c d, i <> GetTasks a b c d}.
Proof. destruct i; [left; eauto| right; discriminate ..]. Qed.

(** Every handler with a list identifier goes one of the five ways. *)
Lemma list_handlers auth i requested :
  requested_list i = Some requested ->
  exists d,
    run (handle auth i) = (fst (run (try_block auth i)), inr d) /\
    (forall d', snd (run (try_block auth i)) = inr d' -> d = d') /\
    (block_raised auth i -> is_error_envelope d) /\
    list_handler_cases auth requested (fst (run (try_block auth i))) d.
Proof.
  intros Hreq. destruct (getting_tasks i) as [(a & b & c & d & ->)|Hget].
  - injection Hreq as ->. apply get_tasks_cases.
  - destruct (task_handler_cases auth i requested Hreq Hget)
      as (d & Hrun & Hret & Hraise & Hcases).
    exists d. repeat split; auto.
    intros [Hb|Hf]; [auto|].
    destruct i; try contradiction. exfalso; eapply Hget; reflexivity.
Qed.

Lemma resolved_in_enumeration requested ids id :
  resolves requested ids (Resolved id) -> In id ids.
Proof.
  inversion 1; subst; [left; reflexivity|assumption].
Qed.

(** C4.  Whatever the credential provider and the remote service do, a
    handler whose list identifier does not resolve (the alias with no list
    enumerated, or an identifier absent from the enumeration) returns an
    error envelope after the enumeration call alone, and every call on
    tasks a handler ever issues addresses a list that the enumeration of
    the same invocation returned and that resolution chose. *)
Theorem unvalidated_list_never_used (auth : auth_result) (i : invocation) :
  (forall requested svc tasklists ids r,
     requested_list i = Some requested ->
     auth = inr (Some svc) ->
     svc [] TasklistsList = inr tasklists ->
     available_ids tasklists = inr ids ->
     resolves requested ids r ->
     (forall id, r <> Resolved id) ->
     fst (run (handle auth i)) = [(TasklistsList, inr tasklists)] /\
     Forall (fun ev => mutates_task (fst ev) = false)
       (fst (run (handle auth i))) /\
     exists d, snd (run (handle auth i)) = inr d /\ is_error_envelope d) /\
  (forall c answer l,
     In (c, answer) (fst (run (handle auth i))) ->
     tasklist_of_call c = Some l ->
     exists requested svc tasklists ids,
       requested_list i = Some requested /\
       auth = inr (Some svc) /\
       svc [] TasklistsList = inr tasklists /\
       available_ids tasklists = inr ids /\
       resolves requested ids (Resolved l) /\
       In l ids).
Proof.
  destruct (requested_list i) as [requested|] eqn:Hreq.
  - destruct (list_handlers auth i requested Hreq)
      as (d & Hrun & _ & _ & Hcases).
    rewrite Hrun. cbn [fst snd]. split.
    + intros req svc t ids r [= <-] Ha Hl Hi Hr Hun.
      destruct Hcases as [(Hauth & _)|[(svc' & e & Ha' & Hl' & _)
        |[(svc' & t' & e & Ha' & Hl' & Hi' & _)
        |[(svc' & t' & ids' & r' & Ha' & Hl' & _ & _ & _ & Ht & Hd)
         |(svc' & t' & ids' & id & evs & Ha' & Hl' & Hi' & Hr' & _)]]]].
      * now destruct (Hauth svc).
      * congruence.
      * congruence.
      * assert (svc' = svc) as -> by congruence.
        assert (t' = t) as -> by congruence.
        rewrite Ht. split; [reflexivity|].
        split; [repeat constructor|]. exists d; split; [reflexivity|exact Hd].
      * assert (svc' = svc) as -> by congruence.
        assert (t' = t) as -> by congruence.
        assert (ids' = ids) as -> by congruence.
        destruct (Hun id). apply (resolves_functional _ _ _ _ Hr Hr').
    + intros c answer l Hin Hc.
      destruct Hcases as [(_ & Ht & _)|[(svc & e & _ & _ & Ht & _)
        |[(svc & t & e & _ & _ & _ & Ht & _)
        |[(svc & t & ids & r & _ & _ & _ & _ & _ & Ht & _)
         |(svc & t & ids & id & evs & Ha & Hl & Hi & Hr & Ht & Hon & _)]]]];
        rewrite Ht in Hin; cbn [In] in Hin.
      * contradiction.
      * destruct Hin as [[= <- _]|[]]. discriminate Hc.
      * destruct Hin as [[= <- _]|[]]. discriminate Hc.
      * destruct Hin as [[= <- _]|[]]. discriminate Hc.
      * destruct Hin as [[= <- _]|Hin]; [discriminate Hc|].
        rewrite Forall_forall in Hon. specialize (Hon _ Hin l Hc). subst l.
        exists requested, svc, t, ids. repeat split; auto.
        apply (resolved_in_enumeration _ _ _ Hr).
  - split; [intros; discriminate|].
    intros c answer l Hin Hc. exfalso.
    destruct (handle_guarded auth i) as (d & Hrun & _).
    rewrite Hrun in Hin. cbn [fst] in Hin.
    destruct auth as [e|[svc|]].
    + destruct i; try discriminate Hreq; exact Hin.
    + destruct (listless_blocks i svc Hreq []) as (evs & r & Hb & HP & _).
      unfold run in Hin. rewrite Hb in Hin. cbn [fst app] in Hin.
      rewrite Forall_forall in HP. specialize (HP _ Hin). cbn in HP.
      congruence.
    + destruct i; try discriminate Hreq; exact Hin.
Qed.

(** C2.  No handler raises: whatever the credential provider and the
    remote service do, each of the ten handlers returns a dictionary; and
    when authentication failed, a remote call raised, the list did not
    resolve, the due date was refused, or anything raised inside the
    handler's [try] block, that dictionary holds a string under
    ["error"]. *)
Theorem handlers_return_error_envelopes (auth : auth_result) (i : invocation) :
  exists d,
    snd (run (handle auth i)) = inr d /\
    (auth_failed auth \/ call_failed (fst (run (handle auth i))) \/
     resolution_failed auth i \/ due_refused i \/ block_raised auth i ->
     is_error_envelope d).
Proof.
  destruct (requested_list i) as [requested|] eqn:Hreq.
  - destruct (list_handlers auth i requested Hreq)
      as (d & Hrun & Hret & Hraise & Hcases).
    exists d. rewrite Hrun. cbn [fst snd]. split; [reflexivity|].
    intros [Hauth|[Hcall|[Hres|[Hdue|Hblock]]]].
    + destruct Hcases as [(_ & _ & Hd)|[(svc & e & Ha & _)|[(svc & t & e & Ha & _)
        |[(svc & t & ids & r & Ha & _)|(svc & t & ids & id & evs & Ha & _)]]]];
        [exact Hd|now destruct (Hauth svc) ..].
    + destruct Hcases as [(_ & Ht & Hd)|[(svc & e & _ & _ & Ht & Hd)
        |[(svc & t & e & _ & _ & _ & Ht & Hd)
        |[(svc & t & ids & r & _ & _ & _ & _ & _ & Ht & Hd)
         |(svc & t & ids & id & evs & _ & _ & _ & _ & Ht & _ & Hd)]]]];
        try exact Hd.
      rewrite Ht in Hcall. apply call_failed_cons in Hcall.
      destruct Hcall as [Hc|Hc]; [discriminate Hc|exact (Hd Hc)].
    + destruct Hres as (req & svc & t & ids & r & Hq & Ha & Hl & Hi & Hr & Hun).
      rewrite Hreq in Hq. injection Hq as <-.
      destruct Hcases as [(Hauth & _)|[(svc' & e & Ha' & Hl' & _)
        |[(svc' & t' & e & Ha' & Hl' & Hi' & _)
        |[(svc' & t' & ids' & r' & _ & _ & _ & _ & _ & _ & Hd)
         |(svc' & t' & ids' & id & evs & Ha' & Hl' & Hi' & Hr' & _)]]]].
      * now destruct (Hauth svc).
      * congruence.
      * congruence.
      * exact Hd.
      * assert (svc' = svc) as -> by congruence.
        assert (t' = t) as -> by congruence.
        assert (ids' = ids) as -> by congruence.
        destruct (Hun id). apply (resolves_functional _ _ _ _ Hr Hr').
    + destruct i; try contradiction. destruct Hdue as [HT Hbad].
      cbn [try_block] in *.
      destruct (snd (run (create_task_try auth title due tasklist_id notes
                            parent position))) as [e|d'] eqn:Hblk.
      * apply Hraise. left. cbn [try_block]. rewrite Hblk. reflexivity.
      * rewrite (Hret _ eq_refl).
        apply (create_task_refused _ _ _ _ _ _ _ _ HT Hbad Hblk).
    + exact (Hraise Hblock).
  - destruct (handle_guarded auth i) as (d & Hrun & Hret & Hraise).
    exists d. rewrite Hrun. cbn [fst snd]. split; [reflexivity|].
    intros [Hauth|[Hcall|[Hres|[Hdue|Hblock]]]].
    + destruct (listless_auth_failed i auth Hreq Hauth) as [_ Herr].
      destruct (snd (run (try_block auth i))) as [e|d'] eqn:Hblk.
      * apply Hraise; reflexivity.
      * rewrite (Hret _ eq_refl). apply Herr; reflexivity.
    + destruct auth as [e|[svc|]].
      * apply Hraise. destruct i; try discriminate Hreq; reflexivity.
      * destruct (listless_blocks i svc Hreq []) as (evs & r & Hb & _ & Hok).
        unfold run in *. rewrite Hb in *. cbn [fst snd app] in *.
        apply Hraise. destruct r as [e'|d']; [reflexivity|]. exfalso.
        destruct Hcall as (c & e & Hin). specialize (Hok eq_refl).
        rewrite Forall_forall in Hok. specialize (Hok _ Hin). discriminate.
      * exfalso. destruct Hcall as (c & e & Hin).
        destruct i; try discriminate Hreq; exact Hin.
    + destruct Hres as (req & ? & ? & ? & ? & Hq & _). congruence.
    + destruct i; try contradiction. discriminate Hreq.
    + destruct Hblock as [Hb|Hf]; [exact (Hraise Hb)|].
      destruct i; try contradiction. discriminate Hreq.
Qed.

End HandlerProperties.

(** ** Handlers on a resolved list *)

Section Resolved.
Context `{PyRuntime}.
Variables (svc : service) (requested : string) (tasklists : json)
  (ids : list json) (id : json).
Hypothesis Hlist : svc [] TasklistsList = inr tasklists.
Hypothesis Hids : available_ids tasklists = inr ids.
Hypothesis Hres : resolves requested ids (Resolved id).

(** With a service and a list that resolves, a block runs its remaining
    steps after the enumeration call. *)
Lemma resolved_block_run (k : service -> json -> M dict) :
  run (with_service (inr (Some svc)) (fun service =>
         with_tasklist service requested (k service)))
  = k svc id [(TasklistsList, inr tasklists)].
Proof.
  unfold run, with_service, get_google_tasks_service, lift.
  unfold bind at 1.
  rewrite (with_tasklist_run _ _ _ _ _ _ _ Hlist Hids Hres). reflexivity.
Qed.

Lemma resolved_handler_run (k : service -> json -> M dict) :
  run (try_except
         (with_service (inr (Some svc)) (fun service =>
            with_tasklist service requested (k service))) on_error)
  = try_except (k svc id) on_error [(TasklistsList, inr tasklists)].
Proof.
  unfold run, try_except.
  change (with_service (inr (Some svc))
            (fun service => with_tasklist service requested (k service)) [])
    with (run (with_service (inr (Some svc))
            (fun service => with_tasklist service requested (k service)))).
  rewrite resolved_block_run. reflexivity.
Qed.

Lemma guarded_trace (block : M dict) tr :
  fst (try_except block on_error tr) = fst (block tr).
Proof.
  destruct (guarded_run block on_error tr on_error_run) as (d & -> & _).
  reflexivity.
Qed.

Lemma guarded_returned (block : M dict) tr d :
  snd (block tr) = inr d -> snd (try_except block on_error tr) = inr d.
Proof.
  intros Hd.
  destruct (guarded_run block on_error tr on_error_run) as (d' & -> & Hret & _).
  cbn [snd]. now rewrite (Hret _ Hd).
Qed.

(** C5 (amended).  With a service and a list that resolves, [complete_task]
    issues, after the enumeration call, one patch of the task whose body
    is the single field ["status"], set to ["completed"] when [completed]
    is true and to ["needsAction"] when it is false; when the patch
    returns, the handler returns the patched task. *)
Theorem complete_task_patches_status (task_id : string) (completed : bool) :
  exists answer,
    fst (run (complete_task (inr (Some svc)) task_id requested completed))
    = [(TasklistsList, inr tasklists);
       (TasksPatch id task_id
          [("status", JStr (if completed then "completed" else "needsAction"))],
        answer)] /\
    (forall updated, answer = inr updated ->
       snd (run (complete_task (inr (Some svc)) task_id requested completed))
       = inr [("tasklist_id", id); ("task", updated)]).
Proof.
  unfold complete_task, complete_task_try.
  rewrite resolved_handler_run.
  exists (svc [(TasklistsList, inr tasklists)]
            (TasksPatch id task_id
               [("status",
                 JStr (if completed then "completed" else "needsAction"))])).
  split.
  - rewrite guarded_trace. unfold bind, execute, ret. cbn beta zeta.
    destruct (svc _ (TasksPatch id task_id _)); reflexivity.
  - intros updated Hu. apply guarded_returned.
    unfold bind, execute, ret. cbn beta zeta. rewrite Hu. reflexivity.
Qed.

(** C7 (amended).  With a service and a list that resolves, [update_task]
    given none of the optional fields first fetches the task; when the
    fetch returns it issues one patch whose body is empty, and returns
    what the patch returned; when the fetch raises it issues no patch and
    returns an error envelope; with [parent] and [position] omitted no
    call of the trace is a move, whatever the other fields are. *)
Theorem update_task_without_fields (task_id : string) :
  (forall current,
     svc [(TasklistsList, inr tasklists)] (TasksGet id task_id) = inr current ->
     exists answer,
       fst (run (update_task (inr (Some svc)) task_id requested
                   None None None None None None))
       = [(TasklistsList, inr tasklists);
          (TasksGet id task_id, inr current);
          (TasksPatch id task_id [], answer)] /\
       (forall updated, answer = inr updated ->
          snd (run (update_task (inr (Some svc)) task_id requested
                      None None None None None None))
          = inr [("tasklist_id", id); ("task", updated)])) /\
  (forall e,
     svc [(TasklistsList, inr tasklists)] (TasksGet id task_id) = inl e ->
     fst (run (update_task (inr (Some svc)) task_id requested
                 None None None None None None))
     = [(TasklistsList, inr tasklists); (TasksGet id task_id, inl e)] /\
     exists d,
       snd (run (update_task (inr (Some svc)) task_id requested
                   None None None None None None)) = inr d /\
       is_error_envelope d) /\
  (forall title notes due status,
     Forall (fun ev => is_move (fst ev) = false)
       (fst (run (update_task (inr (Some svc)) task_id requested
                    title notes due status None None)))).
Proof.
  split; [|split].
  - intros current Hget.
    unfold update_task, update_task_try. rewrite resolved_handler_run.
    exists (svc [(TasklistsList, inr tasklists);
                 (TasksGet id task_id, inr current)]
              (TasksPatch id task_id [])).
    split.
    + rewrite guarded_trace. unfold bind, execute, ret. cbn beta zeta.
      rewrite Hget. cbn [app set_if_given is_given orb].
      destruct (svc _ (TasksPatch id task_id [])); reflexivity.
    + intros updated Hu. apply guarded_returned.
      unfold bind, execute, ret. cbn beta zeta.
      rewrite Hget. cbn [app set_if_given is_given orb]. rewrite Hu.
      reflexivity.
  - intros e Hget.
    unfold update_task, update_task_try. rewrite resolved_handler_run.
    unfold try_except, bind, execute, ret. cbn beta zeta.
    rewrite Hget. cbn [app]. unfold on_error, ret.
    destruct (exn_class_of e); cbn [fst snd];
      (split; [reflexivity|]); eexists; (split; [reflexivity|]);
      eexists; reflexivity.
  - intros title notes due status.
    unfold update_task, update_task_try. rewrite resolved_handler_run.
    rewrite guarded_trace. unfold bind, execute, ret. cbn beta zeta.
    cbn [is_given orb].
    destruct (svc _ (TasksGet id task_id)) as [e|current]; cbn [app fst].
    + repeat constructor.
    + destruct (svc _ (TasksPatch id task_id _)); repeat constructor.
Qed.

(** C8.  With a service and a list that resolves, [delete_task] issues,
    after the enumeration call, exactly one delete call, and whatever
    document that call returns the handler returns the resolved list,
    [deleted] set to true and the task identifier it was given. *)
Theorem delete_task_deletes_once (task_id : string) :
  let out := run (delete_task (inr (Some svc)) task_id requested) in
  let answer :=
    svc [(TasklistsList, inr tasklists)] (TasksDelete id task_id) in
  fst out = [(TasklistsList, inr tasklists);
             (TasksDelete id task_id, answer)] /\
  List.length (filter (fun ev => is_delete (fst ev)) (fst out)) = 1%nat /\
  (forall body, answer = inr body ->
     snd out = inr [("tasklist_id", id); ("deleted", JBool true);
                    ("task_id", JStr task_id)]).
Proof.
  intros out answer. subst out answer.
  unfold delete_task, delete_task_try. rewrite resolved_handler_run.
  split; [|split].
  - rewrite guarded_trace. unfold bind, execute, ret. cbn beta zeta.
    destruct (svc _ (TasksDelete id task_id)); reflexivity.
  - rewrite guarded_trace. unfold bind, execute, ret. cbn beta zeta.
    destruct (svc _ (TasksDelete id task_id)); reflexivity.
  - intros body Hb. apply guarded_returned.
    unfold bind, execute, ret. cbn beta zeta. rewrite Hb. reflexivity.
Qed.

Lemma strptime_date_valid due y m d :
  strptime_ymd due = inr (y, m, d) -> valid_date y m d = true.
Proof.
  unfold strptime_ymd, throw.
  destruct (match_ymd due) as [[[[Y mm] dd] rest]|]; [|discriminate].
  destruct (rest =? "")%string; [|discriminate].
  destruct (valid_date _ _ _) eqn:Hv; [|discriminate].
  intros [= <- <- <-]. exact Hv.
Qed.

Lemma format_due_raises_value_error due e :
  format_due due = inl e -> exn_class_of e = ValueError.
Proof.
  unfold format_due. destruct (has_char "T" due); [discriminate|].
  destruct (strptime_ymd due) as [e'|date] eqn:Hd; [|discriminate].
  intros [= <-]. apply (strptime_raises_value_error _ _ Hd).
Qed.

(** What [create_task] does once the list is resolved, by the result of
    formatting the due date. *)
Lemma create_task_run title due notes parent position :
  let out := run (create_task (inr (Some svc)) title due requested notes
                    parent position) in
  match format_due due with
  | inr due_formatted =>
      exists answer,
        fst out
        = [(TasklistsList, inr tasklists);
           (TasksInsert id
              (set_if_given "notes" notes
                 [("title", JStr title); ("due", JStr due_formatted)])
              parent position, answer)]
  | inl e =>
      out = ([(TasklistsList, inr tasklists)],
             inr [("error", JStr ("Invalid date format. Please use YYYY-MM-DD format (e.g., '2024-12-31'). Error: " ++ exn_str e))])
  end.
Proof.
  intros out. subst out.
  unfold create_task, create_task_try. rewrite resolved_handler_run.
  destruct (format_due due) as [e|due_formatted] eqn:Hfmt.
  - unfold try_except, bind, attempt, lift.
    rewrite (format_due_raises_value_error _ _ Hfmt). reflexivity.
  - exists (svc [(TasklistsList, inr tasklists)]
              (TasksInsert id
                 (set_if_given "notes" notes
                    [("title", JStr title); ("due", JStr due_formatted)])
                 parent position)).
    rewrite guarded_trace.
    unfold bind, attempt, lift, execute, ret. cbn beta zeta.
    destruct (svc _ (TasksInsert id _ parent position)); reflexivity.
Qed.

(** C3 (amended).  With a service and a list that resolves, [create_task]
    forwards a due text that contains [T] unchanged in the insert call,
    writes ["2024-12-31"] as ["2024-12-31T00:00:00.000Z"], writes any date
    [strptime] accepts with [strftime], and for a due text without [T]
    that [strptime] refuses (["31-12-2024"] is one) returns the validation
    envelope with no insert call: the enumeration call of the list
    resolution is the only call issued. *)
Theorem create_task_due_handling (title due : string)
  (notes parent position : option string) :
  let out := run (create_task (inr (Some svc)) title due requested notes
                    parent position) in
  let inserted due_formatted :=
    TasksInsert id
      (set_if_given "notes" notes
         [("title", JStr title); ("due", JStr due_formatted)])
      parent position in
  (has_char "T" due = true ->
   exists answer,
     fst out = [(TasklistsList, inr tasklists); (inserted due, answer)]) /\
  (due = "2024-12-31" ->
   exists answer,
     fst out = [(TasklistsList, inr tasklists);
                (inserted "2024-12-31T00:00:00.000Z", answer)]) /\
  (has_char "T" due = false ->
   forall date, strptime_ymd due = inr date ->
   exists answer,
     fst out = [(TasklistsList, inr tasklists);
                (inserted (strftime_due date), answer)]) /\
  (has_char "T" due = false ->
   forall e, strptime_ymd due = inl e ->
   out = ([(TasklistsList, inr tasklists)],
          inr [("error", JStr ("Invalid date format. Please use YYYY-MM-DD format (e.g., '2024-12-31'). Error: " ++ exn_str e))])) /\
  (due = "31-12-2024" ->
   fst out = [(TasklistsList, inr tasklists)] /\
   exists d, snd out = inr d /\ is_error_envelope d).
Proof.
  intros out inserted. subst inserted.
  pose proof (create_task_run title due notes parent position) as Hrun.
  cbv zeta in Hrun. fold out in Hrun.
  repeat split.
  - intros HT. unfold format_due in Hrun. rewrite HT in Hrun. exact Hrun.
  - intros ->. exact Hrun.
  - intros HT date Hd. unfold format_due in Hrun. rewrite HT, Hd in Hrun.
    exact Hrun.
  - intros HT e Hd. unfold format_due in Hrun. rewrite HT, Hd in Hrun.
    exact Hrun.
  - subst due. cbn in Hrun. rewrite Hrun. reflexivity.
  - subst due. cbn in Hrun. rewrite Hrun. eexists; split; [reflexivity|].
    eexists; reflexivity.
Qed.

End Resolved.

(** ** The specification's examples, evaluated *)

Section Examples.
Context `{PyRuntime}.

Example search_by_query :
  filter_each (_match (Some "buy") None None) [buy_milk; pay_bills]
  = inr [buy_milk].
Proof. reflexivity. Qed.

Example search_due_before :
  filter_each (_match None (Some "2024-03-01") None) [buy_milk; pay_bills]
  = inr [buy_milk].
Proof. reflexivity. Qed.

Example search_undated :
  _match None (Some "2024-03-01") (Some "2024-02-01") undated = inr true.
Proof. reflexivity. Qed.

Example strptime_accepts_iso : strptime_ymd "2024-12-31" = inr (2024, 12, 31).
Proof. reflexivity. Qed.

Example strptime_accepts_short : strptime_ymd "2024-1-5" = inr (2024, 1, 5).
Proof. reflexivity. Qed.

Example strptime_refuses_day_first :
  is_raise (strptime_ymd "31-12-2024") = true.
Proof. reflexivity. Qed.

Example strptime_refuses_february_30 :
  is_raise (strptime_ymd "2023-02-30") = true.
Proof. reflexivity. Qed.

End Examples.

(** ** Instances on the sample service

    Each theorem above that has hypotheses is applied here to the sample
    service, which satisfies them. *)

Lemma sample_alias_resolves :
  resolves "@default" sample_ids (Resolved (JStr "L1")).
Proof. now apply resolves_first with [JStr "L2"]. Qed.

Lemma sample_lists_enumerate : enumerates sample_lists sample_ids.
Proof.
  apply enumerates_items with [[("id", JStr "L1")]; [("id", JStr "L2")]];
    [reflexivity|repeat constructor].
Qed.

Lemma list_resolution_witness :
  exists r,
    resolves "L2" sample_ids r /\
    run (@_resolve_tasklist_id sample_runtime sample_service "L2")
    = ([(TasklistsList, inr sample_lists)], inr (envelope_of "L2" sample_ids r)).
Proof.
  destruct (@list_resolution_follows_spec sample_runtime sample_service "L2"
              sample_lists sample_ids eq_refl sample_lists_enumerate)
    as (r & Hr & _ & Hrun & _).
  exists r. split; [exact Hr|exact Hrun].
Defined.

Lemma handlers_return_error_envelopes_witness :
  exists d,
    snd (run (@handle sample_runtime (inr None) (DeleteTask "T1" "@default")))
    = inr d /\ is_error_envelope d.
Proof.
  destruct (@handlers_return_error_envelopes sample_runtime (inr None)
              (DeleteTask "T1" "@default")) as (d & Hd & Herr).
  exists d. split; [exact Hd|]. apply Herr. left. intros svc. discriminate.
Defined.

Lemma create_task_due_handling_witness :
  sample_service [] TasklistsList = inr sample_lists /\
  @available_ids sample_runtime sample_lists = inr sample_ids /\
  resolves "@default" sample_ids (Resolved (JStr "L1")) /\
  exists answer,
    fst (run (@create_task sample_runtime (inr (Some sample_service))
                "Pay rent" "2024-12-31" "@default" None None None))
    = [(TasklistsList, inr sample_lists);
       (TasksInsert (JStr "L1")
          [("title", JStr "Pay rent");
           ("due", JStr "2024-12-31T00:00:00.000Z")] None None, answer)].
Proof.
  split; [reflexivity|]. split; [reflexivity|].
  split; [exact sample_alias_resolves|].
  apply (@create_task_due_handling sample_runtime sample_service "@default"
           sample_lists sample_ids (JStr "L1") eq_refl eq_refl
           sample_alias_resolves "Pay rent" "2024-12-31" None None None).
  reflexivity.
Defined.

(** A refused due date does not keep [create_task] from the remote
    service: the enumeration call has been issued when the date is
    parsed. *)
Lemma create_task_refused_due_counterexample :
  has_char "T" "31-12-2024" = false /\
  is_raise (@strptime_ymd sample_runtime "31-12-2024") = true /\
  fst (run (@create_task sample_runtime (inr (Some sample_service))
              "Pay rent" "31-12-2024" "@default" None None None))
  = [(TasklistsList, inr sample_lists)].
Proof. repeat split. Qed.

Lemma unvalidated_list_never_used_witness :
  fst (run (@handle sample_runtime (inr (Some sample_service))
              (DeleteTask "T1" "L9")))
  = [(TasklistsList, inr sample_lists)] /\
  exists d,
    snd (run (@handle sample_runtime (inr (Some sample_service))
                (DeleteTask "T1" "L9"))) = inr d /\
    is_error_envelope d.
Proof.
  destruct (@unvalidated_list_never_used sample_runtime
              (inr (Some sample_service)) (DeleteTask "T1" "L9"))
    as [Hstop _].
  destruct (Hstop "L9" sample_service sample_lists sample_ids
              (NotFound sample_ids) eq_refl eq_refl eq_refl eq_refl)
    as (Htr & _ & Hd).
  - apply resolves_absent; [discriminate|].
    intros [E|[E|[]]]; discriminate E.
  - discriminate.
  - split; [exact Htr|exact Hd].
Defined.

Lemma complete_task_patches_status_witness :
  sample_service [] TasklistsList = inr sample_lists /\
  @available_ids sample_runtime sample_lists = inr sample_ids /\
  resolves "@default" sample_ids (Resolved (JStr "L1")) /\
  exists answer,
    fst (run (@complete_task sample_runtime (inr (Some sample_service)) "T1"
                "@default" true))
    = [(TasklistsList, inr sample_lists);
       (TasksPatch (JStr "L1") "T1" [("status", JStr "completed")], answer)].
Proof.
  split; [reflexivity|]. split; [reflexivity|].
  split; [exact sample_alias_resolves|].
  destruct (@complete_task_patches_status sample_runtime sample_service
              "@default" sample_lists sample_ids (JStr "L1") eq_refl eq_refl
              sample_alias_resolves "T1" true) as (answer & Htr & _).
  exists answer. exact Htr.
Defined.

(** Reopening a task sends the status ["needsAction"], which is not the
    text ["needs-action"]. *)
Lemma complete_task_reopen_counterexample :
  fst (run (@complete_task sample_runtime (inr (Some sample_service)) "T1"
              "@default" false))
  = [(TasklistsList, inr sample_lists);
     (TasksPatch (JStr "L1") "T1" [("status", JStr "needsAction")],
      inr sample_task)] /\
  JStr "needsAction" <> JStr "needs-action".
Proof. split; [reflexivity|discriminate]. Qed.

Lemma search_match_filters_witness :
  str_field "title" [("title", JStr "Buy milk"); ("due", JStr "2024-01-01")]
  = Some "Buy milk" /\
  str_field "notes" [("title", JStr "Buy milk"); ("due", JStr "2024-01-01")]
  = Some "" /\
  @_match sample_runtime (Some "buy") (Some "2024-03-01") None buy_milk
  = inr true.
Proof.
  split; [reflexivity|]. split; [reflexivity|].
  destruct (@search_match_filters sample_runtime (Some "buy")
              (Some "2024-03-01") None
              [("title", JStr "Buy milk"); ("due", JStr "2024-01-01")]
              "Buy milk" "" eq_refl eq_refl)
    as (kept & Hk & Hiff & _).
  - intros v [= <-] _. eexists; reflexivity.
  - unfold buy_milk. rewrite Hk. f_equal. apply Hiff. split; [|split].
    + intros q [= <-]. apply contains_occurs. reflexivity.
    + intros b due [= <-] _ [= <-] _ Hlt.
      apply str_gt_lex in Hlt. discriminate Hlt.
    + intros a due Ha. discriminate Ha.
Defined.

(** The text searched has a space between title and notes: a query can
    match across them though it does not occur in title and notes put
    end to end. *)
Lemma search_match_separator_counterexample :
  @_match sample_runtime (Some "buy milk") None None
    (JDict [("title", JStr "Buy"); ("notes", JStr "milk")]) = inr true /\
  ~ occurs_in (lower "buy milk") (lower ("Buy" ++ "milk")).
Proof.
  split; [reflexivity|].
  rewrite <- contains_occurs. discriminate.
Qed.

Lemma update_task_without_fields_witness :
  sample_service [] TasklistsList = inr sample_lists /\
  @available_ids sample_runtime sample_lists = inr sample_ids /\
  resolves "@default" sample_ids (Resolved (JStr "L1")) /\
  exists answer,
    fst (run (@update_task sample_runtime (inr (Some sample_service)) "T1"
                "@default" None None None None None None))
    = [(TasklistsList, inr sample_lists);
       (TasksGet (JStr "L1") "T1", inr sample_task);
       (TasksPatch (JStr "L1") "T1" [], answer)].
Proof.
  split; [reflexivity|]. split; [reflexivity|].
  split; [exact sample_alias_resolves|].
  destruct (@update_task_without_fields sample_runtime sample_service
              "@default" sample_lists sample_ids (JStr "L1") eq_refl eq_refl
              sample_alias_resolves "T1") as [Hpatch _].
  destruct (Hpatch sample_task eq_refl) as (answer & Htr & _).
  exists answer. exact Htr.
Defined.

(** The patch is not issued when the fetch that precedes it raises. *)
Lemma update_task_fetch_refused_counterexample :
  failing_service [] TasklistsList = inr sample_lists /\
  @available_ids sample_runtime sample_lists = inr sample_ids /\
  resolves "@default" sample_ids (Resolved (JStr "L1")) /\
  run (@update_task sample_runtime (inr (Some failing_service)) "T1"
         "@default" None None None None None None)
  = ([(TasklistsList, inr sample_lists);
      (TasksGet (JStr "L1") "T1", inl (Exn HttpError "404"))],
     inr [("error", JStr "Google Tasks API error: 404")]).
Proof.
  split; [reflexivity|]. split; [reflexivity|].
  split; [exact sample_alias_resolves|reflexivity].
Qed.

Lemma delete_task_deletes_once_witness :
  sample_service [] TasklistsList = inr sample_lists /\
  @available_ids sample_runtime sample_lists = inr sample_ids /\
  resolves "@default" sample_ids (Resolved (JStr "L1")) /\
  run (@delete_task sample_runtime (inr (Some sample_service)) "T1" "@default")
  = ([(TasklistsList, inr sample_lists);
      (TasksDelete (JStr "L1") "T1", inr JNull)],
     inr [("tasklist_id", JStr "L1"); ("deleted", JBool true);
          ("task_id", JStr "T1")]).
Proof.
  split; [reflexivity|]. split; [reflexivity|].
  split; [exact sample_alias_resolves|].
  destruct (@delete_task_deletes_once sample_runtime sample_service
              "@default" sample_lists sample_ids (JStr "L1") eq_refl eq_refl
              sample_alias_resolves "T1") as (Htr & _ & Hret).
  specialize (Hret JNull eq_refl).
  rewrite (surjective_pairing (run _)). rewrite Htr, Hret. reflexivity.
Defined.

Lemma date_bounds_inclusive_witness :
  lookup "due" [("title", JStr "Buy milk"); ("due", JStr "2024-01-01")]
  = Some (JStr "2024-01-01") /\
  @_match sample_runtime None (Some "2024-01-01") None buy_milk = inr true /\
  @_match sample_runtime None None (Some "2024-01-01") buy_milk = inr true.
Proof.
  split; [reflexivity|].
  destruct (@date_bounds_inclusive sample_runtime
              [("title", JStr "Buy milk"); ("due", JStr "2024-01-01")]
              "2024-01-01" eq_refl) as (Hb & Ha & _).
  split; [exact Hb|exact Ha].
Defined.

(** * Further properties of the handlers

    What the handlers do beyond the statements above: the items they
    return, the calls they issue and their order, what a failure leaves
    behind, and the due dates [create_task] accepts. *)

(** ** Comprehensions and projections *)

Lemma filter_each_returns {A} (p : A -> exn + bool) l :
  (forall x, In x l -> is_raise (p x) = false) ->
  filter_each p l
  = inr (filter (fun x => match p x with inr true => true | _ => false end) l).
Proof.
  induction l as [|x l IH]; intros Hok; [reflexivity|].
  cbn [filter_each filter]. rewrite IH by (intros y Hy; apply Hok; now right).
  destruct (p x) as [e|[|]] eqn:Hp; cbn [obind]; try reflexivity.
  specialize (Hok x (or_introl eq_refl)). rewrite Hp in Hok. discriminate.
Qed.

Lemma filter_each_raises {A} (p : A -> exn + bool) l x :
  In x l -> is_raise (p x) = true -> is_raise (filter_each p l) = true.
Proof.
  induction l as [|y l IH]; intros Hin Hx; [destruct Hin|].
  cbn [filter_each]. destruct (p y) as [e|b] eqn:Hp; [reflexivity|].
  cbn [obind]. destruct Hin as [->|Hin]; [rewrite Hp in Hx; discriminate|].
  specialize (IH Hin Hx). destruct (filter_each p l); [reflexivity|discriminate].
Qed.

Lemma for_each_returns {A B} (f : A -> exn + B) (g : A -> B) l :
  (forall x, In x l -> f x = inr (g x)) -> for_each f l = inr (map g l).
Proof.
  induction l as [|x l IH]; intros Hok; [reflexivity|].
  cbn [for_each map]. rewrite (Hok x (or_introl eq_refl)). cbn [obind].
  rewrite IH by (intros y Hy; apply Hok; now right). reflexivity.
Qed.

Lemma for_each_raises {A B} (f : A -> exn + B) l x :
  In x l -> is_raise (f x) = true -> is_raise (for_each f l) = true.
Proof.
  induction l as [|y l IH]; intros Hin Hx; [destruct Hin|].
  cbn [for_each]. destruct (f y) as [e|b] eqn:Hf; [reflexivity|].
  cbn [obind]. destruct Hin as [->|Hin]; [rewrite Hf in Hx; discriminate|].
  specialize (IH Hin Hx). destruct (for_each f l); [reflexivity|discriminate].
Qed.

Section Projection.
Context `{PyRuntime}.

Lemma py_get_dict d k v :
  py_get (JDict d) k v
  = inr (match lookup k d with Some x => x | None => v end).
Proof. reflexivity. Qed.

Lemma format_task_projects d :
  format_task (JDict d) = inr (JDict (project task_fields d)).
Proof. reflexivity. Qed.

Lemma format_list_projects d :
  format_list (JDict d) = inr (JDict (project list_fields d)).
Proof. reflexivity. Qed.

End Projection.

Section Listing.
Context `{PyRuntime}.
Variables (svc : service) (requested : string) (tasklists : json)
  (ids : list json) (id : json).
Hypothesis Hlist : svc [] TasklistsList = inr tasklists.
Hypothesis Hids : available_ids tasklists = inr ids.
Hypothesis Hres : resolves requested ids (Resolved id).

Lemma twice_guarded {A} (m : M A) (h1 h2 : exn -> M A) tr :
  (forall e tr', exists a, h1 e tr' = (tr', inr a)) ->
  try_except (try_except m h1) h2 tr = try_except m h1 tr.
Proof.
  intros Hh. unfold try_except.
  destruct (m tr) as [tr' [e|a]]; [|reflexivity].
  destruct (Hh e tr') as (a & ->). reflexivity.
Qed.

Lemma get_tasks_resolved_run max_results show_completed show_deleted :
  run (get_tasks (inr (Some svc)) requested max_results show_completed
         show_deleted)
  = try_except
      (get_tasks_fetch svc id ids max_results show_completed show_deleted)
      (get_tasks_on_error id) [(TasklistsList, inr tasklists)].
Proof.
  unfold run, get_tasks, get_tasks_try, get_google_tasks_service.
  unfold try_except at 1. unfold bind at 1. unfold lift at 1.
  unfold bind at 1. unfold execute at 1. rewrite Hlist. cbn [app].
  unfold bind at 1. unfold lift at 1. rewrite Hids.
  inversion Hres as [ | first rest Ha Hi | Hne Hin | ]; subst.
  - cbn [String.eqb Ascii.eqb Bool.eqb].
    change (try_except
              (try_except
                 (get_tasks_fetch svc id (id :: rest) max_results
                    show_completed show_deleted) (get_tasks_on_error id))
              (get_tasks_on_error (JStr default_alias))
              [(TasklistsList, inr tasklists)]
            = try_except
                (get_tasks_fetch svc id (id :: rest) max_results
                   show_completed show_deleted) (get_tasks_on_error id)
                [(TasklistsList, inr tasklists)]).
    apply twice_guarded. intros e tr'.
    destruct (get_tasks_on_error_run id e tr') as (d & -> & _).
    now exists d.
  - apply String.eqb_neq in Hne. unfold default_alias in Hne. rewrite Hne.
    apply str_in_list_In in Hin. rewrite Hin. cbn [negb]. reflexivity.
Qed.

(** When the list resolves and every listed item is a dictionary,
    [get_tasks] returns each item projected on the nine fields, in the
    order of the listing, with their count. *)
Theorem get_tasks_projects_items
  (max_results : Z) (show_completed show_deleted : bool)
  (results : json) (listed : json) (tasks : list dict)
  (Hcall : svc [(TasklistsList, inr tasklists)]
             (TasksList id max_results show_completed show_deleted)
           = inr results)
  (Hitems : py_get results "items" (JList []) = inr listed)
  (Hiter : py_iter listed = inr (map JDict tasks)) :
  run (get_tasks (inr (Some svc)) requested max_results show_completed
         show_deleted)
  = ([(TasklistsList, inr tasklists);
      (TasksList id max_results show_completed show_deleted, inr results)],
     inr [("tasklist_id", id);
          ("max_results", JNum max_results);
          ("show_completed", JBool show_completed);
          ("show_deleted", JBool show_deleted);
          ("total_tasks", JNum (Z.of_nat (List.length tasks)));
          ("tasks", JList (map (fun t => JDict (project task_fields t)) tasks));
          ("available_lists", JList ids)]).
Proof.
  rewrite get_tasks_resolved_run.
  unfold try_except, get_tasks_fetch, bind, execute, lift, ret.
  replace (if negb show_completed then false else true) with show_completed
    by (destruct show_completed; reflexivity).
  replace (if negb show_deleted then false else true) with show_deleted
    by (destruct show_deleted; reflexivity).
  rewrite Hcall. cbn beta iota zeta. rewrite Hitems. cbn beta iota zeta.
  rewrite Hiter. cbn beta iota zeta.
  rewrite (for_each_returns format_task
             (fun t => match t with
                       | JDict d => JDict (project task_fields d)
                       | _ => t
                       end)).
  2:{ intros x Hx. apply in_map_iff in Hx. destruct Hx as (d & <- & _).
      apply format_task_projects. }
  rewrite !map_map, !length_map. reflexivity.
Qed.

(** When the call that lists the tasks raises, the envelope of
    [get_tasks] names the list the request resolved to: the first list of
    the account when the alias was given, not the alias. *)
Theorem get_tasks_failure_names_resolved_list
  (max_results : Z) (show_completed show_deleted : bool) (e : exn)
  (Hcall : svc [(TasklistsList, inr tasklists)]
             (TasksList id max_results show_completed show_deleted)
           = inl e) :
  exists d,
    run (get_tasks (inr (Some svc)) requested max_results show_completed
           show_deleted)
    = ([(TasklistsList, inr tasklists);
        (TasksList id max_results show_completed show_deleted, inl e)],
       inr d) /\
    is_error_envelope d /\
    lookup "tasklist_id" d = Some id /\
    lookup "tasks" d = Some (JList []) /\
    lookup "available_lists" d = None.
Proof.
  rewrite get_tasks_resolved_run.
  unfold try_except, get_tasks_fetch, bind, execute.
  replace (if negb show_completed then false else true) with show_completed
    by (destruct show_completed; reflexivity).
  replace (if negb show_deleted then false else true) with show_deleted
    by (destruct show_deleted; reflexivity).
  rewrite Hcall. cbn beta iota zeta. cbn [app].
  unfold get_tasks_on_error, ret.
  destruct (exn_class_of e); eexists; (split; [reflexivity|]);
    (split; [eexists; reflexivity|]); repeat split; reflexivity.
Qed.

(** A listed item that is not a dictionary makes [get_tasks] answer with
    an error envelope and no task at all, whatever the other items
    are. *)
Theorem get_tasks_malformed_item
  (max_results : Z) (show_completed show_deleted : bool)
  (results : json) (listed : json) (items : list json) (item : json)
  (Hcall : svc [(TasklistsList, inr tasklists)]
             (TasksList id max_results show_completed show_deleted)
           = inr results)
  (Hitems : py_get results "items" (JList []) = inr listed)
  (Hiter : py_iter listed = inr items)
  (Hin : In item items)
  (Hbad : forall d, item <> JDict d) :
  exists d,
    run (get_tasks (inr (Some svc)) requested max_results show_completed
           show_deleted)
    = ([(TasklistsList, inr tasklists);
        (TasksList id max_results show_completed show_deleted, inr results)],
       inr d) /\
    is_error_envelope d /\ lookup "tasks" d = Some (JList []).
Proof.
  rewrite get_tasks_resolved_run.
  unfold try_except, get_tasks_fetch, bind, execute, lift.
  replace (if negb show_completed then false else true) with show_completed
    by (destruct show_completed; reflexivity).
  replace (if negb show_deleted then false else true) with show_deleted
    by (destruct show_deleted; reflexivity).
  rewrite Hcall. cbn beta iota zeta. rewrite Hitems. cbn beta iota zeta.
  rewrite Hiter. cbn beta iota zeta.
  assert (Hr : is_raise (for_each format_task items) = true).
  { apply (for_each_raises format_task items item Hin).
    destruct item; try reflexivity. exfalso; eapply Hbad; reflexivity. }
  destruct (for_each format_task items) as [e|?]; [|discriminate].
  cbn [app]. unfold get_tasks_on_error, ret.
  destruct (exn_class_of e); eexists; (split; [reflexivity|]);
    (split; [eexists; reflexivity|reflexivity]).
Qed.

(** ** What a search returns *)

(** When [_match] returns for every listed item, [search_tasks] keeps
    exactly the items it accepts, in the order of the listing, and counts
    them. *)
Theorem search_tasks_keeps_matches
  (query : option string) (include_completed include_deleted : bool)
  (due_before due_after : option string) (max_results : Z)
  (results listed : json) (items : list json)
  (Hcall : svc [(TasklistsList, inr tasklists)]
             (TasksList id max_results include_completed include_deleted)
           = inr results)
  (Hitems : py_get results "items" (JList []) = inr listed)
  (Hiter : py_iter listed = inr items)
  (Hok : forall t, In t items ->
           is_raise (_match query due_before due_after t) = false) :
  let kept := filter (matches query due_before due_after) items in
  run (search_tasks (inr (Some svc)) requested query include_completed
         include_deleted due_before due_after max_results)
  = ([(TasklistsList, inr tasklists);
      (TasksList id max_results include_completed include_deleted,
       inr results)],
     inr [("tasklist_id", id);
          ("total", JNum (Z.of_nat (List.length kept)));
          ("tasks", JList kept)]).
Proof.
  intros kept. subst kept. unfold search_tasks, search_tasks_try.
  rewrite (resolved_handler_run svc _ tasklists ids id Hlist Hids Hres).
  unfold try_except, bind, execute, lift, ret. cbn beta iota zeta.
  rewrite Hcall. cbn beta iota zeta. rewrite Hitems. cbn beta iota zeta.
  rewrite Hiter. cbn beta iota zeta.
  rewrite (filter_each_returns _ _ Hok). reflexivity.
Qed.

(** One listed item on which [_match] raises makes the whole search
    fail: the caller gets an error envelope and none of the items that
    matched. *)
Theorem search_tasks_one_bad_item
  (query : option string) (include_completed include_deleted : bool)
  (due_before due_after : option string) (max_results : Z)
  (results listed : json) (items : list json) (item : json)
  (Hcall : svc [(TasklistsList, inr tasklists)]
             (TasksList id max_results include_completed include_deleted)
           = inr results)
  (Hitems : py_get results "items" (JList []) = inr listed)
  (Hiter : py_iter listed = inr items)
  (Hin : In item items)
  (Hbad : is_raise (_match query due_before due_after item) = true) :
  exists d,
    run (search_tasks (inr (Some svc)) requested query include_completed
           include_deleted due_before due_after max_results)
    = ([(TasklistsList, inr tasklists);
        (TasksList id max_results include_completed include_deleted,
         inr results)],
       inr d) /\
    is_error_envelope d /\ lookup "tasks" d = None /\ lookup "total" d = None.
Proof.
  unfold search_tasks, search_tasks_try.
  rewrite (resolved_handler_run svc _ tasklists ids id Hlist Hids Hres).
  unfold try_except, bind, execute, lift, ret. cbn beta iota zeta.
  rewrite Hcall. cbn beta iota zeta. rewrite Hitems. cbn beta iota zeta.
  rewrite Hiter. cbn beta iota zeta.
  pose proof (filter_each_raises _ items item Hin Hbad) as Hr.
  destruct (filter_each (_match query due_before due_after) items) as [e|?];
    [|discriminate].
  cbn [app]. unfold on_error, ret.
  destruct (exn_class_of e); eexists; (split; [reflexivity|]);
    (split; [eexists; reflexivity|split; reflexivity]).
Qed.

End Listing.

(** ** The calls of a handler *)

Lemma issue_spec svc calls :
  forall tr, exists evs,
    issue svc tr calls = (tr ++ evs)%list /\
    map fst evs = firstn (List.length evs) calls /\
    (forall c e, In (c, inl e) evs ->
       exists pre, evs = (pre ++ [(c, inl e)])%list /\
                   Forall (fun ev => is_raise (snd ev) = false) pre) /\
    ((List.length evs < List.length calls)%nat ->
     exists c e, In (c, inl e) evs).
Proof.
  induction calls as [|c rest IH]; intros tr; cbn [issue].
  - exists []. rewrite app_nil_r. repeat split; try reflexivity.
    + intros c e [].
    + cbn. lia.
  - destruct (svc tr c) as [e|a].
    + exists [(c, inl e)]. repeat split; try reflexivity.
      * intros c' e' [[= <- <-]|[]]. exists []. split; [reflexivity|constructor].
      * intros _. exists c, e. left; reflexivity.
    + destruct (IH (tr ++ [(c, inr a)])%list) as (evs & -> & Hm & Hr & Hs).
      exists ((c, inr a) :: evs). rewrite <- app_assoc. split; [reflexivity|].
      split; [cbn; now rewrite Hm|]. split.
      * intros c' e' [[= ]|Hin].
        destruct (Hr _ _ Hin) as (pre & -> & Hpre).
        exists ((c, inr a) :: pre). split; [reflexivity|].
        constructor; [reflexivity|exact Hpre].
      * cbn [List.length]. intros Hlt.
        destruct Hs as (c' & e' & Hin); [lia|].
        exists c', e'. right; exact Hin.
Qed.

Section Calls.
Context `{PyRuntime}.

(** With a service and a list that resolves, a handler issues its plan. *)
Lemma resolved_calls i requested svc tasklists ids id :
  requested_list i = Some requested ->
  svc [] TasklistsList = inr tasklists ->
  available_ids tasklists = inr ids ->
  resolves requested ids (Resolved id) ->
  fst (run (handle (inr (Some svc)) i))
  = issue svc [(TasklistsList, inr tasklists)] (plan i id).
Proof.
  intros Hreq Hlist Hids Hres.
  destruct i; try discriminate Hreq; injection Hreq as ->; cbn [handle plan].
  - (* get_tasks *)
    unfold run, get_tasks, get_tasks_try, try_except, bind,
      get_google_tasks_service, lift, execute.
    cbn beta iota zeta. rewrite Hlist. cbn beta iota zeta. rewrite Hids.
    cbn beta iota zeta. cbn [app issue].
    assert (Hfetch : forall handler_id,
      fst (let (tr', o) :=
             get_tasks_fetch svc id ids max_results show_completed
               show_deleted [(TasklistsList, inr tasklists)] in
           match o with
           | inl e => get_tasks_on_error handler_id e tr'
           | inr a => (tr', inr a)
           end)
      = match svc [(TasklistsList, inr tasklists)]
                (TasksList id max_results show_completed show_deleted) with
        | inl e =>
            [(TasklistsList, inr tasklists);
             (TasksList id max_results show_completed show_deleted, inl e)]
        | inr a =>
            [(TasklistsList, inr tasklists);
             (TasksList id max_results show_completed show_deleted, inr a)]
        end).
    { intros hid.
      destruct (get_tasks_fetch_run svc id ids max_results show_completed
                  show_deleted [(TasklistsList, inr tasklists)])
        as (r & -> & _ & _). cbn [app].
      destruct r as [e|d].
      - destruct (get_tasks_on_error_run hid e
                    [(TasklistsList, inr tasklists);
                     (TasksList id max_results show_completed show_deleted,
                      svc [(TasklistsList, inr tasklists)]
                        (TasksList id max_results show_completed
                           show_deleted))]) as (d & -> & _).
        cbn [fst]. destruct (svc [(TasklistsList, inr tasklists)] _); reflexivity.
      - cbn [fst]. destruct (svc [(TasklistsList, inr tasklists)] _); reflexivity. }
    inversion Hres as [| first rest Hreq Hi | Hne Hin | ]; subst.
    + unfold default_alias. rewrite String.eqb_refl. cbn beta iota.
      pose proof (Hfetch id) as Hf.
      destruct (get_tasks_fetch svc id (id :: rest) max_results show_completed
                  show_deleted [(TasklistsList, inr tasklists)])
        as [tr' [e|d]]; cbn beta iota in *.
      * destruct (get_tasks_on_error_run id e tr') as (d & Hd & _).
        rewrite Hd in *. cbn [fst] in *. exact Hf.
      * exact Hf.
    + apply String.eqb_neq in Hne. unfold default_alias in Hne. rewrite Hne.
      apply str_in_list_In in Hin. rewrite Hin. cbn [negb].
      apply Hfetch.
  - (* create_task *)
    unfold create_task, create_task_try.
    rewrite (resolved_handler_run svc _ tasklists ids id Hlist Hids
               Hres).
    rewrite guarded_trace.
    unfold bind, attempt, lift, execute, ret.
    destruct (format_due due) as [e|due_formatted]; cbn beta iota zeta.
    + destruct (exn_class_of e); reflexivity.
    + cbn [issue]. destruct (svc [(TasklistsList, inr tasklists)] _); reflexivity.
  - (* update_task *)
    unfold update_task, update_task_try.
    rewrite (resolved_handler_run svc _ tasklists ids id Hlist Hids
               Hres).
    rewrite guarded_trace.
    unfold bind, execute, ret, patch_body. cbn beta iota zeta. cbn [issue app].
    destruct (svc _ (TasksGet id task_id)) as [e|current]; [reflexivity|].
    cbn [issue app].
    destruct (svc _ (TasksPatch id task_id _)) as [e|updated]; [reflexivity|].
    destruct (is_given parent || is_given position); cbn [issue app];
      [|reflexivity].
    destruct (svc _ (TasksMove id task_id parent position)); reflexivity.
  - (* complete_task *)
    unfold complete_task, complete_task_try.
    rewrite (resolved_handler_run svc _ tasklists ids id Hlist Hids
               Hres).
    rewrite guarded_trace.
    unfold bind, execute, ret. cbn beta iota zeta. cbn [issue].
    destruct (svc [(TasklistsList, inr tasklists)] _); reflexivity.
  - (* delete_task *)
    unfold delete_task, delete_task_try.
    rewrite (resolved_handler_run svc _ tasklists ids id Hlist Hids
               Hres).
    rewrite guarded_trace.
    unfold bind, execute, ret. cbn beta iota zeta. cbn [issue].
    destruct (svc [(TasklistsList, inr tasklists)] _); reflexivity.
  - (* get_task *)
    unfold get_task, get_task_try.
    rewrite (resolved_handler_run svc _ tasklists ids id Hlist Hids
               Hres).
    rewrite guarded_trace.
    unfold bind, execute, ret. cbn beta iota zeta. cbn [issue].
    destruct (svc [(TasklistsList, inr tasklists)] _); reflexivity.
  - (* search_tasks *)
    unfold search_tasks, search_tasks_try.
    rewrite (resolved_handler_run svc _ tasklists ids id Hlist Hids
               Hres).
    rewrite guarded_trace.
    unfold bind, execute, ret, lift. cbn beta iota zeta. cbn [issue].
    destruct (svc [(TasklistsList, inr tasklists)] _) as [e|results]; [reflexivity|].
    destruct (py_get results "items" (JList [])) as [e|items]; [reflexivity|].
    destruct (py_iter items) as [e|ts]; [reflexivity|].
    destruct (filter_each _ ts); reflexivity.
  - (* move_task *)
    unfold move_task, move_task_try.
    rewrite (resolved_handler_run svc _ tasklists ids id Hlist Hids
               Hres).
    rewrite guarded_trace.
    unfold bind, execute, ret. cbn beta iota zeta. cbn [issue].
    destruct (svc [(TasklistsList, inr tasklists)] _); reflexivity.
Qed.

(** The two handlers without a list issue their one call. *)
Lemma listless_calls i svc :
  requested_list i = None ->
  fst (run (handle (inr (Some svc)) i)) = issue svc [] (plan i JNull).
Proof.
  intros Hreq. destruct i; try discriminate Hreq; cbn [handle plan].
  - unfold run, list_tasklists, list_tasklists_try, try_except, bind,
      get_google_tasks_service, lift, execute, ret.
    cbn beta iota zeta. cbn [issue app].
    destruct (svc [] TasklistsList) as [e|results].
    + destruct (list_tasklists_on_error_run e [(TasklistsList, inl e)])
        as (d & -> & _). reflexivity.
    + destruct (py_get results "items" (JList [])) as [e|items].
      { destruct (list_tasklists_on_error_run e
                    [(TasklistsList, inr results)]) as (d & -> & _).
        reflexivity. }
      destruct (py_iter items) as [e|ts].
      { destruct (list_tasklists_on_error_run e
                    [(TasklistsList, inr results)]) as (d & -> & _).
        reflexivity. }
      destruct (for_each format_list ts) as [e|fs].
      { destruct (list_tasklists_on_error_run e
                    [(TasklistsList, inr results)]) as (d & -> & _).
        reflexivity. }
      reflexivity.
  - unfold run, create_tasklist. rewrite guarded_trace.
    unfold create_tasklist_try, with_service, bind,
      get_google_tasks_service, lift, execute, ret.
    cbn beta iota zeta. cbn [issue app].
    destruct (svc [] _); reflexivity.
Qed.

End Calls.

Section CallProperties.
Context `{PyRuntime}.

(** The trace of a handler, by what the provider and the enumeration
    gave. *)
Lemma handler_trace_cases auth i :
  (auth_failed auth /\ fst (run (handle auth i)) = [])
  \/ (exists svc,
        auth = inr (Some svc) /\ requested_list i = None /\
        fst (run (handle auth i)) = issue svc [] (plan i JNull))
  \/ (exists svc answer,
        auth = inr (Some svc) /\ requested_list i <> None /\
        svc [] TasklistsList = answer /\
        fst (run (handle auth i)) = [(TasklistsList, answer)])
  \/ (exists svc tasklists id,
        auth = inr (Some svc) /\ requested_list i <> None /\
        svc [] TasklistsList = inr tasklists /\
        fst (run (handle auth i))
        = issue svc [(TasklistsList, inr tasklists)] (plan i id)).
Proof.
  destruct (requested_list i) as [requested|] eqn:Hreq.
  - destruct (list_handlers auth i requested Hreq)
      as (d & Hrun & _ & _ & Hcases).
    rewrite Hrun. cbn [fst].
    destruct Hcases as [(Ha & Ht & _)|[(svc & e & Ha & Hl & Ht & _)
      |[(svc & t & e & Ha & Hl & _ & Ht & _)
      |[(svc & t & ids & r & Ha & Hl & _ & _ & _ & Ht & _)
       |(svc & t & ids & id & evs & Ha & Hl & Hi & Hr & _)]]]].
    + left. auto.
    + right; right; left. exists svc, (inl e). rewrite Ht.
      repeat split; auto; discriminate.
    + right; right; left. exists svc, (inr t). rewrite Ht.
      repeat split; auto; discriminate.
    + right; right; left. exists svc, (inr t). rewrite Ht.
      repeat split; auto; discriminate.
    + right; right; right. exists svc, t, id. subst auth.
      split; [reflexivity|]. split; [discriminate|]. split; [exact Hl|].
      rewrite <- (resolved_calls i requested svc t ids id Hreq Hl Hi Hr).
      symmetry. exact (f_equal fst Hrun).
  - destruct auth as [e|[svc|]].
    + left. split; [intros svc; discriminate|].
      destruct (handle_guarded (inl e) i) as (d & -> & _). cbn [fst].
      apply (listless_auth_failed i (inl e) Hreq). intros svc; discriminate.
    + right; left. exists svc. repeat split.
      apply (listless_calls i svc Hreq).
    + left. split; [intros svc; discriminate|].
      destruct (handle_guarded (inr None) i) as (d & -> & _). cbn [fst].
      apply (listless_auth_failed i (inr None) Hreq). intros svc; discriminate.
Qed.

Lemma firstn_In_sub {A} (x : A) n l : In x (firstn n l) -> In x l.
Proof.
  revert l. induction n; intros [|y l]; cbn; intuition.
Qed.

Lemma issue_from svc tr calls :
  exists evs,
    issue svc tr calls = (tr ++ evs)%list /\
    (List.length evs <= List.length calls)%nat /\
    (forall c a, In (c, a) evs -> In c calls) /\
    (forall c e, In (c, inl e) evs ->
       exists pre, evs = (pre ++ [(c, inl e)])%list /\
                   Forall (fun ev => is_raise (snd ev) = false) pre).
Proof.
  destruct (issue_spec svc calls tr) as (evs & Hi & Hm & Hr & _).
  exists evs. split; [exact Hi|]. split.
  - apply (f_equal (@List.length call)) in Hm.
    rewrite length_map, length_firstn in Hm. lia.
  - split; [|exact Hr]. intros c a Hin.
    apply (in_map fst) in Hin. cbn [fst] in Hin. rewrite Hm in Hin.
    revert Hin. apply firstn_In_sub.
Qed.

(** A remote call that raises is the last call of its invocation: every
    call before it returned, and the handler issues none after it. *)
Theorem no_call_after_failure (auth : auth_result) (i : invocation)
  (c : call) (e : exn)
  (Hfail : In (c, inl e) (fst (run (handle auth i)))) :
  exists before,
    fst (run (handle auth i)) = (before ++ [(c, inl e)])%list /\
    Forall (fun ev => is_raise (snd ev) = false) before.
Proof.
  revert Hfail.
  destruct (handler_trace_cases auth i)
    as [(_ & ->)|[(svc & _ & _ & ->)|[(svc & a & _ & _ & _ & ->)
       |(svc & t & id & _ & _ & _ & ->)]]].
  - intros [].
  - destruct (issue_from svc [] (plan i JNull)) as (evs & -> & _ & _ & Hr).
    cbn [app]. apply Hr.
  - intros [[= <- <-]|[]]. exists []. split; [reflexivity|constructor].
  - destruct (issue_from svc [(TasklistsList, inr t)] (plan i id))
      as (evs & -> & _ & _ & Hr).
    intros [[=]|Hin]. destruct (Hr _ _ Hin) as (pre & -> & Hpre).
    exists ((TasklistsList, inr t) :: pre). split; [reflexivity|].
    constructor; [reflexivity|exact Hpre].
Qed.

Lemma plan_within_budget i id :
  (requested_list i = None -> (List.length (plan i id) <= call_budget i)%nat) /\
  (requested_list i <> None ->
   (S (List.length (plan i id)) <= call_budget i)%nat).
Proof.
  destruct i; cbn [plan call_budget requested_list]; split;
    try congruence; intros _; cbn [List.length]; try lia.
  - destruct (format_due due); cbn [List.length]; lia.
  - destruct (is_given parent || is_given position); cbn; lia.
Qed.

(** No invocation leads to more remote calls than its budget: one for
    the two handlers without a list, two for the others, and three or
    four for [update_task], by whether it also moves the task. *)
Theorem calls_within_budget (auth : auth_result) (i : invocation) :
  (List.length (fst (run (handle auth i))) <= call_budget i)%nat.
Proof.
  destruct (handler_trace_cases auth i)
    as [(_ & ->)|[(svc & _ & Hreq & ->)|[(svc & a & _ & Hreq & _ & ->)
       |(svc & t & id & _ & Hreq & _ & ->)]]].
  - cbn. lia.
  - destruct (issue_from svc [] (plan i JNull)) as (evs & -> & Hlen & _).
    cbn [app]. pose proof (proj1 (plan_within_budget i JNull) Hreq). lia.
  - pose proof (proj2 (plan_within_budget i JNull) Hreq). cbn. lia.
  - destruct (issue_from svc [(TasklistsList, inr t)] (plan i id))
      as (evs & -> & Hlen & _).
    pose proof (proj2 (plan_within_budget i id) Hreq).
    cbn [app List.length]. lia.
Qed.

(** Without a service (the provider raised or returned [None]) a
    handler issues no call and returns an error envelope; a handler that
    issued a call had a service. *)
Theorem no_service_no_call (auth : auth_result) (i : invocation) :
  (auth_failed auth ->
   fst (run (handle auth i)) = [] /\
   exists d, snd (run (handle auth i)) = inr d /\ is_error_envelope d) /\
  (fst (run (handle auth i)) <> [] -> exists svc, auth = inr (Some svc)).
Proof.
  split.
  - intros Hauth. split.
    + destruct (handler_trace_cases auth i)
        as [(_ & Ht)|[(svc & Ha & _)|[(svc & a & Ha & _)
           |(svc & t & id & Ha & _)]]];
        [exact Ht|now destruct (Hauth svc) ..].
    + destruct (requested_list i) as [requested|] eqn:Hreq.
      * destruct (list_handlers auth i requested Hreq)
          as (d & Hrun & _ & _ & Hcases).
        exists d. rewrite Hrun. split; [reflexivity|].
        destruct Hcases as [(_ & _ & Hd)|[(svc & e & Ha & _)
          |[(svc & t & e & Ha & _)|[(svc & t & ids & r & Ha & _)
           |(svc & t & ids & id & evs & Ha & _)]]]];
          [exact Hd|now destruct (Hauth svc) ..].
      * destruct (handle_guarded auth i) as (d & Hrun & Hret & Hraise).
        exists d. rewrite Hrun. split; [reflexivity|].
        destruct (listless_auth_failed i auth Hreq Hauth) as [_ Herr].
        destruct (snd (run (try_block auth i))) as [e|d'] eqn:Hblk.
        -- apply Hraise; reflexivity.
        -- rewrite (Hret _ eq_refl). apply Herr; reflexivity.
  - intros Hne.
    destruct (handler_trace_cases auth i)
      as [(_ & Ht)|[(svc & Ha & _)|[(svc & a & Ha & _)
         |(svc & t & id & Ha & _)]]]; eauto. contradiction.
Qed.

(** A handler that takes a list enumerates the lists first, against the
    empty trace, and never a second time in the same invocation. *)
Theorem enumeration_comes_first (auth : auth_result) (i : invocation)
  (requested : string) (Hreq : requested_list i = Some requested) :
  fst (run (handle auth i)) = [] \/
  exists svc rest,
    auth = inr (Some svc) /\
    fst (run (handle auth i))
    = (TasklistsList, svc [] TasklistsList) :: rest /\
    Forall (fun ev => fst ev <> TasklistsList) rest.
Proof.
  destruct (handler_trace_cases auth i)
    as [(_ & Ht)|[(svc & _ & Hn & _)|[(svc & a & Ha & _ & Hl & Ht)
       |(svc & t & id & Ha & _ & Hl & Ht)]]].
  - left; exact Ht.
  - congruence.
  - right. exists svc, []. rewrite Ht, Hl. repeat split; auto.
  - right.
    destruct (issue_from svc [(TasklistsList, inr t)] (plan i id))
      as (evs & Hi & _ & Hin & _).
    exists svc, evs. rewrite Ht, Hi, Hl. split; [exact Ha|].
    split; [reflexivity|].
    apply Forall_forall. intros [c a] Hc. cbn [fst]. intros ->.
    specialize (Hin _ _ Hc). revert Hin.
    destruct i; try discriminate Hreq; cbn [plan];
      try (intros [E|[]]; discriminate E).
    + destruct (format_due due); [intros []|intros [E|[]]; discriminate E].
    + intros Hx. apply in_app_or in Hx.
      destruct Hx as [[E|[E|[]]]|Hx]; try discriminate E.
      destruct (is_given parent || is_given position);
        [destruct Hx as [E|[]]; discriminate E|destruct Hx].
Qed.

Lemma read_only_plan i id :
  read_only i = true -> Forall (fun c => writes c = false) (plan i id).
Proof.
  destruct i; try discriminate; intros _; cbn [plan]; repeat constructor.
Qed.

(** The four handlers that read ([get_tasks], [list_tasklists],
    [get_task], [search_tasks]) never issue a call that creates, changes
    or deletes something, whatever the service answers. *)
Theorem read_only_handlers_never_write (auth : auth_result) (i : invocation)
  (Hread : read_only i = true) :
  Forall (fun ev => writes (fst ev) = false) (fst (run (handle auth i))).
Proof.
  pose proof (fun id => read_only_plan i id Hread) as Hplan.
  assert (Hissue : forall svc tr id,
    Forall (fun ev => writes (fst ev) = false) tr ->
    Forall (fun ev => writes (fst ev) = false) (issue svc tr (plan i id))).
  { intros svc tr id Htr.
    destruct (issue_from svc tr (plan i id)) as (evs & -> & _ & Hin & _).
    apply Forall_app; split; [exact Htr|].
    apply Forall_forall. intros [c a] Hc. cbn [fst].
    specialize (Hplan id). rewrite Forall_forall in Hplan.
    apply Hplan. apply (Hin _ _ Hc). }
  destruct (handler_trace_cases auth i)
    as [(_ & ->)|[(svc & _ & _ & ->)|[(svc & a & _ & _ & _ & ->)
       |(svc & t & id & _ & _ & _ & ->)]]].
  - constructor.
  - apply Hissue. constructor.
  - repeat constructor.
  - apply Hissue. repeat constructor.
Qed.

(** With a service, the calls of a handler are its plan, issued in order
    after the enumeration until one raises: the plan depends on the
    arguments and the resolved list only, not on what the service
    answers. *)
Theorem handler_calls_follow_plan (i : invocation) (svc : service) :
  (forall requested tasklists ids id,
     requested_list i = Some requested ->
     svc [] TasklistsList = inr tasklists ->
     available_ids tasklists = inr ids ->
     resolves requested ids (Resolved id) ->
     fst (run (handle (inr (Some svc)) i))
     = issue svc [(TasklistsList, inr tasklists)] (plan i id)) /\
  (requested_list i = None ->
   fst (run (handle (inr (Some svc)) i)) = issue svc [] (plan i JNull)).
Proof.
  split.
  - intros requested tasklists ids id. apply resolved_calls.
  - apply listless_calls.
Qed.

End CallProperties.

(** ** Searches and enumerations *)

Lemma lower_empty s : (lower s =? "")%string = (s =? "")%string.
Proof. destruct s; reflexivity. Qed.

Lemma filter_all {A} (p : A -> bool) l :
  (forall x, In x l -> p x = true) -> filter p l = l.
Proof.
  induction l as [|x l IH]; intros Hp; [reflexivity|].
  cbn [filter]. rewrite (Hp x (or_introl eq_refl)).
  rewrite IH by (intros y Hy; apply Hp; now right). reflexivity.
Qed.

Section Criteria.
Context `{PyRuntime}.

Lemma match_without_criteria query due_before due_after t :
  (query = None \/ query = Some "") ->
  (due_before = None \/ due_before = Some "") ->
  (due_after = None \/ due_after = Some "") ->
  _match query due_before due_after t = inr true.
Proof. intros [->| ->] [->| ->] [->| ->]; reflexivity. Qed.

(** The case of the query does not matter: two queries that differ only
    by case select the same items, and fail on the same items. *)
Theorem search_query_ignores_case (q q' : string)
  (due_before due_after : option string) (t : json)
  (Hcase : lower q = lower q') :
  _match (Some q) due_before due_after t
  = _match (Some q') due_before due_after t.
Proof.
  unfold _match. rewrite <- (lower_empty q), <- (lower_empty q'), Hcase.
  reflexivity.
Qed.

End Criteria.

Section Unfiltered.
Context `{PyRuntime}.
Variables (svc : service) (requested : string) (tasklists : json)
  (ids : list json) (id : json).
Hypothesis Hlist : svc [] TasklistsList = inr tasklists.
Hypothesis Hids : available_ids tasklists = inr ids.
Hypothesis Hres : resolves requested ids (Resolved id).

(** With no query and no bound, or empty ones, [search_tasks] returns
    every listed item as the remote service gave it, without looking
    into any of them. *)
Theorem search_without_criteria_returns_all
  (query : option string) (include_completed include_deleted : bool)
  (due_before due_after : option string) (max_results : Z)
  (results listed : json) (items : list json)
  (Hquery : query = None \/ query = Some "")
  (Hbefore : due_before = None \/ due_before = Some "")
  (Hafter : due_after = None \/ due_after = Some "")
  (Hcall : svc [(TasklistsList, inr tasklists)]
             (TasksList id max_results include_completed include_deleted)
           = inr results)
  (Hitems : py_get results "items" (JList []) = inr listed)
  (Hiter : py_iter listed = inr items) :
  run (search_tasks (inr (Some svc)) requested query include_completed
         include_deleted due_before due_after max_results)
  = ([(TasklistsList, inr tasklists);
      (TasksList id max_results include_completed include_deleted,
       inr results)],
     inr [("tasklist_id", id);
          ("total", JNum (Z.of_nat (List.length items)));
          ("tasks", JList items)]).
Proof.
  unfold search_tasks, search_tasks_try.
  rewrite (resolved_handler_run svc _ tasklists ids id Hlist Hids Hres).
  unfold try_except, bind, execute, lift, ret. cbn beta iota zeta.
  rewrite Hcall. cbn beta iota zeta. rewrite Hitems. cbn beta iota zeta.
  rewrite Hiter. cbn beta iota zeta.
  rewrite filter_each_returns.
  2:{ intros t _.
      now rewrite (match_without_criteria _ _ _ t Hquery Hbefore Hafter). }
  rewrite filter_all; [reflexivity|].
  intros t _.
  now rewrite (match_without_criteria _ _ _ t Hquery Hbefore Hafter).
Qed.

End Unfiltered.

Section Enumeration.
Context `{PyRuntime}.

(** When every enumerated list is a dictionary, [list_tasklists] returns
    each projected on its four fields, in the order of the enumeration,
    with their count; a list without identifier is returned with a null
    one. *)
Theorem list_tasklists_projects_lists (svc : service)
  (results listed : json) (lists : list dict)
  (Hcall : svc [] TasklistsList = inr results)
  (Hitems : py_get results "items" (JList []) = inr listed)
  (Hiter : py_iter listed = inr (map JDict lists)) :
  run (list_tasklists (inr (Some svc)))
  = ([(TasklistsList, inr results)],
     inr [("total_lists", JNum (Z.of_nat (List.length lists)));
          ("tasklists",
           JList (map (fun l => JDict (project list_fields l)) lists))]).
Proof.
  unfold run, list_tasklists, list_tasklists_try, get_google_tasks_service,
    try_except, bind, execute, lift, ret.
  cbn beta iota zeta. rewrite Hcall. cbn beta iota zeta.
  rewrite Hitems. cbn beta iota zeta. rewrite Hiter. cbn beta iota zeta.
  rewrite (for_each_returns format_list
             (fun t => match t with
                       | JDict d => JDict (project list_fields d)
                       | _ => t
                       end)).
  2:{ intros x Hx. apply in_map_iff in Hx. destruct Hx as (d & <- & _).
      apply format_list_projects. }
  rewrite !map_map, !length_map. reflexivity.
Qed.

(** One enumerated list without identifier disables every handler that
    takes a list: each answers with an error envelope after the
    enumeration call alone, also when the list asked for is among the
    well-formed ones. *)
Theorem list_without_id_blocks_handlers (svc : service) (i : invocation)
  (requested : string) (tasklists listed : json) (lists : list json)
  (l : json)
  (Hreq : requested_list i = Some requested)
  (Hcall : svc [] TasklistsList = inr tasklists)
  (Hitems : py_get tasklists "items" (JList []) = inr listed)
  (Hiter : py_iter listed = inr lists)
  (Hin : In l lists)
  (Hbad : is_raise (py_getitem l "id") = true) :
  exists d,
    run (handle (inr (Some svc)) i) = ([(TasklistsList, inr tasklists)], inr d)
    /\ is_error_envelope d.
Proof.
  assert (Hids : is_raise (available_ids tasklists) = true).
  { unfold available_ids. rewrite Hitems. cbn [obind]. rewrite Hiter.
    cbn [obind]. exact (for_each_raises _ lists l Hin Hbad). }
  destruct (list_handlers (inr (Some svc)) i requested Hreq)
    as (d & Hrun & _ & _ & Hcases).
  exists d.
  destruct Hcases as
    [(Hauth & _) | [(s & e & Ha & Hl & _) | [(s & t & e & Ha & Hl & Hi & Htr & He)
    | [(s & t & ids & r & Ha & Hl & Hi & _)
    | (s & t & ids & id & evs & Ha & Hl & Hi & _)]]]].
  - exfalso; eapply Hauth; reflexivity.
  - injection Ha as <-. rewrite Hcall in Hl. discriminate.
  - injection Ha as <-. rewrite Hcall in Hl. injection Hl as <-.
    rewrite Hrun, Htr. split; [reflexivity|exact He].
  - injection Ha as <-. rewrite Hcall in Hl. injection Hl as <-.
    rewrite Hi in Hids. discriminate.
  - injection Ha as <-. rewrite Hcall in Hl. injection Hl as <-.
    rewrite Hi in Hids. discriminate.
Qed.

End Enumeration.

(** ** The patch of [update_task] *)

Lemma patch_body_fields title notes due status :
  let body := patch_body title notes due status in
  lookup "title" body = option_map JStr title /\
  lookup "notes" body = option_map JStr notes /\
  lookup "due" body = option_map JStr due /\
  lookup "status" body = option_map JStr status /\
  (forall k, k <> "title" -> k <> "notes" -> k <> "due" -> k <> "status" ->
     lookup k body = None).
Proof.
  destruct title, notes, due, status; cbn; repeat split; try reflexivity;
    intros k H1 H2 H3 H4;
    apply String.eqb_neq in H1, H2, H3, H4;
    rewrite ?(String.eqb_sym "title"), ?(String.eqb_sym "notes"),
      ?(String.eqb_sym "due"), ?(String.eqb_sym "status");
    rewrite ?H1, ?H2, ?H3, ?H4; reflexivity.
Qed.

(** ** The patch and the move of [update_task] *)

Section Update.
Context `{PyRuntime}.
Variables (svc : service) (requested : string) (tasklists : json)
  (ids : list json) (id : json).
Hypothesis Hlist : svc [] TasklistsList = inr tasklists.
Hypothesis Hids : available_ids tasklists = inr ids.
Hypothesis Hres : resolves requested ids (Resolved id).

(** When a parent or a position is given, [update_task] moves the task
    after the patch has gone through; a move that raises leaves the
    patch in place at the remote service, and the caller gets the error
    envelope alone, without the patched task. *)
Theorem update_task_patches_then_moves
  (task_id : string) (title notes due status parent position : option string)
  (current updated : json)
  (Hmove : is_given parent || is_given position = true)
  (Hget : svc [(TasklistsList, inr tasklists)] (TasksGet id task_id)
          = inr current)
  (Hpatch : svc [(TasklistsList, inr tasklists);
                 (TasksGet id task_id, inr current)]
              (TasksPatch id task_id (patch_body title notes due status))
            = inr updated) :
  let out := run (update_task (inr (Some svc)) task_id requested title notes
                    due status parent position) in
  let patched :=
    [(TasklistsList, inr tasklists);
     (TasksGet id task_id, inr current);
     (TasksPatch id task_id (patch_body title notes due status),
      inr updated)] in
  let moved := svc patched (TasksMove id task_id parent position) in
  fst out = (patched ++ [(TasksMove id task_id parent position, moved)])%list /\
  (forall task, moved = inr task ->
     snd out = inr [("tasklist_id", id); ("task", task)]) /\
  (forall e, moved = inl e ->
     exists d, snd out = inr d /\ is_error_envelope d /\
               lookup "task" d = None).
Proof.
  intros out patched moved. subst out patched moved.
  unfold update_task, update_task_try.
  rewrite (resolved_handler_run svc _ tasklists ids id Hlist Hids Hres).
  unfold try_except, bind, execute, ret. cbn beta iota zeta.
  rewrite Hget. cbn [app]. fold (patch_body title notes due status).
  rewrite Hpatch. rewrite Hmove. cbn [app].
  destruct (svc _ (TasksMove id task_id parent position)) as [e|task].
  - unfold on_error, ret. destruct (exn_class_of e); cbn [fst snd];
      (split; [reflexivity|]); (split; [discriminate|]);
      intros e' _; eexists; (split; [reflexivity|]);
      (split; [eexists; reflexivity|reflexivity]).
  - cbn [fst snd]. split; [reflexivity|]. split; [|discriminate].
    intros task' [= <-]. reflexivity.
Qed.

End Update.

(** ** What the one-call handlers return *)

Lemma ends_with_append a b : ends_with b (a ++ b).
Proof. now exists a. Qed.

Section Reported.
Context `{PyRuntime}.

(** An exception of the credential provider reaches the caller of any
    handler as an error envelope that ends with its text, and no remote
    call is issued. *)
Theorem provider_exception_is_reported (e : exn) (i : invocation) :
  exists message,
    run (handle (inl e) i)
    = ([], inr (("error", JStr message)
                  :: match i with
                     | GetTasks tasklist_id _ _ _ =>
                         [("tasklist_id", JStr tasklist_id);
                          ("tasks", JList [])]
                     | ListTasklists => [("tasklists", JList [])]
                     | _ => []
                     end)) /\
    ends_with (exn_str e) message.
Proof.
  destruct i; cbn [handle];
    unfold run, get_tasks, get_tasks_try, list_tasklists, list_tasklists_try,
      create_task, create_task_try, update_task, update_task_try,
      complete_task, complete_task_try, delete_task, delete_task_try,
      create_tasklist, create_tasklist_try, get_task, get_task_try,
      search_tasks, search_tasks_try, move_task, move_task_try,
      with_service, get_google_tasks_service, try_except, bind, lift,
      get_tasks_on_error, list_tasklists_on_error, on_error, ret;
    cbn beta iota zeta;
    destruct (exn_class_of e); eexists; (split; [reflexivity|]);
    first [apply ends_with_append | apply (ends_with_append "")].
Qed.

End Reported.

Section Single.
Context `{PyRuntime}.
Variables (svc : service) (requested : string) (tasklists : json)
  (ids : list json) (id : json).
Hypothesis Hlist : svc [] TasklistsList = inr tasklists.
Hypothesis Hids : available_ids tasklists = inr ids.
Hypothesis Hres : resolves requested ids (Resolved id).

(** [get_task] and [move_task] each hand back what their one call on
    the resolved list returned, under ["task"], with the resolved list
    identifier, whenever that call returns and whatever the service does
    on other calls. *)
Theorem get_and_move_return_the_answer (task_id : string) :
  (forall fetched,
     svc [(TasklistsList, inr tasklists)] (TasksGet id task_id)
     = inr fetched ->
     run (get_task (inr (Some svc)) task_id requested)
     = ([(TasklistsList, inr tasklists); (TasksGet id task_id, inr fetched)],
        inr [("tasklist_id", id); ("task", fetched)])) /\
  (forall parent previous moved,
     svc [(TasklistsList, inr tasklists)]
       (TasksMove id task_id parent previous) = inr moved ->
     run (move_task (inr (Some svc)) task_id requested parent previous)
     = ([(TasklistsList, inr tasklists);
         (TasksMove id task_id parent previous, inr moved)],
        inr [("tasklist_id", id); ("task", moved)])).
Proof.
  split; [intros fetched Hget|intros parent previous moved Hmove].
  - unfold get_task, get_task_try.
    rewrite (resolved_handler_run svc _ tasklists ids id Hlist Hids Hres).
    unfold try_except, bind, execute, ret. cbn beta iota zeta.
    rewrite Hget. reflexivity.
  - unfold move_task, move_task_try.
    rewrite (resolved_handler_run svc _ tasklists ids id Hlist Hids Hres).
    unfold try_except, bind, execute, ret. cbn beta iota zeta.
    rewrite Hmove. reflexivity.
Qed.

(** The patch of [update_task] holds each of the four fields that was
    given, with the value given, and nothing else: nothing of the task
    fetched before is copied into it. *)
Theorem update_task_patches_given_fields (task_id : string)
  (title notes due status parent position : option string) (current : json)
  (Hget : svc [(TasklistsList, inr tasklists)] (TasksGet id task_id)
          = inr current) :
  exists body answer rest,
    fst (run (update_task (inr (Some svc)) task_id requested title notes due
                status parent position))
    = (TasklistsList, inr tasklists)
        :: (TasksGet id task_id, inr current)
        :: (TasksPatch id task_id body, answer) :: rest /\
    lookup "title" body = option_map JStr title /\
    lookup "notes" body = option_map JStr notes /\
    lookup "due" body = option_map JStr due /\
    lookup "status" body = option_map JStr status /\
    (forall k, k <> "title" -> k <> "notes" -> k <> "due" -> k <> "status" ->
       lookup k body = None).
Proof.
  exists (patch_body title notes due status).
  unfold update_task, update_task_try.
  rewrite (resolved_handler_run svc _ tasklists ids id Hlist Hids Hres).
  rewrite guarded_trace.
  unfold bind, execute, ret. cbn beta iota zeta.
  rewrite Hget. cbn [app]. fold (patch_body title notes due status).
  destruct (svc _ (TasksPatch id task_id _)) as [e|updated] eqn:Hpatch.
  - exists (inl e), []. split; [reflexivity|].
    apply (patch_body_fields title notes due status).
  - destruct (is_given parent || is_given position).
    + exists (inr updated).
      destruct (svc _ (TasksMove id task_id parent position));
        (eexists [_]; split; [reflexivity|]);
        apply (patch_body_fields title notes due status).
    + exists (inr updated), []. split; [reflexivity|].
      apply (patch_body_fields title notes due status).
Qed.

End Single.

Section Created.
Context `{PyRuntime}.

(** [create_tasklist] sends a body with the title alone and hands back
    the created list under ["tasklist"]; it enumerates nothing. *)
Theorem create_tasklist_sends_title (svc : service) (title : string) :
  let c := TasklistsInsert [("title", JStr title)] in
  fst (run (create_tasklist (inr (Some svc)) title)) = [(c, svc [] c)] /\
  (forall created, svc [] c = inr created ->
     snd (run (create_tasklist (inr (Some svc)) title))
     = inr [("tasklist", created)]) /\
  (forall e, svc [] c = inl e ->
     exists d, snd (run (create_tasklist (inr (Some svc)) title)) = inr d /\
               is_error_envelope d /\ lookup "tasklist" d = None).
Proof.
  intros c. subst c.
  unfold run, create_tasklist, create_tasklist_try, with_service,
    get_google_tasks_service, try_except, bind, lift, execute, ret.
  cbn beta iota zeta.
  destruct (svc [] _) as [e|created]; cbn [app fst snd].
  - unfold on_error, ret. destruct (exn_class_of e); cbn [fst snd];
      (split; [reflexivity|]); (split; [discriminate|]);
      intros e' _; eexists; (split; [reflexivity|]);
      (split; [eexists; reflexivity|reflexivity]).
  - split; [reflexivity|]. split; [|discriminate].
    intros created' [= <-]. reflexivity.
Qed.

End Created.

(** ** Due dates *)

Lemma has_char_append c a b :
  has_char c (a ++ b) = has_char c a || has_char c b.
Proof.
  induction a as [|x a IH]; [reflexivity|].
  cbn [append has_char]. rewrite IH. apply orb_assoc.
Qed.

Ltac enumerate H :=
  repeat match type of H with
         | _ \/ _ => destruct H as [H|H]
         end; subst.

Lemma digit_cases k : 0 <= k <= 9 ->
  k = 0 \/ k = 1 \/ k = 2 \/ k = 3 \/ k = 4 \/ k = 5 \/ k = 6 \/ k = 7 \/
  k = 8 \/ k = 9.
Proof. lia. Qed.

Lemma digit_char_digit k : 0 <= k <= 9 ->
  is_digit (digit_char k) = true /\
  Z.of_N (N_of_ascii (digit_char k)) - 48 = k /\
  (("T" =? digit_char k)%char = false).
Proof.
  intros Hk. apply digit_cases in Hk. enumerate Hk; repeat split; reflexivity.
Qed.

Lemma py_int_pad2 n : 0 <= n <= 99 -> py_int (pad2 n) = n.
Proof.
  intros Hn. unfold py_int, pad2. cbn [int_acc].
  destruct (digit_char_digit (n / 10)) as (-> & -> & _);
    [split; [apply Z.div_pos; lia|apply Z.lt_succ_r, Z.div_lt_upper_bound; lia]|].
  destruct (digit_char_digit (n mod 10)) as (-> & -> & _);
    [pose proof (Z.mod_pos_bound n 10); lia|].
  pose proof (Z.div_mod n 10). lia.
Qed.

Lemma month_cases m : 1 <= m <= 12 ->
  m = 1 \/ m = 2 \/ m = 3 \/ m = 4 \/ m = 5 \/ m = 6 \/ m = 7 \/ m = 8 \/
  m = 9 \/ m = 10 \/ m = 11 \/ m = 12.
Proof. lia. Qed.

Lemma day_cases d : 1 <= d <= 31 ->
  d = 1 \/ d = 2 \/ d = 3 \/ d = 4 \/ d = 5 \/ d = 6 \/ d = 7 \/ d = 8 \/
  d = 9 \/ d = 10 \/ d = 11 \/ d = 12 \/ d = 13 \/ d = 14 \/ d = 15 \/
  d = 16 \/ d = 17 \/ d = 18 \/ d = 19 \/ d = 20 \/ d = 21 \/ d = 22 \/
  d = 23 \/ d = 24 \/ d = 25 \/ d = 26 \/ d = 27 \/ d = 28 \/ d = 29 \/
  d = 30 \/ d = 31.
Proof. lia. Qed.

Lemma month_day_groups (Y : string) m d : 1 <= m <= 12 -> 1 <= d <= 31 ->
  first_alt month_alts
    (fun mo r3 =>
       match dash r3 with
       | Some r4 => first_alt day_alts (fun da r5 => Some (Y, mo, da, r5)) r4
       | None => None
       end) (pad2 m ++ "-" ++ pad2 d)
  = Some (Y, pad2 m, pad2 d, "").
Proof.
  intros Hm Hd. apply month_cases in Hm. apply day_cases in Hd.
  enumerate Hm; enumerate Hd; reflexivity.
Qed.

Lemma valid_date_bounds y m d : valid_date y m d = true ->
  1 <= y <= 9999 /\ 1 <= m <= 12 /\ 1 <= d <= 31.
Proof.
  unfold valid_date. rewrite !andb_true_iff, !Z.leb_le.
  assert (days_in_month y m <= 31).
  { unfold days_in_month.
    destruct (m =? 2); [destruct (is_leap y)|destruct (_ || _)];
      cbn beta iota; lia. }
  lia.
Qed.

Lemma year_digits y : 1000 <= y <= 9999 ->
  0 <= y / 1000 <= 9 /\ 0 <= y / 100 mod 10 <= 9 /\
  0 <= y mod 100 / 10 <= 9 /\ 0 <= y mod 100 mod 10 <= 9 /\
  1000 * (y / 1000) + 100 * (y / 100 mod 10) + 10 * (y mod 100 / 10)
  + y mod 100 mod 10 = y.
Proof.
  intros Hy.
  pose proof (Z.div_mod y 1000). pose proof (Z.mod_pos_bound y 1000).
  pose proof (Z.div_mod y 100). pose proof (Z.mod_pos_bound y 100).
  pose proof (Z.div_mod (y / 100) 10). pose proof (Z.mod_pos_bound (y / 100) 10).
  pose proof (Z.div_mod (y mod 100) 10).
  pose proof (Z.mod_pos_bound (y mod 100) 10).
  pose proof (Z.div_mod (y / 100) 10).
  assert (y / 100 / 10 = y / 1000)
    by (rewrite Z.div_div by lia; reflexivity).
  lia.
Qed.

Section DueDates.
Context `{PyRuntime}.

Lemma strptime_iso_date y m d :
  1000 <= y -> valid_date y m d = true ->
  strptime_ymd (iso_date y m d) = inr (y, m, d).
Proof.
  intros Hy Hv. destruct (valid_date_bounds _ _ _ Hv) as (Hy' & Hm & Hd).
  destruct (year_digits y) as (Ha & Hb & Hc & He & Hsum); [lia|].
  destruct (digit_char_digit _ Ha) as (Ha1 & Ha2 & _).
  destruct (digit_char_digit _ Hb) as (Hb1 & Hb2 & _).
  destruct (digit_char_digit _ Hc) as (Hc1 & Hc2 & _).
  destruct (digit_char_digit _ He) as (He1 & He2 & _).
  unfold strptime_ymd, match_ymd, iso_date.
  unfold pad2 at 1. cbn [append seq4]. rewrite Ha1, Hb1, Hc1, He1.
  cbn [andb dash Ascii.eqb Bool.eqb].
  change (String (digit_char (m / 10)) (String (digit_char (m mod 10))
            (String "-" (pad2 d))))
    with (pad2 m ++ "-" ++ pad2 d).
  rewrite (month_day_groups _ m d Hm Hd). cbn [String.eqb].
  rewrite (py_int_pad2 m) by lia. rewrite (py_int_pad2 d) by lia.
  assert (Hyear : py_int
            (String (digit_char (y / 1000))
               (String (digit_char (y / 100 mod 10))
                  (String (digit_char (y mod 100 / 10))
                     (String (digit_char (y mod 100 mod 10)) "")))) = y).
  { unfold py_int. cbn [int_acc]. rewrite Ha1, Hb1, Hc1, He1.
    rewrite Ha2, Hb2, Hc2, He2. lia. }
  rewrite Hyear, Hv. reflexivity.
Qed.

Lemma strftime_due_iso y m d :
  1000 <= y -> strftime_due (y, m, d) = iso_date y m d ++ "T00:00:00.000Z".
Proof.
  intros Hy. unfold strftime_due, strftime_Y, iso_date.
  apply Z.leb_le in Hy. rewrite Hy. unfold pad2. reflexivity.
Qed.

Lemma iso_date_no_time y m d :
  1000 <= y -> valid_date y m d = true -> has_char "T" (iso_date y m d) = false.
Proof.
  intros Hy Hv. destruct (valid_date_bounds _ _ _ Hv) as (Hy' & Hm & Hd).
  destruct (year_digits y) as (Ha & Hb & Hc & He & _); [lia|].
  assert (Hd2 : forall n, 0 <= n <= 99 ->
                  0 <= n / 10 <= 9 /\ 0 <= n mod 10 <= 9).
  { intros n Hn. pose proof (Z.mod_pos_bound n 10).
    split; [|lia].
    split; [apply Z.div_pos; lia|apply Z.lt_succ_r, Z.div_lt_upper_bound; lia]. }
  destruct (Hd2 m) as (Hm1 & Hm2); [lia|].
  destruct (Hd2 d) as (Hd1 & Hd3); [lia|].
  unfold iso_date, pad2. cbn [append has_char].
  rewrite (proj2 (proj2 (digit_char_digit _ Ha))),
    (proj2 (proj2 (digit_char_digit _ Hb))),
    (proj2 (proj2 (digit_char_digit _ Hc))),
    (proj2 (proj2 (digit_char_digit _ He))),
    (proj2 (proj2 (digit_char_digit _ Hm1))),
    (proj2 (proj2 (digit_char_digit _ Hm2))),
    (proj2 (proj2 (digit_char_digit _ Hd1))),
    (proj2 (proj2 (digit_char_digit _ Hd3))).
  reflexivity.
Qed.

(** A calendar date written [YYYY-MM-DD] is accepted and sent on as
    midnight UTC of that day, for every day of the calendar from the year
    1000 on. *)
Theorem format_due_accepts_calendar_dates (y m d : Z)
  (Hyear : 1000 <= y) (Hvalid : valid_date y m d = true) :
  format_due (iso_date y m d) = inr (iso_date y m d ++ "T00:00:00.000Z").
Proof.
  unfold format_due. rewrite (iso_date_no_time _ _ _ Hyear Hvalid).
  rewrite (strptime_iso_date _ _ _ Hyear Hvalid). cbn [obind].
  now rewrite strftime_due_iso.
Qed.

Lemma strftime_due_has_time date : has_char "T" (strftime_due date) = true.
Proof.
  destruct date as [[y m] d]. unfold strftime_due.
  rewrite !has_char_append. cbn [has_char Ascii.eqb Bool.eqb].
  rewrite !orb_true_r. reflexivity.
Qed.

(** A due date that [create_task] has formatted is left as it is when it
    is submitted again. *)
Theorem format_due_idempotent (due formatted : string)
  (Hdue : format_due due = inr formatted) :
  format_due formatted = inr formatted.
Proof.
  unfold format_due in Hdue.
  destruct (has_char "T" due) eqn:HT.
  - injection Hdue as <-. unfold format_due. now rewrite HT.
  - destruct (strptime_ymd due) as [e|date]; [discriminate|].
    injection Hdue as <-. unfold format_due.
    now rewrite strftime_due_has_time.
Qed.

(** A due date without time part is sent on only when it names a day of
    the calendar: what is sent is that day at midnight UTC. *)
Theorem format_due_sends_calendar_days (due formatted : string)
  (Hdate : has_char "T" due = false)
  (Hdue : format_due due = inr formatted) :
  exists y m d,
    valid_date y m d = true /\
    strptime_ymd due = inr (y, m, d) /\
    formatted = strftime_due (y, m, d) /\
    (1000 <= y -> formatted = iso_date y m d ++ "T00:00:00.000Z").
Proof.
  unfold format_due in Hdue. rewrite Hdate in Hdue.
  destruct (strptime_ymd due) as [e|[[y m] d]] eqn:Hparse; [discriminate|].
  injection Hdue as <-. exists y, m, d.
  split; [exact (strptime_date_valid _ _ _ _ Hparse)|].
  split; [reflexivity|]. split; [reflexivity|].
  intros Hy. now apply strftime_due_iso.
Qed.

End DueDates.

(** ** The credential provider *)

Section ProviderProperties.
Import Provider.
Variable env : environment.

(** Loading touches the environment variable and the token file only. *)
Lemma load_credentials_log :
  Forall (fun e => is_load e = true) (fst (load_credentials env)).
Proof.
  unfold load_credentials.
  destruct (token_env env) as [text|];
    [destruct (negb (text =? "")%string);
     [destruct (from_authorized_user_info env text)|]|];
    try destruct (token_file_exists env); cbn; repeat constructor.
Qed.

Lemma load_credentials_reads_file :
  In ReadTokenFile (fst (load_credentials env)) <->
  no_env_token env /\ token_file_exists env = true.
Proof.
  unfold load_credentials, no_env_token.
  destruct (token_env env) as [text|].
  - destruct (String.eqb_spec text "") as [->|Hne]; cbn [negb].
    + destruct (token_file_exists env); cbn; intuition discriminate.
    + destruct (from_authorized_user_info env text) as [e|c];
        destruct (token_file_exists env); cbn; intuition discriminate.
  - destruct (token_file_exists env); cbn; intuition discriminate.
Qed.


(** The provider goes one of the seven ways. *)
Lemma provider_run : outcome_of env (provide env).
Proof.
  unfold provide.
  destruct (load_credentials env) as [log [e|[c|]]] eqn:Hload.
  - now apply load_raised.
  - destruct (valid c) eqn:Hv.
    + now apply loaded_valid.
    + unfold renew.
      destruct (expired c) eqn:He; destruct (has_refresh_token c) eqn:Hr;
        cbn [andb].
      * destruct (refresh env c) as [e|c'] eqn:Hf.
        -- now apply refresh_failed with e.
        -- unfold save_and_build, build_service. rewrite <- !app_assoc. cbn [app].
           now apply refreshed.
      * unfold consent.
        destruct (credentials_file_exists env) eqn:Hc; cbn [negb].
        -- destruct (run_local_server env) as [e|c'] eqn:Hs.
           ++ apply consent_failed with (Some c) e; auto.
              split; [auto|]. now rewrite He, Hr.
           ++ unfold save_and_build, build_service. rewrite <- !app_assoc. cbn [app].
              apply consented with (Some c); auto.
              split; [auto|]. now rewrite He, Hr.
        -- apply no_client_secrets with (Some c); auto.
           split; [auto|]. now rewrite He, Hr.
      * unfold consent.
        destruct (credentials_file_exists env) eqn:Hc; cbn [negb].
        -- destruct (run_local_server env) as [e|c'] eqn:Hs.
           ++ apply consent_failed with (Some c) e; auto.
              split; [auto|]. now rewrite He, Hr.
           ++ unfold save_and_build, build_service. rewrite <- !app_assoc. cbn [app].
              apply consented with (Some c); auto.
              split; [auto|]. now rewrite He, Hr.
        -- apply no_client_secrets with (Some c); auto.
           split; [auto|]. now rewrite He, Hr.
      * unfold consent.
        destruct (credentials_file_exists env) eqn:Hc; cbn [negb].
        -- destruct (run_local_server env) as [e|c'] eqn:Hs.
           ++ apply consent_failed with (Some c) e; auto.
              split; [auto|]. now rewrite He, Hr.
           ++ unfold save_and_build, build_service. rewrite <- !app_assoc. cbn [app].
              apply consented with (Some c); auto.
              split; [auto|]. now rewrite He, Hr.
        -- apply no_client_secrets with (Some c); auto.
           split; [auto|]. now rewrite He, Hr.
  - unfold renew, consent.
    destruct (credentials_file_exists env) eqn:Hc; cbn [negb].
    + destruct (run_local_server env) as [e|c'] eqn:Hs.
      * apply consent_failed with None e; auto. exact I.
      * unfold save_and_build, build_service. rewrite <- !app_assoc. cbn [app].
        apply consented with None; auto. exact I.
    + apply no_client_secrets with None; auto. exact I.
Qed.

Lemma not_loaded log x :
  Forall (fun e => is_load e = true) log -> is_load x = false -> ~ In x log.
Proof.
  intros Hl Hx Hin. rewrite Forall_forall in Hl. specialize (Hl _ Hin).
  congruence.
Qed.

Lemma load_log_quiet log :
  Forall (fun e => is_load e = true) log ->
  Forall (fun e => is_save e = false /\ is_build e = false) log.
Proof.
  intros Hl. eapply Forall_impl; [|exact Hl].
  intros [] He; try discriminate He; split; reflexivity.
Qed.

(** [run] names the call and the log of its load, and walks the seven
    ways; [tail_of H] finds an effect that is not a load in the tail. *)
Ltac walk Hlog :=
  pose proof provider_run as Hrun;
  pose proof load_credentials_log as Hlog;
  inversion Hrun as [log e0 Hload Hout | log c0 Hload Hv Hout
                    | log c0 e0 Hload Hv He Hr Hf Hout
                    | log c0 c' Hload Hv He Hr Hf Hout
                    | log creds Hload Hn Hc Hout
                    | log creds e0 Hload Hn Hc Hs Hout
                    | log creds c' Hload Hn Hc Hs Hout];
  rewrite Hload in Hlog; try rewrite <- Hout in *; cbn [fst snd] in *.

Ltac tail_of H Hlog :=
  try (apply in_app_or in H; destruct H as [H|H];
       [exfalso; revert H; apply (not_loaded _ _ Hlog); reflexivity|]);
  try (exfalso; revert H; apply (not_loaded _ _ Hlog); reflexivity);
  cbn [In] in H;
  repeat match type of H with
    | _ \/ _ => destruct H as [H|H]
    | False => destruct H
    end;
  try discriminate H.

(** What follows the logging lines. *)


Lemma provide_reads_token_file :
  In ReadTokenFile (fst (provide env)) <->
  no_env_token env /\ token_file_exists env = true.
Proof.
  rewrite <- load_credentials_reads_file. split.
  - walk Hlog; rewrite Hload; cbn [fst]; intros Hin; auto;
      apply in_app_or in Hin; destruct Hin as [Hin|Hin]; auto;
      cbn [In] in Hin; intuition discriminate.
  - walk Hlog; rewrite Hload; cbn [fst]; intros Hin; auto;
      apply in_or_app; left; exact Hin.
Qed.

Lemma provide_saved_token (c : credentials) (saved : bool)
  (Hsave : In (SaveToken c saved) (fst (provide env))) :
  (exists log,
     fst (provide env)
     = (log ++ [SaveToken c saved; Build c])%list /\
     Forall (fun e => is_save e = false /\ is_build e = false) log) /\
  saved = negb (is_raise (write_token env c)) /\
  (run_local_server env = inr c \/ exists old, refresh env old = inr c) /\
  snd (provide env) = built env c.
Proof.
  revert Hsave. walk Hlog; intros Hin; tail_of Hin Hlog;
    injection Hin as <- <-.
  - split; [exists (log ++ [Refresh c0])%list; split|].
    + rewrite <- app_assoc. reflexivity.
    + apply Forall_app; split; [now apply load_log_quiet|repeat constructor].
    + split; [reflexivity|]. split; [right; eauto|reflexivity].
  - split; [exists (log ++ [RunFlow])%list; split|].
    + rewrite <- app_assoc. reflexivity.
    + apply Forall_app; split; [now apply load_log_quiet|repeat constructor].
    + split; [reflexivity|]. split; [left; assumption|reflexivity].
Qed.

Lemma provide_service (svc : service)
  (Hsvc : snd (provide env) = inr (Some svc)) :
  exists log c,
    fst (provide env) = (log ++ [Build c])%list /\
    build env c = inr svc /\
    (valid c = true \/ exists saved, In (SaveToken c saved) log).
Proof.
  assert (Hb : forall c, built env c = inr (Some svc) -> build env c = inr svc).
  { intros c. unfold built. destruct (build env c); congruence. }
  revert Hsvc. walk Hlog; intros Hsvc; try discriminate Hsvc.
  - exists log, c0. auto.
  - exists (log ++ [Refresh c0;
                   SaveToken c' (negb (is_raise (write_token env c')))])%list,
      c'.
    split; [rewrite <- app_assoc; reflexivity|]. split; [auto|].
    right. eexists. apply in_or_app. right. right. left. reflexivity.
  - exists (log ++ [RunFlow;
                   SaveToken c' (negb (is_raise (write_token env c')))])%list,
      c'.
    split; [rewrite <- app_assoc; reflexivity|]. split; [auto|].
    right. eexists. apply in_or_app. right. right. left. reflexivity.
Qed.

Lemma provide_refresh (c : credentials)
  (Hrefresh : In (Refresh c) (fst (provide env))) :
  valid c = false /\ expired c = true /\ has_refresh_token c = true /\
  ~ In RunFlow (fst (provide env)) /\
  (is_raise (refresh env c) = true ->
   snd (provide env) = inr None /\
   Forall (fun e => is_save e = false /\ is_build e = false)
     (fst (provide env))).
Proof.
  revert Hrefresh. walk Hlog; intros Hin; tail_of Hin Hlog;
    injection Hin as <-; repeat (split; [assumption|]).
  - split; [intros Hx; tail_of Hx Hlog|]. intros _. split; [reflexivity|].
    apply Forall_app; split; [now apply load_log_quiet|repeat constructor].
  - split; [intros Hx; tail_of Hx Hlog|]. rewrite Hf. discriminate.
Qed.

Lemma provide_consent
  (Hflow : In RunFlow (fst (provide env))) :
  credentials_file_exists env = true /\
  (forall c, ~ In (Refresh c) (fst (provide env))) /\
  (forall c, snd (load_credentials env) = inr (Some c) ->
     valid c = false /\ expired c && has_refresh_token c = false) /\
  (is_raise (run_local_server env) = true ->
   snd (provide env) = inr None /\
   Forall (fun e => is_save e = false /\ is_build e = false)
     (fst (provide env))).
Proof.
  revert Hflow. walk Hlog; intros Hin; tail_of Hin Hlog;
    (split; [assumption|]);
    (split; [intros c Hx; tail_of Hx Hlog|]);
    (split; [intros c Hc'; rewrite Hload in Hc'; cbn [snd] in Hc';
             injection Hc' as ->; exact Hn|]).
  - intros _. split; [reflexivity|].
    apply Forall_app; split; [now apply load_log_quiet|repeat constructor].
  - rewrite Hs. discriminate.
Qed.

(** The provider stops at its logging lines, or goes on. *)
Lemma provider_cases :
  (exists e, getcwd env = inl e /\ get_google_tasks_service env = ([], inl e))
  \/ (is_raise (getcwd env) = false /\
      get_google_tasks_service env = provide env).
Proof.
  unfold get_google_tasks_service.
  destruct (getcwd env) as [e|cwd]; [left; eauto|right; auto].
Qed.

Ltac started :=
  destruct provider_cases as [(e0 & Hcwd & Hstop)|(Hcwd & Hgo)];
  [rewrite Hstop in *; cbn [fst snd In] in *|rewrite Hgo in *].


(** The token file is read exactly when the logging lines are passed,
    the file exists and the environment variable gave no usable token. *)
Theorem token_file_read_only_without_env_token :
  In ReadTokenFile (fst (get_google_tasks_service env)) <->
  is_raise (getcwd env) = false /\ no_env_token env /\
  token_file_exists env = true.
Proof.
  started.
  - rewrite Hcwd. split; [intros []|intros (Hf & _); discriminate Hf].
  - rewrite provide_reads_token_file. split.
    + intros Hread. split; [exact Hcwd|exact Hread].
    + intros (_ & Hread). exact Hread.
Qed.

(** A token is saved only as the last step before the build, at most
    once, and only when it comes from the consent flow or from a refresh;
    whether the save went through does not change the result. *)
Theorem saved_token_is_built (c : credentials) (saved : bool)
  (Hsave : In (SaveToken c saved) (fst (get_google_tasks_service env))) :
  (exists log,
     fst (get_google_tasks_service env)
     = (log ++ [SaveToken c saved; Build c])%list /\
     Forall (fun e => is_save e = false /\ is_build e = false) log) /\
  saved = negb (is_raise (write_token env c)) /\
  (run_local_server env = inr c \/ exists old, refresh env old = inr c) /\
  snd (get_google_tasks_service env) = built env c.
Proof.
  started; [destruct Hsave|].
  exact (provide_saved_token c saved Hsave).
Qed.

(** A service the provider returns is what the build gave, as the last
    step, for credentials that were valid when loaded or have just been
    saved. *)
Theorem service_comes_from_build (svc : service)
  (Hsvc : snd (get_google_tasks_service env) = inr (Some svc)) :
  exists log c,
    fst (get_google_tasks_service env) = (log ++ [Build c])%list /\
    build env c = inr svc /\
    (valid c = true \/ exists saved, In (SaveToken c saved) log).
Proof.
  started; [discriminate Hsvc|].
  exact (provide_service svc Hsvc).
Qed.

(** A refresh is tried only on credentials that are not valid, expired
    and hold a refresh token; the consent flow is then never run, and
    when the refresh raises the provider returns [None] without saving or
    building anything. *)
Theorem failed_refresh_is_final (c : credentials)
  (Hrefresh : In (Refresh c) (fst (get_google_tasks_service env))) :
  valid c = false /\ expired c = true /\ has_refresh_token c = true /\
  ~ In RunFlow (fst (get_google_tasks_service env)) /\
  (is_raise (refresh env c) = true ->
   snd (get_google_tasks_service env) = inr None /\
   Forall (fun e => is_save e = false /\ is_build e = false)
     (fst (get_google_tasks_service env))).
Proof.
  started; [destruct Hrefresh|].
  exact (provide_refresh c Hrefresh).
Qed.

(** The consent flow runs only when the client secrets file exists, no
    refresh was tried, and the loaded credentials, if any, are neither
    valid nor refreshable; when the flow raises the provider returns
    [None] without saving or building anything. *)
Theorem consent_needs_client_secrets
  (Hflow : In RunFlow (fst (get_google_tasks_service env))) :
  credentials_file_exists env = true /\
  (forall c, ~ In (Refresh c) (fst (get_google_tasks_service env))) /\
  (forall c, snd (load_credentials env) = inr (Some c) ->
     valid c = false /\ expired c && has_refresh_token c = false) /\
  (is_raise (run_local_server env) = true ->
   snd (get_google_tasks_service env) = inr None /\
   Forall (fun e => is_save e = false /\ is_build e = false)
     (fst (get_google_tasks_service env))).
Proof.
  started; [destruct Hflow|].
  exact (provide_consent Hflow).
Qed.

End ProviderProperties.

(** ** Instances of the further properties

    Each theorem above that has hypotheses is applied here to a sample
    service or environment that satisfies them. *)


Lemma token_file_read_only_without_env_token_witness :
  In Provider.ReadTokenFile
    (fst (Provider.get_google_tasks_service Provider.sample_environment)).
Proof.
  apply (token_file_read_only_without_env_token Provider.sample_environment).
  split; [reflexivity|]. split; [exact I|reflexivity].
Defined.

Lemma saved_token_is_built_witness :
  In (Provider.SaveToken Provider.fresh false)
    (fst (Provider.get_google_tasks_service Provider.sample_environment)) /\
  snd (Provider.get_google_tasks_service Provider.sample_environment)
  = Provider.built Provider.sample_environment Provider.fresh.
Proof.
  assert (Hsave : In (Provider.SaveToken Provider.fresh false)
            (fst (Provider.get_google_tasks_service
                    Provider.sample_environment)))
    by (right; right; left; reflexivity).
  split; [exact Hsave|].
  apply (saved_token_is_built Provider.sample_environment Provider.fresh
           false Hsave).
Defined.

Lemma service_comes_from_build_witness :
  snd (Provider.get_google_tasks_service Provider.sample_environment)
  = inr (Some sample_service) /\
  exists log c,
    fst (Provider.get_google_tasks_service Provider.sample_environment)
    = (log ++ [Provider.Build c])%list.
Proof.
  split; [reflexivity|].
  destruct (service_comes_from_build Provider.sample_environment
              sample_service eq_refl) as (log & c & Hlog & _).
  exists log, c. exact Hlog.
Defined.

Lemma failed_refresh_is_final_witness :
  In (Provider.Refresh Provider.stale)
    (fst (Provider.get_google_tasks_service Provider.sample_environment)) /\
  ~ In Provider.RunFlow
      (fst (Provider.get_google_tasks_service Provider.sample_environment)).
Proof.
  assert (Hrefresh : In (Provider.Refresh Provider.stale)
            (fst (Provider.get_google_tasks_service
                    Provider.sample_environment)))
    by (right; left; reflexivity).
  split; [exact Hrefresh|].
  apply (failed_refresh_is_final Provider.sample_environment Provider.stale
           Hrefresh).
Defined.

Lemma consent_needs_client_secrets_witness :
  In Provider.RunFlow
    (fst (Provider.get_google_tasks_service Provider.consenting_environment))
  /\ forall c,
       ~ In (Provider.Refresh c)
           (fst (Provider.get_google_tasks_service
                   Provider.consenting_environment)).
Proof.
  assert (Hflow : In Provider.RunFlow
            (fst (Provider.get_google_tasks_service
                    Provider.consenting_environment)))
    by (left; reflexivity).
  split; [exact Hflow|].
  apply (consent_needs_client_secrets Provider.consenting_environment Hflow).
Defined.

Lemma no_call_after_failure_witness :
  exists before,
    fst (run (@handle sample_runtime (inr (Some failing_service))
                (DeleteTask "T1" "@default")))
    = (before ++ [(TasksDelete (JStr "L1") "T1",
                   inl (Exn HttpError "404"))])%list /\
    Forall (fun ev => is_raise (snd ev) = false) before.
Proof.
  apply (@no_call_after_failure sample_runtime (inr (Some failing_service))
           (DeleteTask "T1" "@default")).
  right; left; reflexivity.
Defined.

Lemma no_service_no_call_witness :
  fst (run (@handle sample_runtime (inr None) (GetTask "T1" "@default")))
  = [].
Proof.
  apply (@no_service_no_call sample_runtime (inr None)
           (GetTask "T1" "@default")).
  intros svc. discriminate.
Defined.

Lemma enumeration_comes_first_witness :
  fst (run (@handle sample_runtime (inr (Some sample_service))
              (MoveTask "T1" "L2" None (Some "T0")))) = [] \/
  exists svc rest,
    @inr exn _ (Some sample_service) = inr (Some svc) /\
    fst (run (@handle sample_runtime (inr (Some sample_service))
                (MoveTask "T1" "L2" None (Some "T0"))))
    = (TasklistsList, svc [] TasklistsList) :: rest /\
    Forall (fun ev => fst ev <> TasklistsList) rest.
Proof.
  apply (@enumeration_comes_first sample_runtime (inr (Some sample_service))
           (MoveTask "T1" "L2" None (Some "T0")) "L2" eq_refl).
Defined.

Lemma read_only_handlers_never_write_witness :
  Forall (fun ev => writes (fst ev) = false)
    (fst (run (@handle sample_runtime (inr (Some sample_service))
                 (SearchTasks "@default" (Some "milk") true false None None
                    100)))).
Proof.
  apply (@read_only_handlers_never_write sample_runtime
           (inr (Some sample_service))
           (SearchTasks "@default" (Some "milk") true false None None 100)
           eq_refl).
Defined.

Lemma sample_list_present :
  resolves "L2" sample_ids (Resolved (JStr "L2")).
Proof.
  apply resolves_present; [discriminate|]. right; left; reflexivity.
Qed.

Lemma handler_calls_follow_plan_witness :
  fst (run (@handle sample_runtime (inr (Some sample_service))
              (CompleteTask "T1" "L2" true)))
  = issue sample_service [(TasklistsList, inr sample_lists)]
      (@plan sample_runtime (CompleteTask "T1" "L2" true) (JStr "L2")).
Proof.
  apply (proj1 (@handler_calls_follow_plan sample_runtime
                  (CompleteTask "T1" "L2" true) sample_service)
           "L2" sample_lists sample_ids (JStr "L2") eq_refl eq_refl eq_refl
           sample_list_present).
Defined.

Lemma update_task_patches_then_moves_witness :
  run (@update_task sample_runtime (inr (Some sample_service)) "T1"
         "@default" (Some "Buy oat milk") None None None (Some "P1") None)
  = ([(TasklistsList, inr sample_lists);
      (TasksGet (JStr "L1") "T1", inr sample_task);
      (TasksPatch (JStr "L1") "T1" [("title", JStr "Buy oat milk")],
       inr sample_task);
      (TasksMove (JStr "L1") "T1" (Some "P1") None, inr sample_task)],
     inr [("tasklist_id", JStr "L1"); ("task", sample_task)]).
Proof.
  destruct (@update_task_patches_then_moves sample_runtime sample_service
              "@default" sample_lists sample_ids (JStr "L1") eq_refl eq_refl
              sample_alias_resolves "T1" (Some "Buy oat milk") None None None
              (Some "P1") None sample_task sample_task eq_refl eq_refl
              eq_refl) as (Htr & Hret & _).
  rewrite (surjective_pairing (run _)).
  rewrite Htr, (Hret sample_task eq_refl). reflexivity.
Defined.

Lemma update_task_patches_given_fields_witness :
  exists body answer rest,
    fst (run (@update_task sample_runtime (inr (Some sample_service)) "T1"
                "@default" None (Some "two litres") None None None None))
    = (TasklistsList, inr sample_lists)
        :: (TasksGet (JStr "L1") "T1", inr sample_task)
        :: (TasksPatch (JStr "L1") "T1" body, answer) :: rest /\
    lookup "title" body = None /\
    lookup "notes" body = Some (JStr "two litres").
Proof.
  destruct (@update_task_patches_given_fields sample_runtime sample_service
              "@default" sample_lists sample_ids (JStr "L1") eq_refl eq_refl
              sample_alias_resolves "T1" None (Some "two litres") None None
              None None sample_task eq_refl)
    as (body & answer & rest & Htr & Ht & Hn & _).
  exists body, answer, rest. split; [exact Htr|]. split; [exact Ht|exact Hn].
Defined.

Lemma get_tasks_projects_items_witness :
  run (@get_tasks sample_runtime (inr (Some sample_service)) "@default" 100
         true false)
  = ([(TasklistsList, inr sample_lists);
      (TasksList (JStr "L1") 100 true false,
       inr (JDict [("items", JList [buy_milk; pay_bills; undated])]))],
     inr [("tasklist_id", JStr "L1");
          ("max_results", JNum 100);
          ("show_completed", JBool true);
          ("show_deleted", JBool false);
          ("total_tasks", JNum 3);
          ("tasks",
           JList (map (fun t => JDict (project task_fields t))
                    [[("title", JStr "Buy milk"); ("due", JStr "2024-01-01")];
                     [("title", JStr "Pay bills"); ("due", JStr "2024-06-01")];
                     [("title", JStr "Call home");
                      ("notes", JStr "buy a card")]]));
          ("available_lists", JList sample_ids)]).
Proof.
  apply (@get_tasks_projects_items sample_runtime sample_service "@default"
           sample_lists sample_ids (JStr "L1") eq_refl eq_refl
           sample_alias_resolves 100 true false
           (JDict [("items", JList [buy_milk; pay_bills; undated])])
           (JList [buy_milk; pay_bills; undated])
           [[("title", JStr "Buy milk"); ("due", JStr "2024-01-01")];
            [("title", JStr "Pay bills"); ("due", JStr "2024-06-01")];
            [("title", JStr "Call home"); ("notes", JStr "buy a card")]]
           eq_refl eq_refl eq_refl).
Defined.

Lemma get_tasks_failure_names_resolved_list_witness :
  exists d,
    snd (run (@get_tasks sample_runtime (inr (Some failing_service))
                "@default" 100 true false)) = inr d /\
    lookup "tasklist_id" d = Some (JStr "L1").
Proof.
  destruct (@get_tasks_failure_names_resolved_list sample_runtime
              failing_service "@default" sample_lists sample_ids (JStr "L1")
              eq_refl eq_refl sample_alias_resolves 100 true false
              (Exn HttpError "404") eq_refl) as (d & Hrun & _ & Hid & _).
  exists d. rewrite Hrun. split; [reflexivity|exact Hid].
Defined.

Lemma get_tasks_malformed_item_witness :
  exists d,
    snd (run (@get_tasks sample_runtime (inr (Some odd_service)) "@default"
                100 true false)) = inr d /\
    is_error_envelope d.
Proof.
  destruct (@get_tasks_malformed_item sample_runtime odd_service "@default"
              sample_lists sample_ids (JStr "L1") eq_refl eq_refl
              sample_alias_resolves 100 true false odd_listing
              (JList [buy_milk; JNum 7]) [buy_milk; JNum 7] (JNum 7)
              eq_refl eq_refl eq_refl)
    as (d & Hrun & Herr & _).
  - right; left; reflexivity.
  - discriminate.
  - exists d. rewrite Hrun. split; [reflexivity|exact Herr].
Defined.

Lemma search_tasks_keeps_matches_witness :
  run (@search_tasks sample_runtime (inr (Some sample_service)) "@default"
         (Some "BUY") true false None None 100)
  = ([(TasklistsList, inr sample_lists);
      (TasksList (JStr "L1") 100 true false,
       inr (JDict [("items", JList [buy_milk; pay_bills; undated])]))],
     inr [("tasklist_id", JStr "L1"); ("total", JNum 2);
          ("tasks", JList [buy_milk; undated])]).
Proof.
  apply (@search_tasks_keeps_matches sample_runtime sample_service "@default"
           sample_lists sample_ids (JStr "L1") eq_refl eq_refl
           sample_alias_resolves (Some "BUY") true false None None 100
           (JDict [("items", JList [buy_milk; pay_bills; undated])])
           (JList [buy_milk; pay_bills; undated])
           [buy_milk; pay_bills; undated] eq_refl eq_refl eq_refl).
  intros t [<-|[<-|[<-|[]]]]; reflexivity.
Defined.

Lemma search_tasks_one_bad_item_witness :
  exists d,
    snd (run (@search_tasks sample_runtime (inr (Some odd_service))
                "@default" (Some "milk") true false None None 100))
    = inr d /\
    is_error_envelope d /\ lookup "tasks" d = None.
Proof.
  destruct (@search_tasks_one_bad_item sample_runtime odd_service "@default"
              sample_lists sample_ids (JStr "L1") eq_refl eq_refl
              sample_alias_resolves (Some "milk") true false None None 100
              odd_listing (JList [buy_milk; JNum 7]) [buy_milk; JNum 7]
              (JNum 7) eq_refl eq_refl eq_refl)
    as (d & Hrun & Herr & Hnone & _).
  - right; left; reflexivity.
  - reflexivity.
  - exists d. rewrite Hrun. split; [reflexivity|]. split; assumption.
Defined.

Lemma search_query_ignores_case_witness :
  @_match sample_runtime (Some "MILK") None None buy_milk
  = @_match sample_runtime (Some "milk") None None buy_milk.
Proof.
  apply (@search_query_ignores_case sample_runtime "MILK" "milk" None None
           buy_milk eq_refl).
Defined.

Lemma search_without_criteria_returns_all_witness :
  run (@search_tasks sample_runtime (inr (Some odd_service)) "@default"
         (Some "") true false None None 100)
  = ([(TasklistsList, inr sample_lists);
      (TasksList (JStr "L1") 100 true false, inr odd_listing)],
     inr [("tasklist_id", JStr "L1"); ("total", JNum 2);
          ("tasks", JList [buy_milk; JNum 7])]).
Proof.
  apply (@search_without_criteria_returns_all sample_runtime odd_service
           "@default" sample_lists sample_ids (JStr "L1") eq_refl eq_refl
           sample_alias_resolves (Some "") true false None None 100
           odd_listing (JList [buy_milk; JNum 7]) [buy_milk; JNum 7]
           (or_intror eq_refl) (or_introl eq_refl) (or_introl eq_refl)
           eq_refl eq_refl eq_refl).
Defined.

Lemma list_tasklists_projects_lists_witness :
  run (@list_tasklists sample_runtime (inr (Some malformed_service)))
  = ([(TasklistsList, inr malformed_lists)],
     inr [("total_lists", JNum 2);
          ("tasklists",
           JList [JDict [("id", JStr "L1"); ("title", JStr "");
                         ("updated", JNull); ("self_link", JNull)];
                  JDict [("id", JNull); ("title", JStr "Inbox");
                         ("updated", JNull); ("self_link", JNull)]])]).
Proof.
  apply (@list_tasklists_projects_lists sample_runtime malformed_service
           malformed_lists
           (JList [JDict [("id", JStr "L1")];
                   JDict [("title", JStr "Inbox")]])
           [[("id", JStr "L1")]; [("title", JStr "Inbox")]]
           eq_refl eq_refl eq_refl).
Defined.

Lemma list_without_id_blocks_handlers_witness :
  exists d,
    run (@handle sample_runtime (inr (Some malformed_service))
           (GetTask "T1" "L1"))
    = ([(TasklistsList, inr malformed_lists)], inr d) /\
    is_error_envelope d.
Proof.
  apply (@list_without_id_blocks_handlers sample_runtime malformed_service
           (GetTask "T1" "L1") "L1" malformed_lists
           (JList [JDict [("id", JStr "L1")];
                   JDict [("title", JStr "Inbox")]])
           [JDict [("id", JStr "L1")]; JDict [("title", JStr "Inbox")]]
           (JDict [("title", JStr "Inbox")]) eq_refl eq_refl eq_refl eq_refl).
  - right; left; reflexivity.
  - reflexivity.
Defined.

Lemma format_due_accepts_calendar_dates_witness :
  @format_due sample_runtime "2024-02-29" = inr "2024-02-29T00:00:00.000Z".
Proof.
  apply (@format_due_accepts_calendar_dates sample_runtime 2024 2 29).
  - lia.
  - reflexivity.
Defined.

Lemma format_due_idempotent_witness :
  @format_due sample_runtime "2024-2-9" = inr "2024-02-09T00:00:00.000Z" /\
  @format_due sample_runtime "2024-02-09T00:00:00.000Z"
  = inr "2024-02-09T00:00:00.000Z".
Proof.
  split; [reflexivity|].
  apply (@format_due_idempotent sample_runtime "2024-2-9"
           "2024-02-09T00:00:00.000Z" eq_refl).
Defined.

Lemma format_due_sends_calendar_days_witness :
  exists y m d,
    valid_date y m d = true /\
    @strptime_ymd sample_runtime "2024-2-9" = inr (y, m, d).
Proof.
  destruct (@format_due_sends_calendar_days sample_runtime "2024-2-9"
              "2024-02-09T00:00:00.000Z" eq_refl eq_refl)
    as (y & m & d & Hv & Hp & _).
  exists y, m, d. split; [exact Hv|exact Hp].
Defined.

Lemma get_and_move_return_the_answer_witness :
  run (@get_task sample_runtime (inr (Some sample_service)) "T1" "@default")
  = ([(TasklistsList, inr sample_lists);
      (TasksGet (JStr "L1") "T1", inr sample_task)],
     inr [("tasklist_id", JStr "L1"); ("task", sample_task)]) /\
  run (@move_task sample_runtime (inr (Some sample_service)) "T1" "@default"
         None (Some "T0"))
  = ([(TasklistsList, inr sample_lists);
      (TasksMove (JStr "L1") "T1" None (Some "T0"), inr sample_task)],
     inr [("tasklist_id", JStr "L1"); ("task", sample_task)]).
Proof.
  destruct (@get_and_move_return_the_answer sample_runtime sample_service
              "@default" sample_lists sample_ids (JStr "L1") eq_refl eq_refl
              sample_alias_resolves "T1") as [Hget Hmove].
  split; [apply Hget|apply Hmove]; reflexivity.
Defined.

Lemma create_tasklist_sends_title_witness :
  snd (run (create_tasklist (inr (Some sample_service)) "Errands"))
  = inr [("tasklist", sample_task)].
Proof.
  apply (create_tasklist_sends_title sample_service "Errands").
  reflexivity.
Defined.
